(** * Cortex-M4F exception handlers of CMSIS-RTOS RTX (irq_cm4f.S)

    A shallow embedding of
    [rtos/TARGET_CORTEX/rtx5/TARGET_RTOS_M4_M7/TOOLCHAIN_GCC/irq_cm4f.S]:
    the SVC dispatcher, the shared context-switch tail and the PendSV and
    SysTick trampolines.

    Every Thumb-2 instruction the file uses is a state transformer named
    after its mnemonic; every label of the file is a definition that chains
    the instructions of its block in source order and then continues with
    the block the assembler falls into (or branches to).  Machine words are
    integers reduced modulo 2^32, memory is byte addressed and little
    endian.  Code that is linked in from elsewhere (the service functions,
    [thread_switch_helper], the two policy handlers) is a parameter. *)

From Stdlib Require Import ZArith List Bool Lia.
Import ListNotations.
Local Open Scope Z_scope.

(* ------------------------------------------------------------------ *)
(** ** Machine words and byte-addressed memory *)

Definition wrap (x : Z) : Z := x mod 4294967296.
Arguments wrap : simpl never.

Definition is_word (x : Z) : Prop := 0 <= x < 4294967296.
Definition wordb (x : Z) : bool := (0 <=? x) && (x <? 4294967296).

Definition memory := Z -> Z.

Definition load8 (m : memory) (a : Z) : Z := m (wrap a) mod 256.

Definition store8 (m : memory) (a v : Z) : memory :=
  fun x => if x =? wrap a then v mod 256 else m x.

Definition load32 (m : memory) (a : Z) : Z :=
  load8 m a + 256 * load8 m (a + 1) + 65536 * load8 m (a + 2)
  + 16777216 * load8 m (a + 3).

Definition store32 (m : memory) (a v : Z) : memory :=
  store8 (store8 (store8 (store8 m a v) (a + 1) (v / 256))
                 (a + 2) (v / 65536)) (a + 3) (v / 16777216).

Fixpoint load_words (m : memory) (a : Z) (n : nat) : list Z :=
  match n with
  | O => []
  | S k => load32 m a :: load_words m (a + 4) k
  end.

Fixpoint store_words (m : memory) (a : Z) (vs : list Z) : memory :=
  match vs with
  | [] => m
  | v :: r => store_words (store32 m a v) (a + 4) r
  end.

Arguments load8 : simpl never.
Arguments store8 : simpl never.
Arguments load32 : simpl never.
Arguments store32 : simpl never.

(** [covers a n x]: the byte address [x] is one of the [n] bytes that an
    access at [a] touches (addresses wrap at 2^32). *)
Definition covers (a n x : Z) : Prop :=
  exists i, 0 <= i < n /\ x = wrap (a + i).

(* ------------------------------------------------------------------ *)
(** ** Registers, flags, events and the machine state *)

Definition reg := nat.
Definition R0 : reg := 0%nat.
Definition R1 : reg := 1%nat.
Definition R2 : reg := 2%nat.
Definition R3 : reg := 3%nat.
Definition R4 : reg := 4%nat.
Definition R5 : reg := 5%nat.
Definition R6 : reg := 6%nat.
Definition R7 : reg := 7%nat.
Definition R8 : reg := 8%nat.
Definition R9 : reg := 9%nat.
Definition R10 : reg := 10%nat.
Definition R11 : reg := 11%nat.
Definition R12 : reg := 12%nat.
Definition LR : reg := 14%nat.

Definition R4_R11 : list reg := [R4; R5; R6; R7; R8; R9; R10; R11].

(** First register and length of the range S16-S31. *)
Definition S16 : nat := 16%nat.
Definition S16_S31 : list nat := seq 16 16.

Definition upd (f : nat -> Z) (i : nat) (v : Z) : nat -> Z :=
  fun j => if Nat.eqb j i then v else f j.

Fixpoint upd_list (f : nat -> Z) (rl : list nat) (vs : list Z) : nat -> Z :=
  match rl, vs with
  | r :: rl', v :: vs' => upd_list (upd f r v) rl' vs'
  | _, _ => f
  end.

Record flags := mkFlags { fN : bool; fZ : bool; fC : bool; fV : bool }.

Inductive label :=
| L_SVC_Handler | L_SVC_Context | L_SVC_ContextSave | L_SVC_ContextSwitch
| L_SVC_ContextRestore | L_SVC_Exit | L_SVC_User | L_SVC_Done
| L_PendSV_Handler | L_SysTick_Handler.

(** What the handler code itself does, in program order: the labels it
    passes, the memory it reads and writes (first byte address and byte
    count), the external routines it calls (with the argument registers
    R0-R3 at the call) and the branch that leaves the handler. *)
Inductive event :=
| EvEnter (l : label)
| EvLoad (a n : Z)
| EvStore (a n : Z)
| EvCall (target a0 a1 a2 a3 : Z)
| EvExit (target : Z).

Record state := mkState {
  regs : nat -> Z;        (* R0-R12 and LR (index 14) *)
  msp : Z;                (* main stack pointer: SP in handler mode *)
  psp : Z;                (* process stack pointer *)
  sregs : nat -> Z;       (* S0-S31 *)
  apsr : flags;
  primask : bool;
  mem : memory;
  trace : list event
}.

Definition set_regs (s : state) (f : nat -> Z) : state :=
  mkState f (msp s) (psp s) (sregs s) (apsr s) (primask s) (mem s) (trace s).
Definition set_reg (s : state) (r : reg) (v : Z) : state :=
  set_regs s (upd (regs s) r v).
Definition set_msp (s : state) (v : Z) : state :=
  mkState (regs s) v (psp s) (sregs s) (apsr s) (primask s) (mem s) (trace s).
Definition set_psp (s : state) (v : Z) : state :=
  mkState (regs s) (msp s) v (sregs s) (apsr s) (primask s) (mem s) (trace s).
Definition set_sregs (s : state) (f : nat -> Z) : state :=
  mkState (regs s) (msp s) (psp s) f (apsr s) (primask s) (mem s) (trace s).
Definition set_apsr (s : state) (f : flags) : state :=
  mkState (regs s) (msp s) (psp s) (sregs s) f (primask s) (mem s) (trace s).
Definition set_primask (s : state) (b : bool) : state :=
  mkState (regs s) (msp s) (psp s) (sregs s) (apsr s) b (mem s) (trace s).
Definition set_mem (s : state) (m : memory) : state :=
  mkState (regs s) (msp s) (psp s) (sregs s) (apsr s) (primask s) m (trace s).
Definition set_trace (s : state) (t : list event) : state :=
  mkState (regs s) (msp s) (psp s) (sregs s) (apsr s) (primask s) (mem s) t.
Definition emit (e : event) (s : state) : state :=
  set_trace s (trace s ++ [e]).

(** Sequencing in program order. *)
Definition seq_instr (f g : state -> state) : state -> state :=
  fun s => g (f s).
Notation "f ;; g" := (seq_instr f g) (at level 61, left associativity).

Definition nop : state -> state := fun s => s.

(** A block assembled only under [#ifdef]. *)
Definition ifdef (flag : bool) (f : state -> state) : state -> state :=
  if flag then f else nop.

(* ------------------------------------------------------------------ *)
(** ** Instruction semantics *)

Inductive cond := EQ | NE | HI.

Definition holds (c : cond) (s : state) : bool :=
  match c with
  | EQ => fZ (apsr s)
  | NE => negb (fZ (apsr s))
  | HI => fC (apsr s) && negb (fZ (apsr s))
  end.

(** [IT c] followed by one conditional instruction. *)
Definition IT (c : cond) (f : state -> state) : state -> state :=
  fun s => if holds c s then f s else s.

(** Conditional branch: [target] when the condition holds, the next
    instruction otherwise. *)
Definition Bcond (c : cond) (target next : state -> state) : state -> state :=
  fun s => if holds c s then target s else next s.

Definition CBNZ (rn : reg) (target next : state -> state) : state -> state :=
  fun s => if wrap (regs s rn) =? 0 then next s else target s.

Definition enter (l : label) : state -> state := emit (EvEnter l).

Definition MRS_PSP (rd : reg) : state -> state :=
  fun s => set_reg s rd (psp s).

Definition MSR_PSP (rn : reg) : state -> state :=
  fun s => set_psp s (regs s rn).

(** [LDR Rt,=value]: the assembler places [value] in a literal pool. *)
Definition LDR_lit (rt : reg) (value : Z) : state -> state :=
  fun s => set_reg s rt (wrap value).

Definition LDR (rt rn : reg) (off : Z) : state -> state :=
  fun s =>
    let a := wrap (regs s rn + off) in
    emit (EvLoad a 4) (set_reg s rt (load32 (mem s) a)).

(** [LDR Rt,[Rn,Rm,LSL #sh]] *)
Definition LDR_lsl (rt rn rm : reg) (sh : Z) : state -> state :=
  fun s =>
    let a := wrap (regs s rn + Z.shiftl (regs s rm) sh) in
    emit (EvLoad a 4) (set_reg s rt (load32 (mem s) a)).

Definition LDRB (rt rn : reg) (off : Z) : state -> state :=
  fun s =>
    let a := wrap (regs s rn + off) in
    emit (EvLoad a 1) (set_reg s rt (load8 (mem s) a)).

Definition STR (rt rn : reg) (off : Z) : state -> state :=
  fun s =>
    let a := wrap (regs s rn + off) in
    emit (EvStore a 4) (set_mem s (store32 (mem s) a (regs s rt))).

Definition STRB (rt rn : reg) (off : Z) : state -> state :=
  fun s =>
    let a := wrap (regs s rn + off) in
    emit (EvStore a 1) (set_mem s (store8 (mem s) a (regs s rt))).

Definition nbytes (rl : list nat) : Z := 4 * Z.of_nat (length rl).
Arguments nbytes : simpl never.

(** [LDM Rn,{rl}]: no write-back; all words are read from the base held by
    [Rn] on entry, also when [Rn] is in the list. *)
Definition LDM (rn : reg) (rl : list reg) : state -> state :=
  fun s =>
    let a := wrap (regs s rn) in
    emit (EvLoad a (nbytes rl))
         (set_regs s (upd_list (regs s) rl (load_words (mem s) a (length rl)))).

(** [LDMIA Rn!,{rl}] *)
Definition LDMIA (rn : reg) (rl : list reg) : state -> state :=
  fun s =>
    let a := wrap (regs s rn) in
    let f := upd_list (regs s) rl (load_words (mem s) a (length rl)) in
    emit (EvLoad a (nbytes rl)) (set_regs s (upd f rn (wrap (a + nbytes rl)))).

(** [STM Rn,{rl}] *)
Definition STM (rn : reg) (rl : list reg) : state -> state :=
  fun s =>
    let a := wrap (regs s rn) in
    emit (EvStore a (nbytes rl))
         (set_mem s (store_words (mem s) a (map (regs s) rl))).

(** [STMDB Rn!,{rl}] *)
Definition STMDB (rn : reg) (rl : list reg) : state -> state :=
  fun s =>
    let a := wrap (regs s rn - nbytes rl) in
    emit (EvStore a (nbytes rl))
         (set_reg (set_mem s (store_words (mem s) a (map (regs s) rl))) rn a).

(** [VSTMDB Rn!,{sl}] *)
Definition VSTMDB (rn : reg) (sl : list nat) : state -> state :=
  fun s =>
    let a := wrap (regs s rn - nbytes sl) in
    emit (EvStore a (nbytes sl))
         (set_reg (set_mem s (store_words (mem s) a (map (sregs s) sl))) rn a).

(** [VLDMIA Rn!,{sl}] *)
Definition VLDMIA (rn : reg) (sl : list nat) : state -> state :=
  fun s =>
    let a := wrap (regs s rn) in
    let f := upd_list (sregs s) sl (load_words (mem s) a (length sl)) in
    emit (EvLoad a (nbytes sl))
         (set_reg (set_sregs s f) rn (wrap (a + nbytes sl))).

(** [PUSH {rl}] on the handler-mode stack (MSP). *)
Definition PUSH (rl : list reg) : state -> state :=
  fun s =>
    let a := wrap (msp s - nbytes rl) in
    emit (EvStore a (nbytes rl))
         (set_msp (set_mem s (store_words (mem s) a (map (regs s) rl))) a).

(** [POP {rl}] from the handler-mode stack (MSP). *)
Definition POP (rl : list reg) : state -> state :=
  fun s =>
    let a := wrap (msp s) in
    let f := upd_list (regs s) rl (load_words (mem s) a (length rl)) in
    emit (EvLoad a (nbytes rl)) (set_msp (set_regs s f) (wrap (a + nbytes rl))).

(** [POP {rl,PC}]: the last word popped is branched to, which leaves the
    handler. *)
Definition POP_PC (rl : list reg) : state -> state :=
  fun s =>
    let a := wrap (msp s) in
    let f := upd_list (regs s) rl (load_words (mem s) a (length rl)) in
    let n := nbytes rl + 4 in
    emit (EvExit (load32 (mem s) (a + nbytes rl)))
         (emit (EvLoad a n) (set_msp (set_regs s f) (wrap (a + n)))).

(** [BX LR] *)
Definition BX_LR : state -> state :=
  fun s => emit (EvExit (regs s LR)) s.

Definition sign (x : Z) : bool := Z.testbit x 31.

(** [CMP Rn,Rm]: flags of [Rn - Rm]. *)
Definition CMP (rn rm : reg) : state -> state :=
  fun s =>
    let a := wrap (regs s rn) in
    let b := wrap (regs s rm) in
    let r := wrap (a - b) in
    set_apsr s (mkFlags (sign r) (r =? 0) (b <=? a)
                        (xorb (sign a) (sign b) && xorb (sign a) (sign r))).

(** [TST Rn,#imm]: N and Z of [Rn AND imm]; the immediates used here leave
    the carry alone. *)
Definition TST (rn : reg) (imm : Z) : state -> state :=
  fun s =>
    let r := Z.land (wrap (regs s rn)) imm in
    set_apsr s (mkFlags (sign r) (r =? 0) (fC (apsr s)) (fV (apsr s))).

(** [BIC Rd,#imm] *)
Definition BIC (rd : reg) (imm : Z) : state -> state :=
  fun s => set_reg s rd (Z.ldiff (wrap (regs s rd)) imm).

(** [ORR Rd,Rn,#imm] *)
Definition ORR (rd rn : reg) (imm : Z) : state -> state :=
  fun s => set_reg s rd (Z.lor (wrap (regs s rn)) imm).

Definition CPSID_I : state -> state := fun s => set_primask s true.
Definition CPSIE_I : state -> state := fun s => set_primask s false.

(* ------------------------------------------------------------------ *)
(** ** The handlers *)

Definition I_T_RUN_OFS : Z := 28.      (* osRtxInfo.thread.run offset *)
Definition TCB_SP_OFS : Z := 56.       (* TCB.SP offset *)
Definition TCB_SF_OFS : Z := 34.       (* TCB.stack_frame offset *)
Definition FPCCR : Z := 0xE000EF34.    (* FPCCR Address *)

(** The five places where the file calls out. *)
Inductive call_site :=
| CS_service | CS_thread_switch_helper | CS_user | CS_pendsv | CS_tick.

Section Handlers.

(** Assembly-time switches. *)
Variable FPU_PRESENT : bool.          (* #ifdef __FPU_PRESENT *)
Variable FEATURE_UVISOR : bool.       (* #ifdef FEATURE_UVISOR *)

(** Link-time symbols. *)
Variable osRtxInfo : Z.
Variable osRtxUserSVC : Z.
Variable thread_switch_helper : Z.
Variable osRtxPendSV_Handler : Z.
Variable osRtxTick_Handler : Z.
(** Address of the instruction after each call. *)
Variable return_site : call_site -> Z.

(** [extern f s]: the machine when the routine at address [f], entered in
    state [s], returns.  What it does is not this file's business; it has
    no access to the record of what the handler did. *)
Variable extern : Z -> state -> state.

(** The state in which the callee is entered: LR holds the return
    address, with the Thumb bit. *)
Definition call_entry (cs : call_site) (s : state) : state :=
  set_reg s LR (Z.lor (wrap (return_site cs)) 1).

Definition call (cs : call_site) (target : Z) : state -> state :=
  fun s =>
    set_trace (extern target (call_entry cs s))
              (trace s ++ [EvCall target (regs s R0) (regs s R1)
                                  (regs s R2) (regs s R3)]).

(** [BL symbol] *)
Definition BL (cs : call_site) (symbol : Z) : state -> state :=
  call cs (wrap symbol).

(** [BLX Rm] *)
Definition BLX (cs : call_site) (rm : reg) : state -> state :=
  fun s => call cs (wrap (regs s rm)) s.

(** Address of osRtxInfo.thread.run: the pair (curr, next). *)
Definition run_addr : Z := wrap (osRtxInfo + I_T_RUN_OFS).

Definition SVC_Exit : state -> state :=
  enter L_SVC_Exit ;;
  BX_LR.                              (* Exit from handler *)

Definition SVC_ContextRestore_body : state -> state :=
  LDRB R1 R2 TCB_SF_OFS ;;            (* Load stack frame information *)
  LDR R0 R2 TCB_SP_OFS ;;             (* Load SP *)
  ORR LR R1 0xFFFFFF00 ;;             (* Set EXC_RETURN *)
  ifdef FPU_PRESENT
    (TST LR 0x10 ;;                   (* Check if extended stack frame *)
     IT EQ (VLDMIA R0 S16_S31)) ;;    (* Restore VFP S16..S31 *)
  LDMIA R0 R4_R11 ;;                  (* Restore R4..R11 *)
  MSR_PSP R0 ;;                       (* Set PSP *)
  ifdef FEATURE_UVISOR CPSIE_I.

Definition SVC_ContextRestore : state -> state :=
  enter L_SVC_ContextRestore ;;
  SVC_ContextRestore_body ;;
  SVC_Exit.

Definition SVC_ContextSwitch_body : state -> state :=
  ifdef FEATURE_UVISOR CPSID_I ;;
  BL CS_thread_switch_helper thread_switch_helper ;;
  LDR_lit R3 (osRtxInfo + I_T_RUN_OFS) ;;  (* address of osRtxInfo.run *)
  LDM R3 [R1; R2] ;;                  (* curr & next *)
  STR R2 R3 0.                        (* curr = next *)

Definition SVC_ContextSwitch : state -> state :=
  enter L_SVC_ContextSwitch ;;
  SVC_ContextSwitch_body ;;
  SVC_ContextRestore.

Definition SVC_ContextSave_body : state -> state :=
  STMDB R12 R4_R11 ;;                 (* Save R4..R11 *)
  ifdef FPU_PRESENT
    (TST LR 0x10 ;;                   (* Check if extended stack frame *)
     IT EQ (VSTMDB R12 S16_S31)) ;;   (* Save VFP S16.S31 *)
  STR R12 R1 TCB_SP_OFS ;;            (* Store SP *)
  STRB LR R1 TCB_SF_OFS.              (* Store stack frame information *)

Definition SVC_ContextSave : state -> state :=
  enter L_SVC_ContextSave ;;
  SVC_ContextSave_body ;;
  SVC_ContextSwitch.

(** Lines 74-78, assembled only with an FPU. *)
Definition clear_LSPACT : state -> state :=
  LDR_lit R1 FPCCR ;;                 (* FPCCR Address *)
  LDR R0 R1 0 ;;                      (* Load FPCCR *)
  BIC R0 1 ;;                         (* Clear LSPACT (Lazy state) *)
  STR R0 R1 0.                        (* Store FPCCR *)

(** Lines 70-79: the running thread may have been deleted.  Without an
    FPU nothing is assembled between [BNE] and [SVC_ContextSave]. *)
Definition SVC_Context_deleted : state -> state :=
  CBNZ R1 SVC_ContextSave             (* running thread is not deleted *)
    (TST LR 0x10 ;;                   (* Check if extended stack frame *)
     Bcond NE SVC_ContextSwitch
       (if FPU_PRESENT
        then clear_LSPACT ;; SVC_ContextSwitch   (* B SVC_ContextSwitch *)
        else SVC_ContextSave)).

(** Lines 64-66: read the pair and compare. *)
Definition SVC_Context_fetch : state -> state :=
  LDR_lit R3 (osRtxInfo + I_T_RUN_OFS) ;;  (* address of osRtxInfo.run *)
  LDM R3 [R1; R2] ;;                  (* curr & next *)
  CMP R1 R2.                          (* thread switch required? *)

Definition SVC_Context : state -> state :=
  enter L_SVC_Context ;;
  SVC_Context_fetch ;;
  Bcond EQ BX_LR                      (* IT EQ; BXEQ LR *)
    SVC_Context_deleted.

(** The two fields of osRtxInfo.thread.run as memory holds them. *)
Definition current (s : state) : Z := load32 (mem s) run_addr.
Definition next (s : state) : Z := load32 (mem s) (run_addr + 4).

Definition SVC_Done : state -> state :=
  enter L_SVC_Done ;;
  POP_PC [R4].                        (* Return from handler *)

(** Lines 134-139: the call of a user SVC function. *)
Definition SVC_User_call : state -> state :=
  LDR_lsl R4 R2 R1 2 ;;               (* Load address of SVC function *)
  LDM R0 [R0; R1; R2; R3] ;;          (* function parameters from stack *)
  BLX CS_user R4 ;;                   (* Call service function *)
  MRS_PSP R4 ;;                       (* Get PSP *)
  STR R0 R4 0.                        (* Store function return value *)

Definition SVC_User : state -> state :=
  enter L_SVC_User ;;
  PUSH [R4; LR] ;;                    (* Save registers *)
  LDR_lit R2 osRtxUserSVC ;;          (* Load address of SVC table *)
  LDR R3 R2 0 ;;                      (* Load SVC maximum number *)
  CMP R1 R3 ;;                        (* Check SVC number range *)
  Bcond HI SVC_Done                   (* Branch if out of range *)
    (SVC_User_call ;; SVC_Done).

(** Lines 57-61: SVC 0, the call of a kernel service. *)
Definition SVC_Handler_svc0 : state -> state :=
  PUSH [R0; LR] ;;                    (* Save PSP and EXC_RETURN *)
  LDM R0 [R0; R1; R2; R3; R12] ;;     (* parameters and address *)
  BLX CS_service R12 ;;               (* Call service function *)
  POP [R12; LR] ;;                    (* Restore PSP and EXC_RETURN *)
  STM R12 [R0; R1].                   (* Store function return values *)

(** Lines 52-54: fetch the SVC number. *)
Definition SVC_Handler_number : state -> state :=
  MRS_PSP R0 ;;                       (* Get PSP *)
  LDR R1 R0 24 ;;                     (* Load saved PC from stack *)
  LDRB R1 R1 (-2).                    (* Load SVC number *)

Definition SVC_Handler : state -> state :=
  enter L_SVC_Handler ;;
  SVC_Handler_number ;;
  CBNZ R1 SVC_User                    (* Branch if not SVC 0 *)
    (SVC_Handler_svc0 ;; SVC_Context).

(** Lines 155-158 and 172-175. *)
Definition trampoline (cs : call_site) (policy : Z) : state -> state :=
  PUSH [R4; LR] ;;                    (* Save EXC_RETURN *)
  BL cs policy ;;                     (* Call the policy handler *)
  POP [R4; LR] ;;                     (* Restore EXC_RETURN *)
  MRS_PSP R12.

Definition PendSV_Handler : state -> state :=
  enter L_PendSV_Handler ;;
  trampoline CS_pendsv osRtxPendSV_Handler ;;
  SVC_Context.                        (* B SVC_Context *)

Definition SysTick_Handler : state -> state :=
  enter L_SysTick_Handler ;;
  trampoline CS_tick osRtxTick_Handler ;;
  SVC_Context.                        (* B SVC_Context *)

(** The three exception vectors this file provides. *)
Inductive handler := H_SVC | H_PendSV | H_SysTick.

Definition run (h : handler) : state -> state :=
  match h with
  | H_SVC => SVC_Handler
  | H_PendSV => PendSV_Handler
  | H_SysTick => SysTick_Handler
  end.

(** The state in which a handler entered in [s] reaches [SVC_Context];
    a user SVC (number above 0) never does. *)
Definition tail_entry (h : handler) (s : state) : option state :=
  match h with
  | H_SVC =>
      let s0 := SVC_Handler_number (enter L_SVC_Handler s) in
      if wrap (regs s0 R1) =? 0 then Some (SVC_Handler_svc0 s0) else None
  | H_PendSV =>
      Some (trampoline CS_pendsv osRtxPendSV_Handler
                       (enter L_PendSV_Handler s))
  | H_SysTick =>
      Some (trampoline CS_tick osRtxTick_Handler
                       (enter L_SysTick_Handler s))
  end.

(** *** Program points

    The state in which each external routine is entered: the instructions
    in front of the call, then the link register.  [at_service_call]:
    lines 52-58, at [BLX R12].  [at_user_call]: lines 52-55 and 128-136,
    at [BLX R4], for a number the range check lets through.
    [at_policy_call]: lines 155-156 and 172-173, at [BL].
    [at_helper_call]: lines 93-102, at [BL thread_switch_helper], from the
    state in which [SVC_ContextSwitch] is reached. *)
Definition at_service_call : state -> state :=
  enter L_SVC_Handler ;;
  SVC_Handler_number ;;
  PUSH [R0; LR] ;;
  LDM R0 [R0; R1; R2; R3; R12] ;;
  call_entry CS_service.

Definition at_user_call : state -> state :=
  enter L_SVC_Handler ;;
  SVC_Handler_number ;;
  enter L_SVC_User ;;
  PUSH [R4; LR] ;;
  LDR_lit R2 osRtxUserSVC ;;
  LDR R3 R2 0 ;;
  CMP R1 R3 ;;
  LDR_lsl R4 R2 R1 2 ;;
  LDM R0 [R0; R1; R2; R3] ;;
  call_entry CS_user.

Definition at_policy_call (l : label) (cs : call_site) : state -> state :=
  enter l ;;
  PUSH [R4; LR] ;;
  call_entry cs.

Definition at_helper_call : state -> state :=
  enter L_SVC_ContextSwitch ;;
  ifdef FEATURE_UVISOR CPSID_I ;;
  call_entry CS_thread_switch_helper.

End Handlers.

(* ------------------------------------------------------------------ *)
(** ** Vocabulary of the specifications *)

(** [region a n]: the [n] bytes at [a] lie in the address space without
    wrapping around.  [apart a n b k]: two such ranges do not overlap. *)
Definition region (a n : Z) : Prop := 0 <= a /\ a + n <= 4294967296.
Definition apart (a n b k : Z) : Prop := a + n <= b \/ b + k <= a.

(** Bit 4 of EXC_RETURN (and of the stack_frame byte) is clear for an
    extended, FPU, stack frame. *)
Definition extended_frame (e : Z) : bool := Z.land (wrap e) 0x10 =? 0.

(** Bit 0 of FPCCR: lazy FPU state preservation is active. *)
Definition lspact (m : memory) : bool := Z.testbit (load32 m FPCCR) 0.

(** The two TCB fields the handlers use. *)
Definition tcb_sp (m : memory) (t : Z) : Z := load32 m (t + TCB_SP_OFS).
Definition tcb_stack_frame (m : memory) (t : Z) : Z := load8 m (t + TCB_SF_OFS).

(** What a caller may rely on when it enters an external routine [f] in
    state [st].  [keeps_stack f st]: the routine returns with the stack
    pointer it was given and has left alone the two words its caller
    pushed last. *)
Definition keeps_stack (f : state -> state) (st : state) : Prop :=
  msp (f st) = msp st /\
  forall x, covers (msp st) 8 x -> mem (f st) x = mem st x.

(** It returns with the process stack pointer it was entered with. *)
Definition keeps_psp (f : state -> state) (st : state) : Prop :=
  psp (f st) = psp st.

(** It returns with FPCCR as it was. *)
Definition keeps_fpccr (f : state -> state) (st : state) : Prop :=
  load32 (mem (f st)) FPCCR = load32 (mem st) FPCCR.

(** The SVC number: the byte two below the stacked return address. *)
Definition svc_number (s : state) : Z :=
  load8 (mem s) (load32 (mem s) (psp s + 24) - 2).

(** The machine right after exception entry from thread mode: the stacked
    frame (8 words) is on the process stack at PSP; the handler runs on the
    main stack, which has room for two more words and does not overlap the
    frame; LR holds EXC_RETURN. *)
Definition exception_entry (s : state) : Prop :=
  is_word (msp s) /\ region (msp s - 8) 8 /\
  is_word (psp s) /\ region (psp s) 32 /\
  apart (msp s - 8) 8 (psp s) 32 /\
  is_word (regs s LR) /\ is_word (regs s R4).

(** [touches ev x]: the event is a memory access that covers byte [x]. *)
Definition touches (ev : event) (x : Z) : Prop :=
  match ev with
  | EvLoad a k | EvStore a k => covers a k x
  | _ => False
  end.

(** [clear_of b k l]: every range of [l] lies in the address space and does
    not overlap the [k] bytes at [b]. *)
Definition clear_of (b k : Z) (l : list (Z * Z)) : Prop :=
  Forall (fun r => region (fst r) (snd r) /\ apart b k (fst r) (snd r)) l.

(** What the code in front of the switch tail may address: the top of the
    handler stack, the stacked frame, the SVC instruction and the user SVC
    table [T] (at most 255 entries after the count). *)
Definition entry_ranges (T : Z) (s : state) : list (Z * Z) :=
  [(msp s - 8, 8); (psp s, 32);
   (wrap (load32 (mem s) (psp s + 24) - 2), 1); (T, 1024)].

(** The memory accesses of the code in front of the tail (lines 52-61,
    127-142, 155-158 and 172-175), for a handler entered in state [s]. *)
Definition prelude_event (T : Z) (s : state) (ev : event) : Prop :=
  match ev with
  | EvStore a k =>
      (a = msp s - 8 /\ k = 8) \/ (a = psp s /\ (k = 8 \/ k = 4))
  | EvLoad a k =>
      (a = msp s - 8 /\ k = 8) \/ (a = psp s + 24 /\ k = 4) \/
      (a = wrap (load32 (mem s) (psp s + 24) - 2) /\ k = 1) \/
      (a = psp s /\ (k = 20 \/ k = 16)) \/
      (a = T /\ k = 4) \/ (a = T + 4 * svc_number s /\ k = 4)
  | _ => True
  end.

Section Events.
Variable FPU_PRESENT : bool.
Variable osRtxInfo : Z.

(** Events of lines 81-91 for outgoing thread [c], stack image top [p]
    and EXC_RETURN [e]. *)
Definition save_events (c p e : Z) : list event :=
  [EvEnter L_SVC_ContextSave; EvStore (wrap (p - 32)) 32]
  ++ (if FPU_PRESENT && extended_frame e
      then [EvStore (wrap (p - 32 - 64)) 64] else [])
  ++ [EvStore (wrap (c + TCB_SP_OFS)) 4; EvStore (wrap (c + TCB_SF_OFS)) 1].

(** Memory after lines 81-91, from memory [m] and register files [rf]
    (core) and [sf] (FPU). *)
Definition save_memory (m : memory) (rf sf : nat -> Z) (c p e : Z)
  : memory :=
  let ext := FPU_PRESENT && extended_frame e in
  let a1 := wrap (p - 32) in
  let a2 := if ext then wrap (p - 32 - 64) else a1 in
  let m1 := store_words m a1 (map rf R4_R11) in
  let m2 := if ext then store_words m1 a2 (map sf S16_S31) else m1 in
  store8 (store32 m2 (wrap (c + TCB_SP_OFS)) a2) (wrap (c + TCB_SF_OFS)) e.

(** Events of lines 93-106; [a0]-[a3] are R0-R3 at the call. *)
Definition switch_events (helper a0 a1 a2 a3 : Z) : list event :=
  [EvEnter L_SVC_ContextSwitch; EvCall (wrap helper) a0 a1 a2 a3;
   EvLoad (run_addr osRtxInfo) 8; EvStore (run_addr osRtxInfo) 4].

(** Events of lines 108-125 for incoming thread [n], read in memory [m]. *)
Definition restore_events (m : memory) (n : Z) : list event :=
  let sf := tcb_stack_frame m n in
  let sp := tcb_sp m n in
  let ext := FPU_PRESENT && extended_frame sf in
  [EvEnter L_SVC_ContextRestore;
   EvLoad (wrap (n + TCB_SF_OFS)) 1; EvLoad (wrap (n + TCB_SP_OFS)) 4]
  ++ (if ext then [EvLoad sp 64] else [])
  ++ [EvLoad (wrap (if ext then sp + 64 else sp)) 32;
      EvEnter L_SVC_Exit; EvExit (Z.lor sf 0xFFFFFF00)].

(** Events of a run of the tail that switches threads, as a function of
    the entry values ([c] = current, [p] = R12, [e] = LR), of R0-R3 at the
    call of the helper and of what the restore finds. *)
Definition switching_events (helper c p e a0 a1 a2 a3 : Z)
           (m' : memory) (n' : Z) : list event :=
  [EvEnter L_SVC_Context; EvLoad (run_addr osRtxInfo) 8]
  ++ (if c =? 0
      then if extended_frame e then [EvLoad FPCCR 4; EvStore FPCCR 4] else []
      else save_events c p e)
  ++ switch_events helper a0 a1 a2 a3
  ++ restore_events m' n'.

(** The memory accesses of the switch tail (lines 63-125) when it is
    entered in state [st] and left in state [s'].  Stores go
    to the first word of the pair, to FPCCR (deleted thread), or, on the
    save path only, below R12 and to the two TCB fields of [current].
    Loads read the pair, FPCCR, the two TCB fields of the thread that was
    published and its register image. *)
Definition tail_event (st s' : state) (ev : event) : Prop :=
  let c := current osRtxInfo st in
  let n := next osRtxInfo st in
  let p := regs st R12 in
  let e := regs st LR in
  let n' := current osRtxInfo s' in
  let sf' := tcb_stack_frame (mem s') n' in
  let sp' := tcb_sp (mem s') n' in
  match ev with
  | EvStore a k =>
      c <> n /\
      ((a = run_addr osRtxInfo /\ k = 4) \/
       (c = 0 /\ extended_frame e = true /\ a = FPCCR /\ k = 4) \/
       (c <> 0 /\
        ((a = wrap (p - 32) /\ k = 32) \/
         (extended_frame e = true /\ a = wrap (p - 32 - 64) /\ k = 64) \/
         (a = wrap (c + TCB_SP_OFS) /\ k = 4) \/
         (a = wrap (c + TCB_SF_OFS) /\ k = 1))))
  | EvLoad a k =>
      (a = run_addr osRtxInfo /\ k = 8) \/
      (c <> n /\
       ((c = 0 /\ a = FPCCR /\ k = 4) \/
        (a = wrap (n' + TCB_SF_OFS) /\ k = 1) \/
        (a = wrap (n' + TCB_SP_OFS) /\ k = 4) \/
        (FPU_PRESENT && extended_frame sf' = true /\
         ((a = sp' /\ k = 64) \/ (a = wrap (sp' + 64) /\ k = 32))) \/
        (FPU_PRESENT && extended_frame sf' = false /\
         a = wrap sp' /\ k = 32)))
  | EvEnter L_SVC_ContextSave => c <> n /\ c <> 0
  | _ => True
  end.

(** The frame a deleted thread leaves fits the build: a null [current]
    meets an EXC_RETURN with bit 0x10 clear only in an image assembled
    with __FPU_PRESENT.  (Without it lines 74-78 are not assembled and
    the tail would fall through into [SVC_ContextSave] with the null
    handle.) *)
Definition deleted_frame_fits (st : state) : Prop :=
  FPU_PRESENT = true \/
  (current osRtxInfo st = 0 -> extended_frame (regs st LR) = false).

(** What a saving run of the tail writes outside the pair: the register
    image below R12 and the two TCB fields of [current]. *)
Definition save_ranges (st : state) : list (Z * Z) :=
  let c := current osRtxInfo st in
  let size := if extended_frame (regs st LR) then 96 else 32 in
  [(regs st R12 - size, size); (c + TCB_SF_OFS, 1); (c + TCB_SP_OFS, 4)].

(** The tail entered in [st] takes the save path. *)
Definition saving (st : state) : Prop :=
  current osRtxInfo st <> next osRtxInfo st /\ current osRtxInfo st <> 0.
End Events.

Section Contracts.
Variable osRtxUserSVC : Z.
Variable osRtxPendSV_Handler : Z.
Variable osRtxTick_Handler : Z.
Variable return_site : call_site -> Z.
Variable extern : Z -> state -> state.

(** What a handler entered in [s] relies on from the one routine it
    calls in front of the tail, in the state in which it calls it.  The
    kernel service of SVC 0 (the function whose address is the stacked
    R12) and the policy routines of PendSV and SysTick return with MSP
    and the two words the handler pushed as they were; a user SVC
    function, called when the number is within the table count, returns
    with PSP as it was as well.  A user SVC above the count calls
    nothing. *)
Definition prelude_contract (h : handler) (s : state) : Prop :=
  match h with
  | H_SVC =>
      let n := svc_number s in
      let T := wrap osRtxUserSVC in
      if n =? 0
      then keeps_stack (extern (load32 (mem s) (psp s + 16)))
                       (at_service_call return_site s)
      else n <= load32 (mem s) T ->
           let fn := load32 (mem s) (T + 4 * n) in
           let sc := at_user_call osRtxUserSVC return_site s in
           keeps_stack (extern fn) sc /\ keeps_psp (extern fn) sc
  | H_PendSV =>
      keeps_stack (extern (wrap osRtxPendSV_Handler))
                  (at_policy_call return_site L_PendSV_Handler CS_pendsv s)
  | H_SysTick =>
      keeps_stack (extern (wrap osRtxTick_Handler))
                  (at_policy_call return_site L_SysTick_Handler CS_tick s)
  end.
End Contracts.

(* ------------------------------------------------------------------ *)
(** ** A concrete machine *)

(** An image with two threads, a three-entry user SVC table and one kernel
    service that returns (7, 9); all other external routines return at
    once.  The theorems below are instantiated on it. *)
Module Scenario.

Definition osRtxInfo : Z := 0x20000000.
Definition osRtxUserSVC : Z := 0x08001000.
Definition thread_switch_helper : Z := 0x08000101.
Definition osRtxPendSV_Handler : Z := 0x08000201.
Definition osRtxTick_Handler : Z := 0x08000301.
Definition return_site (cs : call_site) : Z := 0x08000400.
Definition service : Z := 0x08003001.
Definition user_fn : Z := 0x08002001.
Definition tcb_A : Z := 0x20001000.
Definition tcb_B : Z := 0x20002000.
Definition frame : Z := 0x20004000.       (* PSP at exception entry *)
Definition handler_stack : Z := 0x20010000.  (* MSP at exception entry *)
Definition svc_insn : Z := 0x08000150.

Definition extern (f : Z) (s : state) : state :=
  if f =? service then set_reg (set_reg s R0 7) R1 9
  else if f =? user_fn then set_reg s R0 42
  else s.

(** Thread B is suspended with a basic frame (stack_frame 0xFD) and its
    register image at 0x20008000. *)
Definition base_mem : memory :=
  store32 (store32 (store32 (store32 (store32 (store32 (store32
   (store32 (store32 (store32
   (store8 (store32 (fun _ => 0) (tcb_B + TCB_SP_OFS) 0x20008000)
           (tcb_B + TCB_SF_OFS) 0xFD)
     osRtxUserSVC 3) (osRtxUserSVC + 4) user_fn)
     FPCCR 0xC0000001)
     frame 1) (frame + 4) 2) (frame + 8) 3) (frame + 12) 4)
     (frame + 16) service) (frame + 20) 0x08000099) (frame + 24) (svc_insn + 2).

(** Memory with the pair set to ([cur], [nxt]) and SVC number [svc]. *)
Definition mem_with (cur nxt svc : Z) : memory :=
  store8 (store32 (store32 base_mem (osRtxInfo + I_T_RUN_OFS) cur)
                  (osRtxInfo + I_T_RUN_OFS + 4) nxt)
         svc_insn svc.

(** A thread interrupted with R[i] = 100 + i and S[i] = 1000 + i. *)
Definition entry (cur nxt svc lr : Z) : state :=
  mkState (fun r => if Nat.eqb r LR then lr else 100 + Z.of_nat r)
          handler_stack frame (fun i => 1000 + Z.of_nat i)
          (mkFlags false false false false) false
          (mem_with cur nxt svc) [].

(** The same at the entry of the switch tail: R12 holds PSP. *)
Definition at_tail (cur nxt lr : Z) : state :=
  set_reg (entry cur nxt 0 lr) R12 frame.

(** Thread A being saved (R1 = A) and, later, restored (R2 = A) by a
    processor whose registers have all been overwritten meanwhile. *)
Definition saving_A (lr : Z) : state :=
  set_reg (at_tail tcb_A tcb_B lr) R1 tcb_A.

Definition restoring_A (lr : Z) : state :=
  mkState (fun r => if Nat.eqb r R2 then tcb_A else 0)
          handler_stack 0 (fun _ => 0)
          (mkFlags false false false false) false
          (mem (SVC_ContextSave_body true (saving_A lr))) [].

(** A third thread, C, suspended with an extended frame (stack_frame
    0xED) and its register image at 0x20009000. *)
Definition tcb_C : Z := 0x20003000.
Definition data_word : Z := 0x20005000.

(** External routines that write memory.  The kernel service and the
    two policy routines elect thread B by storing it into [next]; the
    user function stores a word of its own data; the thread switch
    helper elects [again] instead.  The service returns (7, 9) and the
    user function 42. *)
Definition elect (t : Z) (s : state) : state :=
  set_mem s (store32 (mem s) (osRtxInfo + I_T_RUN_OFS + 4) t).

Definition electing (again : Z) (f : Z) (s : state) : state :=
  if f =? service then set_reg (set_reg (elect tcb_B s) R0 7) R1 9
  else if f =? user_fn
       then set_reg (set_mem s (store32 (mem s) data_word 1)) R0 42
  else if f =? osRtxPendSV_Handler then elect tcb_B s
  else if f =? osRtxTick_Handler then elect tcb_B s
  else if f =? thread_switch_helper then elect again s
  else s.

(** The entry states above, with thread C in memory. *)
Definition with_C (s : state) : state :=
  set_mem s (store8 (store32 (mem s) (tcb_C + TCB_SP_OFS) 0x20009000)
                    (tcb_C + TCB_SF_OFS) 0xED).

End Scenario.

(* ------------------------------------------------------------------ *)
(** ** Further vocabulary *)

(** More of what a caller may rely on when it enters [f] in state [st]:
    PRIMASK, the FPU registers, the AAPCS callee-saved core registers, or
    just the stack pointer come back as they were. *)
Definition keeps_primask (f : state -> state) (st : state) : Prop :=
  primask (f st) = primask st.

Definition keeps_sregs (f : state -> state) (st : state) : Prop :=
  sregs (f st) = sregs st.

Definition keeps_callee_saved (f : state -> state) (st : state) : Prop :=
  forall r, In r R4_R11 -> regs (f st) r = regs st r.

Definition keeps_msp (f : state -> state) (st : state) : Prop :=
  msp (f st) = msp st.

(** Targets of the calls recorded in a trace, in program order. *)
Fixpoint call_targets (evs : list event) : list Z :=
  match evs with
  | [] => []
  | EvCall t _ _ _ _ :: l => t :: call_targets l
  | _ :: l => call_targets l
  end.

(** Addresses of the stores recorded in a trace. *)
Fixpoint store_addresses (evs : list event) : list Z :=
  match evs with
  | [] => []
  | EvStore a _ :: l => a :: store_addresses l
  | _ :: l => store_addresses l
  end.

(** EXC_RETURN as the hardware writes it: the top 24 bits are ones. *)
Definition exc_return (e : Z) : Prop := 0xFFFFFF00 <= e < 4294967296.

Section Points.
Variable FPU_PRESENT : bool.
Variable osRtxInfo : Z.

(** The state in which a run of the tail that switches, entered in [st],
    reaches [SVC_ContextSwitch] (lines 64-91): after the save for a live
    thread; for a deleted one after the test of EXC_RETURN and, when bit
    0x10 is clear, after the clearing of LSPACT or, without an FPU, after
    the save the code falls into. *)
Definition before_switch (st : state) : state :=
  let s0 := SVC_Context_fetch osRtxInfo (enter L_SVC_Context st) in
  if wrap (regs s0 R1) =? 0
  then let s1 := TST LR 0x10 s0 in
       if holds NE s1 then s1
       else if FPU_PRESENT then clear_LSPACT s1
            else SVC_ContextSave_body FPU_PRESENT
                   (enter L_SVC_ContextSave s1)
  else SVC_ContextSave_body FPU_PRESENT (enter L_SVC_ContextSave s0).
End Points.

Section CalleeContracts.
Variable osRtxUserSVC : Z.
Variable osRtxPendSV_Handler : Z.
Variable osRtxTick_Handler : Z.
Variable return_site : call_site -> Z.
Variable extern : Z -> state -> state.

(** [prelude_keeps P h s]: the routine a handler entered in [s] calls in
    front of the tail satisfies [P] in the state in which it is called. *)
Definition prelude_keeps (P : (state -> state) -> state -> Prop)
           (h : handler) (s : state) : Prop :=
  match h with
  | H_SVC =>
      let n := svc_number s in
      let T := wrap osRtxUserSVC in
      if n =? 0
      then P (extern (load32 (mem s) (psp s + 16)))
             (at_service_call return_site s)
      else n <= load32 (mem s) T ->
           P (extern (load32 (mem s) (T + 4 * n)))
             (at_user_call osRtxUserSVC return_site s)
  | H_PendSV =>
      P (extern (wrap osRtxPendSV_Handler))
        (at_policy_call return_site L_PendSV_Handler CS_pendsv s)
  | H_SysTick =>
      P (extern (wrap osRtxTick_Handler))
        (at_policy_call return_site L_SysTick_Handler CS_tick s)
  end.
End CalleeContracts.

(* ------------------------------------------------------------------ *)
(** ** Words and memory: basic facts *)

Ltac euclid := Z.to_euclidean_division_equations; lia.
Ltac wrap_arith :=
  unfold covers, region, apart, is_word, wrap in *; euclid.

Lemma wrap_small x : is_word x -> wrap x = x.
Proof. unfold is_word, wrap. intros. apply Z.mod_small. lia. Qed.

Lemma wrap_range x : is_word (wrap x).
Proof. unfold is_word, wrap. apply Z.mod_pos_bound. lia. Qed.

Lemma wrap_wrap x : wrap (wrap x) = wrap x.
Proof. apply wrap_small, wrap_range. Qed.

Lemma wrap_add_l a b : wrap (wrap a + b) = wrap (a + b).
Proof. unfold wrap. apply Zplus_mod_idemp_l. Qed.

Lemma load8_range m a : 0 <= load8 m a < 256.
Proof. unfold load8. apply Z.mod_pos_bound. lia. Qed.

Lemma load32_range m a : is_word (load32 m a).
Proof.
  unfold load32, is_word.
  pose proof (load8_range m a). pose proof (load8_range m (a + 1)).
  pose proof (load8_range m (a + 2)). pose proof (load8_range m (a + 3)).
  lia.
Qed.

Lemma load8_wrap m a : load8 m (wrap a) = load8 m a.
Proof. unfold load8. now rewrite wrap_wrap. Qed.

Lemma load8_wrap_add m a i : load8 m (wrap a + i) = load8 m (a + i).
Proof. unfold load8. now rewrite wrap_add_l. Qed.

Lemma load32_wrap m a : load32 m (wrap a) = load32 m a.
Proof. unfold load32. now rewrite !load8_wrap_add, load8_wrap. Qed.

Lemma load8_ext m m' a : m' (wrap a) = m (wrap a) -> load8 m' a = load8 m a.
Proof. unfold load8. now intros ->. Qed.

Lemma covers_intro a n i : 0 <= i < n -> covers a n (wrap (a + i)).
Proof. intros. now exists i. Qed.

Lemma load32_ext m m' a :
  (forall x, covers a 4 x -> m' x = m x) -> load32 m' a = load32 m a.
Proof.
  intros H. unfold load32.
  rewrite (load8_ext m m' (a + 1)), (load8_ext m m' (a + 2)),
    (load8_ext m m' (a + 3)) by (apply H, covers_intro; lia).
  rewrite (load8_ext m m' a); [reflexivity|].
  replace a with (a + 0) at 1 2 by lia. apply H, covers_intro. lia.
Qed.

Lemma covers_shift a n x k :
  0 <= k -> covers (a + k) n x -> covers a (n + k) x.
Proof.
  intros Hk [i [Hi ->]]. exists (k + i). split; [lia|]. f_equal. lia.
Qed.

Lemma covers_mono a n n' x : n <= n' -> covers a n x -> covers a n' x.
Proof. intros Hn [i [Hi ->]]. exists i. split; [lia|reflexivity]. Qed.

Lemma load_words_ext m m' n : forall a,
  (forall x, covers a (4 * Z.of_nat n) x -> m' x = m x) ->
  load_words m' a n = load_words m a n.
Proof.
  induction n as [|n IH]; intros a H; [reflexivity|].
  cbn [load_words]. f_equal.
  - apply load32_ext. intros x Hx. apply H. eapply covers_mono; [|exact Hx]. lia.
  - apply IH. intros x Hx. apply H.
    replace (4 * Z.of_nat (S n)) with (4 * Z.of_nat n + 4) by lia.
    apply covers_shift; [lia|exact Hx].
Qed.

Lemma store8_other m a v x : x <> wrap a -> store8 m a v x = m x.
Proof. unfold store8. intros H. destruct (Z.eqb_spec x (wrap a)); congruence. Qed.

Lemma store32_other m a v x : ~ covers a 4 x -> store32 m a v x = m x.
Proof.
  intros H. unfold store32.
  rewrite !store8_other; [reflexivity| | | |];
    intros ->; apply H.
  - replace a with (a + 0) at 2 by lia. apply covers_intro. lia.
  - apply covers_intro. lia.
  - apply covers_intro. lia.
  - apply covers_intro. lia.
Qed.

Lemma store_words_other vs : forall m a x,
  ~ covers a (4 * Z.of_nat (length vs)) x -> store_words m a vs x = m x.
Proof.
  induction vs as [|v vs IH]; intros m a x H; [reflexivity|].
  cbn [store_words]. rewrite IH.
  - apply store32_other. intros Hc. apply H.
    eapply covers_mono; [|exact Hc]. cbn [length]. lia.
  - intros Hc. apply H.
    replace (4 * Z.of_nat (length (v :: vs))) with (4 * Z.of_nat (length vs) + 4)
      by (cbn [length]; lia).
    apply covers_shift; [lia|exact Hc].
Qed.

Lemma load8_store8_same m a v : load8 (store8 m a v) a = v mod 256.
Proof.
  unfold load8, store8. rewrite Z.eqb_refl. apply Z.mod_mod. lia.
Qed.

Lemma load8_store8_other m a v b :
  wrap b <> wrap a -> load8 (store8 m a v) b = load8 m b.
Proof. intros H. unfold load8. now rewrite store8_other. Qed.

Lemma wrap_add_neq a i j : 0 <= i < 4294967296 -> 0 <= j < 4294967296 -> i <> j ->
  wrap (a + i) <> wrap (a + j).
Proof. intros. wrap_arith. Qed.

Lemma bytes_of_word v :
  v mod 256 + 256 * ((v / 256) mod 256) + 65536 * ((v / 65536) mod 256)
  + 16777216 * ((v / 16777216) mod 256) = wrap v.
Proof. unfold wrap. euclid. Qed.

Lemma load8_store8_above m a i v :
  0 < i < 4294967296 -> load8 (store8 m (a + i) v) a = load8 m a.
Proof. intros H. apply load8_store8_other. wrap_arith. Qed.

Lemma load32_store32_same m a v : load32 (store32 m a v) a = wrap v.
Proof.
  unfold load32, store32.
  rewrite load8_store8_same.
  rewrite (load8_store8_other _ (a + 3) _ (a + 2)) by (apply wrap_add_neq; lia).
  rewrite load8_store8_same.
  rewrite !(load8_store8_other _ _ _ (a + 1)) by (apply wrap_add_neq; lia).
  rewrite load8_store8_same.
  rewrite !load8_store8_above by lia.
  rewrite load8_store8_same.
  apply bytes_of_word.
Qed.

Lemma covers_next_word a n i :
  0 <= i < 4 -> 4 + n <= 4294967296 -> ~ covers (a + 4) n (wrap (a + i)).
Proof. intros Hi Hn [j [Hj H]]. wrap_arith. Qed.

Lemma load_words_store_words vs : forall m a,
  4 * Z.of_nat (length vs) <= 4294967296 ->
  load_words (store_words m a vs) a (length vs) = map wrap vs.
Proof.
  induction vs as [|v vs IH]; intros m a H; [reflexivity|].
  cbn [length] in H. cbn [store_words load_words map length]. f_equal.
  - rewrite <- (load32_store32_same m a v).
    apply load32_ext. intros x [i [Hi ->]]. apply store_words_other.
    apply covers_next_word; lia.
  - apply IH. lia.
Qed.

Lemma covers_apart a n b k x :
  region a n -> region b k -> apart a n b k -> covers a n x -> ~ covers b k x.
Proof. intros Ha Hb Hab [i [Hi ->]] [j [Hj H]]. wrap_arith. Qed.

Lemma store8_outside m a v x : ~ covers a 1 x -> store8 m a v x = m x.
Proof.
  intros H. apply store8_other. intros ->. apply H.
  exists 0. split; [lia|]. f_equal. lia.
Qed.

Lemma store_words_outside vs n m a x :
  4 * Z.of_nat (length vs) = n -> ~ covers a n x -> store_words m a vs x = m x.
Proof. intros <-. apply store_words_other. Qed.

Lemma covers_sub a n b k x :
  0 <= b - a -> b - a + k <= n -> covers b k x -> covers a n x.
Proof.
  intros H1 H2 [i [Hi ->]]. exists (b - a + i). split; [lia|]. f_equal. lia.
Qed.

Lemma map_eq_In {A B} (f g : A -> B) l x :
  map f l = map g l -> In x l -> f x = g x.
Proof.
  induction l as [|y l IH]; cbn; [contradiction|].
  intros H [->|Hin]; [congruence|]. apply IH; [congruence|assumption].
Qed.

Lemma map_wrap_words {A} (f : A -> Z) l :
  Forall (fun r => is_word (f r)) l -> map wrap (map f l) = map f l.
Proof.
  induction 1 as [|r l Hr _ IH]; [reflexivity|].
  cbn [map]. now rewrite IH, wrap_small.
Qed.

Lemma land_wrap_16 x : Z.land (wrap x) 16 = Z.land x 16.
Proof.
  unfold wrap. change 4294967296 with (2 ^ 32).
  rewrite <- Z.land_ones by lia. rewrite <- Z.land_assoc. reflexivity.
Qed.

Lemma land_byte_16 x : Z.land (x mod 256) 16 = Z.land x 16.
Proof.
  change 256 with (2 ^ 8).
  rewrite <- Z.land_ones by lia. rewrite <- Z.land_assoc. reflexivity.
Qed.

Lemma extended_frame_byte e : extended_frame (e mod 256) = extended_frame e.
Proof. unfold extended_frame. now rewrite !land_wrap_16, land_byte_16. Qed.

Lemma extended_frame_exc_return sf :
  extended_frame (Z.lor sf 0xFFFFFF00) = extended_frame sf.
Proof.
  unfold extended_frame. rewrite !land_wrap_16, Z.land_lor_distr_l.
  change (Z.land 0xFFFFFF00 16) with 0. now rewrite Z.lor_0_r.
Qed.

Lemma extended_frame_wrap e : extended_frame (wrap e) = extended_frame e.
Proof. unfold extended_frame. now rewrite wrap_wrap. Qed.

Lemma load_words_cong m n : forall a b,
  wrap a = wrap b -> load_words m a n = load_words m b n.
Proof.
  induction n as [|n IH]; intros a b H; [reflexivity|].
  cbn [load_words]. f_equal.
  - now rewrite <- (load32_wrap m a), H, load32_wrap.
  - apply IH. now rewrite <- (wrap_add_l a), H, wrap_add_l.
Qed.

Lemma load_words_wrap m a n : load_words m (wrap a) n = load_words m a n.
Proof. apply load_words_cong, wrap_wrap. Qed.

Lemma load_words_length m n : forall a, length (load_words m a n) = n.
Proof. induction n; intros; cbn [load_words length]; congruence. Qed.

Lemma upd_list_other rl : forall f vs r,
  ~ In r rl -> upd_list f rl vs r = f r.
Proof.
  induction rl as [|x rl IH]; intros f vs r H; [reflexivity|].
  destruct vs as [|v vs]; [reflexivity|]. cbn [upd_list].
  rewrite IH by (intros Hr; apply H; now right).
  unfold upd. destruct (Nat.eqb_spec r x); [|reflexivity].
  exfalso. apply H. now left.
Qed.

Lemma map_upd_list rl : forall f vs,
  NoDup rl -> length vs = length rl -> map (upd_list f rl vs) rl = vs.
Proof.
  induction rl as [|x rl IH]; intros f vs Hnd Hlen.
  - destruct vs; [reflexivity|discriminate].
  - destruct vs as [|v vs]; [discriminate|].
    inversion Hnd; subst. cbn [map upd_list]. f_equal.
    + rewrite upd_list_other by assumption. unfold upd. now rewrite Nat.eqb_refl.
    + apply IH; [assumption|]. cbn [length] in Hlen. congruence.
Qed.

Lemma map_upd_other rl f r v :
  ~ In r rl -> map (upd f r v) rl = map f rl.
Proof.
  intros H. apply map_ext_in. intros x Hx. unfold upd.
  destruct (Nat.eqb_spec x r); [subst; contradiction|reflexivity].
Qed.

Lemma callee_saved_regs f vs :
  length vs = 8%nat -> map (upd_list f R4_R11 vs) R4_R11 = vs.
Proof. intros H. apply map_upd_list; [|exact H]. unfold R4_R11. repeat (constructor; [cbn; intuition discriminate|]). constructor. Qed.

Ltac not_in_list := cbn; intuition discriminate.

Lemma NoDup_R4_R11 : NoDup R4_R11.
Proof.
  unfold R4_R11. repeat (constructor; [cbn; intuition discriminate|]). constructor.
Qed.

Lemma NoDup_S16_S31 : NoDup S16_S31.
Proof. apply List.seq_NoDup. Qed.

Lemma wrap_load32 m a : wrap (load32 m a) = load32 m a.
Proof. apply wrap_small, load32_range. Qed.

Lemma wrap_sub_l a b : wrap (wrap a - b) = wrap (a - b).
Proof. unfold wrap. apply Zminus_mod_idemp_l. Qed.

Lemma wrap_load8 m a : wrap (load8 m a) = load8 m a.
Proof. apply wrap_small. pose proof (load8_range m a). unfold is_word. lia. Qed.

Lemma nbytes_R4_R11 : nbytes R4_R11 = 32.
Proof. reflexivity. Qed.

Lemma nbytes_S16_S31 : nbytes S16_S31 = 64.
Proof. reflexivity. Qed.

Create Rewrite HintDb norm.
#[global] Hint Rewrite wrap_wrap wrap_add_l wrap_sub_l wrap_load32 wrap_load8
  load32_wrap load8_wrap load_words_wrap nbytes_R4_R11 nbytes_S16_S31
  Z.add_0_r : norm.

Ltac norm :=
  autorewrite with norm; rewrite <- ?app_assoc; cbn [app].

Ltac step := cbn -[wrap R4_R11 S16_S31 Z.shiftl Z.mul].

Strategy 100 [wrap load8 load32 store8 store32 load_words store_words].
Strategy expand [seq_instr at_service_call at_user_call at_policy_call
                 at_helper_call].

Section Correctness.
Variable FPU_PRESENT : bool.
Variable FEATURE_UVISOR : bool.
Variable osRtxInfo : Z.
Variable osRtxUserSVC : Z.
Variable thread_switch_helper : Z.
Variable osRtxPendSV_Handler : Z.
Variable osRtxTick_Handler : Z.
Variable return_site : call_site -> Z.
Variable extern : Z -> state -> state.

Local Abbreviation run_addr := (run_addr osRtxInfo).
Local Abbreviation current := (current osRtxInfo).
Local Abbreviation next := (next osRtxInfo).
Local Abbreviation call_entry := (call_entry return_site).
Local Abbreviation SVC_Context_fetch := (SVC_Context_fetch osRtxInfo).
Local Abbreviation SVC_Context := (SVC_Context FPU_PRESENT FEATURE_UVISOR osRtxInfo thread_switch_helper return_site extern).
Local Abbreviation SVC_Context_deleted := (SVC_Context_deleted FPU_PRESENT FEATURE_UVISOR osRtxInfo thread_switch_helper return_site extern).
Local Abbreviation SVC_ContextSave := (SVC_ContextSave FPU_PRESENT FEATURE_UVISOR osRtxInfo thread_switch_helper return_site extern).
Local Abbreviation SVC_ContextSave_body := (SVC_ContextSave_body FPU_PRESENT).
Local Abbreviation SVC_ContextSwitch := (SVC_ContextSwitch FPU_PRESENT FEATURE_UVISOR osRtxInfo thread_switch_helper return_site extern).
Local Abbreviation SVC_ContextSwitch_body := (SVC_ContextSwitch_body FEATURE_UVISOR osRtxInfo thread_switch_helper return_site extern).
Local Abbreviation SVC_ContextRestore := (SVC_ContextRestore FPU_PRESENT FEATURE_UVISOR).
Local Abbreviation SVC_ContextRestore_body := (SVC_ContextRestore_body FPU_PRESENT FEATURE_UVISOR).
Local Abbreviation SVC_Handler := (SVC_Handler FPU_PRESENT FEATURE_UVISOR osRtxInfo osRtxUserSVC thread_switch_helper return_site extern).
Local Abbreviation PendSV_Handler := (PendSV_Handler FPU_PRESENT FEATURE_UVISOR osRtxInfo thread_switch_helper osRtxPendSV_Handler return_site extern).
Local Abbreviation SysTick_Handler := (SysTick_Handler FPU_PRESENT FEATURE_UVISOR osRtxInfo thread_switch_helper osRtxTick_Handler return_site extern).
Local Abbreviation SVC_User := (SVC_User osRtxUserSVC return_site extern).
Local Abbreviation SVC_Handler_svc0 := (SVC_Handler_svc0 return_site extern).
Local Abbreviation trampoline := (trampoline return_site extern).
Local Abbreviation run := (run FPU_PRESENT FEATURE_UVISOR osRtxInfo osRtxUserSVC thread_switch_helper osRtxPendSV_Handler osRtxTick_Handler return_site extern).
Local Abbreviation tail_entry := (tail_entry osRtxPendSV_Handler osRtxTick_Handler return_site extern).
Local Abbreviation save_events := (save_events FPU_PRESENT).
Local Abbreviation tail_event := (tail_event FPU_PRESENT osRtxInfo).
Local Abbreviation deleted_frame_fits :=
  (deleted_frame_fits FPU_PRESENT osRtxInfo).
Local Abbreviation save_ranges := (save_ranges osRtxInfo).
Local Abbreviation saving := (saving osRtxInfo).
Local Abbreviation T_svc := (wrap osRtxUserSVC).
Local Abbreviation save_memory := (save_memory FPU_PRESENT).
Local Abbreviation clear_LSPACT := clear_LSPACT.
Local Abbreviation switch_events := (switch_events osRtxInfo).
Local Abbreviation restore_events := (restore_events FPU_PRESENT).
Local Abbreviation switching_events :=
  (switching_events FPU_PRESENT osRtxInfo thread_switch_helper).
Local Abbreviation at_service_call := (at_service_call return_site).
Local Abbreviation at_user_call := (at_user_call osRtxUserSVC return_site).
Local Abbreviation at_policy_call := (at_policy_call return_site).
Local Abbreviation at_helper_call :=
  (at_helper_call FEATURE_UVISOR return_site).
Local Abbreviation prelude_contract :=
  (prelude_contract osRtxUserSVC osRtxPendSV_Handler osRtxTick_Handler
                    return_site extern).
Local Abbreviation before_switch := (before_switch FPU_PRESENT osRtxInfo).
Local Abbreviation prelude_keeps :=
  (prelude_keeps osRtxUserSVC osRtxPendSV_Handler osRtxTick_Handler
                 return_site extern).
Local Abbreviation helper_entry s :=
  (call_entry CS_thread_switch_helper (ifdef FEATURE_UVISOR CPSID_I s)).

Lemma fetch_regs s r :
  regs (SVC_Context_fetch s) r =
  if Nat.eqb r R2 then next s else if Nat.eqb r R1 then current s
  else if Nat.eqb r R3 then run_addr else regs s r.
Proof.
  cbn. unfold upd, next, current, run_addr.
  rewrite !wrap_wrap, load32_wrap, <- (load32_wrap _ (wrap _ + 4)), wrap_add_l, load32_wrap.
  reflexivity.
Qed.

Lemma IT_EQ_TST f s0 :
  IT EQ f (TST LR 16 s0) =
  if extended_frame (regs s0 LR) then f (TST LR 16 s0) else TST LR 16 s0.
Proof. reflexivity. Qed.

Lemma restore_body_spec s :
  let t := regs s R2 in
  let sf := load8 (mem s) (t + TCB_SF_OFS) in
  let sp := load32 (mem s) (t + TCB_SP_OFS) in
  let ext := FPU_PRESENT && extended_frame sf in
  let base := if ext then sp + 64 else sp in
  let s' := SVC_ContextRestore_body s in
  mem s' = mem s /\ msp s' = msp s /\
  psp s' = wrap (base + 32) /\
  regs s' LR = Z.lor sf 0xFFFFFF00 /\
  map (regs s') R4_R11 = load_words (mem s) base 8 /\
  sregs s' = (if ext then upd_list (sregs s) S16_S31 (load_words (mem s) sp 16)
              else sregs s) /\
  trace s' = trace s ++ [EvLoad (wrap (t + TCB_SF_OFS)) 1;
                         EvLoad (wrap (t + TCB_SP_OFS)) 4]
               ++ (if ext then [EvLoad sp 64] else [])
               ++ [EvLoad (wrap base) 32].
Proof.
  cbv zeta.
  unfold SVC_ContextRestore_body, seq_instr.
  destruct FPU_PRESENT; unfold ifdef; cbn [andb].
  - rewrite IT_EQ_TST.
    replace (extended_frame (regs _ LR))
      with (extended_frame (load8 (mem s) (regs s R2 + TCB_SF_OFS))).
    2:{ cbn. now rewrite extended_frame_exc_return, extended_frame_wrap, load8_wrap. }
    destruct (extended_frame _);
      destruct FEATURE_UVISOR; step; norm;
        rewrite upd_list_other by not_in_list;
        rewrite map_upd_other by not_in_list;
        rewrite callee_saved_regs by apply load_words_length;
        repeat split; reflexivity.
  - destruct FEATURE_UVISOR; step; norm;
        rewrite upd_list_other by not_in_list;
        rewrite map_upd_other by not_in_list;
        rewrite callee_saved_regs by apply load_words_length;
        repeat split; reflexivity.
Qed.

Lemma save_body_spec s :
  let p := regs s R12 in
  let e := regs s LR in
  let t := regs s R1 in
  let ext := FPU_PRESENT && extended_frame e in
  let a1 := wrap (p - 32) in
  let a2 := if ext then wrap (p - 32 - 64) else a1 in
  let m1 := store_words (mem s) a1 (map (regs s) R4_R11) in
  let m2 := if ext then store_words m1 a2 (map (sregs s) S16_S31) else m1 in
  let s' := SVC_ContextSave_body s in
  mem s' = store8 (store32 m2 (wrap (t + TCB_SP_OFS)) a2)
                  (wrap (t + TCB_SF_OFS)) e /\
  (forall r, r <> R12 -> regs s' r = regs s r) /\
  regs s' R12 = a2 /\
  psp s' = psp s /\ msp s' = msp s /\ sregs s' = sregs s /\
  primask s' = primask s /\
  trace s' = trace s ++ [EvStore a1 32]
               ++ (if ext then [EvStore a2 64] else [])
               ++ [EvStore (wrap (t + TCB_SP_OFS)) 4;
                   EvStore (wrap (t + TCB_SF_OFS)) 1].
Proof.
  cbv zeta.
  unfold SVC_ContextSave_body, seq_instr.
  assert (Hupd : forall f v r, r <> R12 -> upd f R12 v r = f r).
  { intros f v r Hr. unfold upd. destruct (Nat.eqb_spec r R12); congruence. }
  destruct FPU_PRESENT; unfold ifdef; cbn [andb].
  - rewrite IT_EQ_TST.
    replace (extended_frame (regs _ LR)) with (extended_frame (regs s LR))
      by reflexivity.
    destruct (extended_frame _); step; norm;
      repeat split; try reflexivity; intros r Hr; now rewrite ?Hupd.
  - step; norm. repeat split; try reflexivity. intros r Hr; now rewrite ?Hupd.
Qed.

Lemma switch_body_spec s :
  let s1 := extern (wrap thread_switch_helper)
                   (call_entry CS_thread_switch_helper
                               (ifdef FEATURE_UVISOR CPSID_I s)) in
  let s' := SVC_ContextSwitch_body s in
  mem s' = store32 (mem s1) run_addr (next s1) /\
  regs s' R2 = next s1 /\
  (forall r, In r R4_R11 -> regs s' r = regs s1 r) /\
  psp s' = psp s1 /\ msp s' = msp s1 /\ sregs s' = sregs s1 /\
  trace s' = trace s ++ [EvCall (wrap thread_switch_helper) (regs s R0)
                                (regs s R1) (regs s R2) (regs s R3);
                         EvLoad run_addr 8; EvStore run_addr 4].
Proof.
  cbv zeta.
  unfold SVC_ContextSwitch_body, seq_instr,
    next, run_addr, BL.
  destruct FEATURE_UVISOR; unfold ifdef; step; norm;
    repeat split; try reflexivity;
    intros r Hr; unfold R4_R11 in Hr; cbn in Hr;
    (repeat destruct Hr as [<- | Hr]); try reflexivity; contradiction.
Qed.

Lemma fetch_Z s : fZ (apsr (SVC_Context_fetch s)) = (current s =? next s).
Proof.
  cbn. unfold next, current, run_addr.
  norm.
  set (c := load32 (mem s) (osRtxInfo + I_T_RUN_OFS)).
  set (n := load32 (mem s) (wrap (osRtxInfo + I_T_RUN_OFS) + 4)).
  assert (is_word c) by apply load32_range.
  assert (is_word n) by apply load32_range.
  destruct (Z.eqb_spec c n) as [E|E].
  - rewrite E, Z.sub_diag. reflexivity.
  - apply Z.eqb_neq. wrap_arith.
Qed.

Lemma fetch_frame s :
  let s' := SVC_Context_fetch s in
  mem s' = mem s /\ psp s' = psp s /\ msp s' = msp s /\
  sregs s' = sregs s /\ primask s' = primask s /\
  trace s' = trace s ++ [EvLoad run_addr 8].
Proof.
  cbv zeta. unfold run_addr. step; norm. repeat split; reflexivity.
Qed.

(** From [SVC_ContextSwitch] to the exit. *)
Lemma switch_onwards sA :
  let s1 := extern (wrap thread_switch_helper)
                   (helper_entry (enter L_SVC_ContextSwitch sA)) in
  let n1 := next s1 in
  let m2 := store32 (mem s1) run_addr n1 in
  let sf := tcb_stack_frame m2 n1 in
  let sp := tcb_sp m2 n1 in
  let ext := FPU_PRESENT && extended_frame sf in
  let base := if ext then sp + 64 else sp in
  let s' := SVC_ContextSwitch sA in
  mem s' = m2 /\ msp s' = msp s1 /\
  psp s' = wrap (base + 32) /\
  regs s' LR = Z.lor sf 0xFFFFFF00 /\
  map (regs s') R4_R11 = load_words m2 base 8 /\
  sregs s' = (if ext then upd_list (sregs s1) S16_S31 (load_words m2 sp 16)
              else sregs s1) /\
  trace s' = trace sA
               ++ switch_events thread_switch_helper (regs sA R0) (regs sA R1)
                                (regs sA R2) (regs sA R3)
               ++ restore_events m2 n1.
Proof.
  cbv zeta.
  change (SVC_ContextSwitch sA)
    with (SVC_Exit (SVC_ContextRestore_body (enter L_SVC_ContextRestore
            (SVC_ContextSwitch_body (enter L_SVC_ContextSwitch sA))))).
  destruct (switch_body_spec (enter L_SVC_ContextSwitch sA))
    as (Hm & H2 & _ & Hp & Hmsp & Hs & Ht).
  set (sB := SVC_ContextSwitch_body (enter L_SVC_ContextSwitch sA)) in *.
  destruct (restore_body_spec (enter L_SVC_ContextRestore sB))
    as (Rm & Rmsp & Rp & Rl & Rr & Rs & Rt).
  set (sC := SVC_ContextRestore_body (enter L_SVC_ContextRestore sB)) in *.
  change (regs (enter L_SVC_ContextRestore sB) R2) with (regs sB R2) in *.
  change (mem (enter L_SVC_ContextRestore sB)) with (mem sB) in *.
  change (msp (enter L_SVC_ContextRestore sB)) with (msp sB) in *.
  change (sregs (enter L_SVC_ContextRestore sB)) with (sregs sB) in *.
  rewrite H2, Hm in *.
  unfold tcb_stack_frame, tcb_sp.
  change (mem (SVC_Exit sC)) with (mem sC).
  change (msp (SVC_Exit sC)) with (msp sC).
  change (psp (SVC_Exit sC)) with (psp sC).
  change (sregs (SVC_Exit sC)) with (sregs sC).
  change (regs (SVC_Exit sC)) with (regs sC).
  rewrite Rm, Rmsp, Rp, Rl, Rr, Rs, Hmsp, Hs.
  repeat split; try reflexivity.
  change (trace (SVC_Exit sC))
    with ((trace sC ++ [EvEnter L_SVC_Exit]) ++ [EvExit (regs sC LR)]).
  rewrite Rt, Rl.
  change (trace (enter L_SVC_ContextRestore sB))
    with (trace sB ++ [EvEnter L_SVC_ContextRestore]).
  rewrite Ht.
  change (trace (enter L_SVC_ContextSwitch sA))
    with (trace sA ++ [EvEnter L_SVC_ContextSwitch]).
  unfold switch_events, restore_events, tcb_stack_frame, tcb_sp.
  rewrite <- !app_assoc. reflexivity.
Qed.

Lemma tail_equal s :
  current s = next s ->
  SVC_Context s = BX_LR (SVC_Context_fetch (enter L_SVC_Context s)).
Proof.
  intros H. unfold SVC_Context, seq_instr, Bcond, holds.
  rewrite fetch_Z.
  change (current (enter L_SVC_Context s)) with (current s).
  change (next (enter L_SVC_Context s)) with (next s).
  now rewrite H, Z.eqb_refl.
Qed.

Lemma tail_differ s :
  current s <> next s ->
  SVC_Context s
  = SVC_Context_deleted (SVC_Context_fetch (enter L_SVC_Context s)).
Proof.
  intros H. unfold SVC_Context, seq_instr, Bcond, holds.
  rewrite fetch_Z.
  change (current (enter L_SVC_Context s)) with (current s).
  change (next (enter L_SVC_Context s)) with (next s).
  apply Z.eqb_neq in H. now rewrite H.
Qed.

Lemma deleted_live s0 :
  wrap (regs s0 R1) <> 0 -> SVC_Context_deleted s0 = SVC_ContextSave s0.
Proof.
  intros H. unfold SVC_Context_deleted, CBNZ.
  apply Z.eqb_neq in H. now rewrite H.
Qed.

Lemma deleted_basic s0 :
  wrap (regs s0 R1) = 0 -> extended_frame (regs s0 LR) = false ->
  SVC_Context_deleted s0 = SVC_ContextSwitch (TST LR 16 s0).
Proof.
  intros H He. unfold SVC_Context_deleted, CBNZ, seq_instr, Bcond.
  rewrite H. cbn [Z.eqb].
  change (holds NE (TST LR 16 s0)) with (negb (extended_frame (regs s0 LR))).
  now rewrite He.
Qed.

Lemma deleted_extended s0 :
  FPU_PRESENT = true ->
  wrap (regs s0 R1) = 0 -> extended_frame (regs s0 LR) = true ->
  SVC_Context_deleted s0
  = SVC_ContextSwitch (clear_LSPACT (TST LR 16 s0)).
Proof.
  intros Hf H He. unfold SVC_Context_deleted, CBNZ, seq_instr, Bcond.
  rewrite H. cbn [Z.eqb].
  change (holds NE (TST LR 16 s0)) with (negb (extended_frame (regs s0 LR))).
  now rewrite He, Hf.
Qed.

Lemma clear_LSPACT_spec s :
  let s' := clear_LSPACT s in
  mem s' = store32 (mem s) FPCCR (Z.ldiff (load32 (mem s) FPCCR) 1) /\
  (forall r, (4 <= r)%nat -> regs s' r = regs s r) /\
  psp s' = psp s /\ msp s' = msp s /\ sregs s' = sregs s /\
  primask s' = primask s /\
  trace s' = trace s ++ [EvLoad FPCCR 4; EvStore FPCCR 4].
Proof.
  cbv zeta. unfold clear_LSPACT, seq_instr.
  step. change (wrap FPCCR) with FPCCR. norm.
  repeat split; try reflexivity.
  intros r Hr. unfold upd.
  destruct r as [|[|[|[|r]]]]; try lia. reflexivity.
Qed.

Lemma map_fetch_callee_saved s :
  map (regs (SVC_Context_fetch s)) R4_R11 = map (regs s) R4_R11.
Proof. reflexivity. Qed.

(** Every switching path up to [SVC_ContextSwitch]. *)
Lemma tail_to_switch_any st :
  deleted_frame_fits st -> current st <> next st ->
  let c := current st in
  let p := regs st R12 in
  let e := regs st LR in
  let ext := extended_frame e in
  exists sA,
    SVC_Context st = SVC_ContextSwitch sA /\
    mem sA = (if c =? 0
              then if ext
                   then store32 (mem st) FPCCR
                                (Z.ldiff (load32 (mem st) FPCCR) 1)
                   else mem st
              else save_memory (mem st) (regs st) (sregs st) c p e) /\
    (forall r, In r R4_R11 -> regs sA r = regs st r) /\
    sregs sA = sregs st /\ psp sA = psp st /\ msp sA = msp st /\
    primask sA = primask st /\
    trace sA = trace st ++ [EvEnter L_SVC_Context; EvLoad run_addr 8]
                 ++ (if c =? 0
                     then if ext then [EvLoad FPCCR 4; EvStore FPCCR 4]
                          else []
                     else save_events c p e).
Proof.
  intros Hb Hd. cbv zeta. rewrite (tail_differ _ Hd).
  set (s0 := SVC_Context_fetch (enter L_SVC_Context st)).
  assert (H1 : regs s0 R1 = current st) by (unfold s0; now rewrite fetch_regs).
  assert (HL : regs s0 LR = regs st LR) by (unfold s0; now rewrite fetch_regs).
  assert (H12 : regs s0 R12 = regs st R12) by (unfold s0; now rewrite fetch_regs).
  assert (Hr : forall r, (4 <= r)%nat -> regs s0 r = regs st r).
  { intros r Hr. unfold s0. rewrite fetch_regs.
    destruct r as [|[|[|[|r]]]]; try lia. reflexivity. }
  destruct (fetch_frame (enter L_SVC_Context st))
    as (Fm & Fp & Fmsp & Fs & Fpm & Ft). fold s0 in Fm, Fp, Fmsp, Fs, Fpm, Ft.
  change (trace (enter L_SVC_Context st))
    with (trace st ++ [EvEnter L_SVC_Context]) in Ft.
  assert (Hc : wrap (current st) = current st) by apply wrap_load32.
  destruct (Z.eqb_spec (current st) 0) as [E0|E0].
  - destruct (extended_frame (regs st LR)) eqn:Ee.
    + assert (Hf : FPU_PRESENT = true).
      { destruct Hb as [Hb|Hb]; [exact Hb|].
        specialize (Hb E0). congruence. }
      rewrite deleted_extended by (rewrite ?H1, ?HL; congruence).
      exists (clear_LSPACT (TST LR 16 s0)). split; [reflexivity|].
      destruct (clear_LSPACT_spec (TST LR 16 s0))
        as (Cm & Cr & Cp & Cmsp & Cs & Cpm & Ct).
      rewrite Cm, Cp, Cmsp, Cs, Cpm, Ct.
      repeat split; try assumption.
      * intros r Hin. rewrite Cr.
        -- apply Hr. unfold R4_R11 in Hin. cbn in Hin.
           repeat (destruct Hin as [<-|Hin]; [cbv; lia|]). contradiction.
        -- unfold R4_R11 in Hin. cbn in Hin.
           repeat (destruct Hin as [<-|Hin]; [cbv; lia|]). contradiction.
      * change (trace (TST LR 16 s0)) with (trace s0). rewrite Ft.
        now rewrite <- !app_assoc.
    + rewrite deleted_basic by (rewrite ?H1, ?HL; congruence).
      exists (TST LR 16 s0). split; [reflexivity|].
      repeat split; try assumption.
      * intros r Hin. apply Hr. unfold R4_R11 in Hin. cbn in Hin.
        repeat (destruct Hin as [<-|Hin]; [cbv; lia|]). contradiction.
      * change (trace (TST LR 16 s0)) with (trace s0). rewrite Ft.
        now rewrite <- !app_assoc.
  - rewrite deleted_live by (rewrite H1; congruence).
    exists (SVC_ContextSave_body (enter L_SVC_ContextSave s0)).
    split; [reflexivity|].
    destruct (save_body_spec (enter L_SVC_ContextSave s0))
      as (Sm & Sr & S12 & Sp & Smsp & Ss & Spm & St).
    change (regs (enter L_SVC_ContextSave s0)) with (regs s0) in *.
    change (mem (enter L_SVC_ContextSave s0)) with (mem s0) in *.
    change (sregs (enter L_SVC_ContextSave s0)) with (sregs s0) in *.
    change (psp (enter L_SVC_ContextSave s0)) with (psp s0) in *.
    change (msp (enter L_SVC_ContextSave s0)) with (msp s0) in *.
    change (primask (enter L_SVC_ContextSave s0)) with (primask s0) in *.
    change (trace (enter L_SVC_ContextSave s0))
      with (trace s0 ++ [EvEnter L_SVC_ContextSave]) in *.
    rewrite Sm, Sp, Smsp, Ss, Spm, St.
    unfold save_memory, save_events.
    rewrite H1, HL, H12, Fm, Fs.
    repeat split; try assumption; try reflexivity.
    + intros r Hin. rewrite Sr.
      * apply Hr. unfold R4_R11 in Hin. cbn in Hin.
        repeat (destruct Hin as [<-|Hin]; [cbv; lia|]). contradiction.
      * unfold R4_R11 in Hin. cbn in Hin.
        repeat (destruct Hin as [<-|Hin]; [cbv; discriminate|]). contradiction.
    + rewrite Ft, <- !app_assoc.
      destruct (FPU_PRESENT && extended_frame _); reflexivity.
Qed.

Lemma tail_to_switch st :
  FPU_PRESENT = true -> current st <> next st ->
  let c := current st in
  let p := regs st R12 in
  let e := regs st LR in
  let ext := extended_frame e in
  exists sA,
    SVC_Context st = SVC_ContextSwitch sA /\
    mem sA = (if c =? 0
              then if ext
                   then store32 (mem st) FPCCR
                                (Z.ldiff (load32 (mem st) FPCCR) 1)
                   else mem st
              else save_memory (mem st) (regs st) (sregs st) c p e) /\
    (forall r, In r R4_R11 -> regs sA r = regs st r) /\
    sregs sA = sregs st /\ psp sA = psp st /\ msp sA = msp st /\
    primask sA = primask st /\
    trace sA = trace st ++ [EvEnter L_SVC_Context; EvLoad run_addr 8]
                 ++ (if c =? 0
                     then if ext then [EvLoad FPCCR 4; EvStore FPCCR 4]
                          else []
                     else save_events c p e).
Proof.
  intros Hf. apply tail_to_switch_any. now left.
Qed.

(** C1. Save followed by restore is the identity on the saved register
    set.  Thread [t] is saved by lines 81-91 in state [s], with stack
    image top [p] in R12 and EXC_RETURN [e] in LR; later lines 108-119
    restore it from a state [s2] whose memory still holds what the save
    wrote (the register image below [p] and the two TCB fields).  Then
    R4-R11 are back, S16-S31 are back when the FPU is there and bit 0x10
    of the stack_frame byte is clear, LR is 0xFFFFFF00 OR stack_frame,
    stack_frame is the low byte of [e], and PSP is [p] again. *)
Theorem save_restore_roundtrip (s s2 : state) :
  let t := regs s R1 in
  let p := regs s R12 in
  let e := regs s LR in
  let ext := FPU_PRESENT && extended_frame e in
  let size := if ext then 96 else 32 in
  let s1 := SVC_ContextSave_body s in
  let s3 := SVC_ContextRestore_body s2 in
  Forall (fun r => is_word (regs s r)) R4_R11 ->
  Forall (fun i => is_word (sregs s i)) S16_S31 ->
  is_word p -> region (p - size) size -> region t 60 ->
  apart (p - size) size (t + TCB_SF_OFS) 1 ->
  apart (p - size) size (t + TCB_SP_OFS) 4 ->
  regs s2 R2 = t ->
  (forall x, covers (p - size) size x \/ covers (t + TCB_SF_OFS) 1 x
             \/ covers (t + TCB_SP_OFS) 4 x -> mem s2 x = mem s1 x) ->
  (forall r, In r R4_R11 -> regs s3 r = regs s r) /\
  (FPU_PRESENT = true -> extended_frame (tcb_stack_frame (mem s2) t) = true ->
   forall i, In i S16_S31 -> sregs s3 i = sregs s i) /\
  regs s3 LR = Z.lor (tcb_stack_frame (mem s2) t) 0xFFFFFF00 /\
  tcb_stack_frame (mem s2) t = e mod 256 /\
  tcb_sp (mem s2) t = p - size /\
  psp s3 = p.
Proof.
  cbv zeta. intros Hregs Hsregs Hp Hreg Ht Hsf Hsp H2 Hagree.
  unfold TCB_SF_OFS, TCB_SP_OFS in *.
  destruct (save_body_spec s) as (Sm & _).
  destruct (restore_body_spec s2) as (_ & _ & Rp & Rl & Rr & Rs & _).
  unfold TCB_SF_OFS, TCB_SP_OFS in *.
  rewrite H2 in *.
  set (t := regs s R1) in *. set (p := regs s R12) in *.
  set (e := regs s LR) in *.
  set (ext := FPU_PRESENT && extended_frame e) in *.
  set (size := if ext then 96 else 32) in *.
  assert (Hsize : size = 96 /\ ext = true \/ size = 32 /\ ext = false)
    by (unfold size; destruct ext; auto).
  assert (Wsp : wrap (t + 56) = t + 56) by (apply wrap_small; wrap_arith).
  assert (Wsf : wrap (t + 34) = t + 34) by (apply wrap_small; wrap_arith).
  assert (Wa1 : wrap (p - 32) = p - 32) by (apply wrap_small; wrap_arith).
  rewrite Wsp, Wsf, Wa1 in Sm.
  (* the stack_frame byte *)
  assert (Esf : tcb_stack_frame (mem s2) t = e mod 256).
  { unfold tcb_stack_frame, TCB_SF_OFS.
    rewrite (load8_ext (mem (SVC_ContextSave_body s)) (mem s2)).
    - rewrite Sm. apply load8_store8_same.
    - apply Hagree. right; left. exists 0. split; [lia|]. f_equal. lia. }
  unfold tcb_stack_frame, TCB_SF_OFS in Esf.
  (* the saved stack pointer *)
  assert (Esp : tcb_sp (mem s2) t = p - size).
  { unfold tcb_sp, TCB_SP_OFS.
    rewrite (load32_ext (mem (SVC_ContextSave_body s)) (mem s2))
      by (intros x Hx; apply Hagree; auto).
    rewrite Sm.
    etransitivity.
    { apply load32_ext. intros x Hx. apply store8_outside.
      intros Hc. destruct Hx as [i [Hi ->]]. destruct Hc as [j [Hj Hc]].
      wrap_arith. }
    rewrite load32_store32_same.
    destruct Hsize as [[Hs He]|[Hs He]]; rewrite He.
    + rewrite wrap_wrap. replace (p - 32 - 64) with (p - size) by lia.
      apply wrap_small. wrap_arith.
    + replace (p - 32) with (p - size) by lia.
      apply wrap_small. wrap_arith. }
  unfold tcb_sp, TCB_SP_OFS in Esp.
  rewrite Esf, Esp in *. rewrite extended_frame_byte in *. fold ext in Rp, Rr, Rs.
  (* memory below p as the restore reads it *)
  assert (Hlow : forall x, covers (p - size) size x ->
            mem s2 x
            = (if ext
               then store_words (store_words (mem s) (p - 32) (map (regs s) R4_R11))
                                (p - 96) (map (sregs s) S16_S31)
               else store_words (mem s) (p - 32) (map (regs s) R4_R11)) x).
  { intros x Hx. rewrite Hagree by auto. rewrite Sm.
    rewrite store8_outside, store32_other.
    - destruct Hsize as [[Hs He]|[Hs He]]; rewrite He; [|reflexivity].
      replace (wrap (p - 32 - 64)) with (p - 96); [reflexivity|].
      symmetry. replace (p - 32 - 64) with (p - 96) by lia.
      apply wrap_small. wrap_arith.
    - eapply covers_apart; [| |exact Hsp|exact Hx]; [assumption|wrap_arith].
    - eapply covers_apart; [| |exact Hsf|exact Hx]; [assumption|wrap_arith]. }
  assert (Hcore : map (regs (SVC_ContextRestore_body s2)) R4_R11
                  = map (regs s) R4_R11).
  { rewrite Rr. rewrite <- (map_wrap_words (regs s) R4_R11 Hregs).
    rewrite <- (load_words_store_words (map (regs s) R4_R11) (mem s) (p - 32))
      by (cbn; lia).
    replace (if ext then p - size + 64 else p - size) with (p - 32)
      by (destruct Hsize as [[Hs He]|[Hs He]]; rewrite He; lia).
    change (length (map (regs s) R4_R11)) with 8%nat.
    apply load_words_ext. intros x Hx. rewrite Hlow.
    - destruct Hsize as [[Hs He]|[Hs He]]; rewrite He; [|reflexivity].
      apply (store_words_outside _ 64); [reflexivity|].
      change (4 * Z.of_nat 8) with 32 in Hx.
      eapply covers_apart; [| | |exact Hx]; wrap_arith.
    - change (4 * Z.of_nat 8) with 32 in Hx.
      eapply covers_sub; [| |exact Hx]; destruct Hsize as [[Hs He]|[Hs He]]; lia. }
  repeat split.
  - intros r Hr. eapply map_eq_In; eassumption.
  - intros Hf He i Hi.
    unfold tcb_stack_frame, TCB_SF_OFS in He.
    rewrite Esf, extended_frame_byte in He.
    assert (Hext : ext = true) by (unfold ext; now rewrite Hf, He).
    assert (Hs : size = 96) by (unfold size; now rewrite Hext).
    rewrite Hext in *.
    assert (Hfpu : map (sregs (SVC_ContextRestore_body s2)) S16_S31
                   = map (sregs s) S16_S31).
    { rewrite Rs. rewrite map_upd_list;
        [|apply NoDup_S16_S31|now rewrite load_words_length].
      rewrite <- (map_wrap_words (sregs s) S16_S31 Hsregs).
      rewrite <- (load_words_store_words (map (sregs s) S16_S31)
                    (store_words (mem s) (p - 32) (map (regs s) R4_R11)) (p - 96))
        by (cbn; lia).
      change (length (map (sregs s) S16_S31)) with 16%nat.
      replace (p - size) with (p - 96) by lia.
      apply load_words_ext. intros x Hx. rewrite Hlow; [reflexivity|].
      change (4 * Z.of_nat 16) with 64 in Hx.
      eapply covers_sub; [| |exact Hx]; lia. }
    eapply map_eq_In; eassumption.
  - unfold tcb_stack_frame, TCB_SF_OFS. now rewrite Esf.
  - exact Esf.
  - exact Esp.
  - rewrite Rp. destruct Hsize as [[Hs He]|[Hs He]]; rewrite He;
      [replace (p - size + 64 + 32) with p by lia
      |replace (p - size + 32) with p by lia]; now apply wrap_small.
Qed.

(** *** The switch tail, path by path *)

Lemma tail_fast s :
  current s = next s ->
  let s' := SVC_Context s in
  trace s' = trace s ++ [EvEnter L_SVC_Context; EvLoad run_addr 8;
                         EvExit (regs s LR)] /\
  mem s' = mem s /\ psp s' = psp s /\ msp s' = msp s /\
  sregs s' = sregs s /\ primask s' = primask s /\
  (forall r, (4 <= r)%nat -> regs s' r = regs s r).
Proof.
  intros H. cbv zeta. rewrite (tail_equal _ H).
  set (s0 := SVC_Context_fetch (enter L_SVC_Context s)).
  destruct (fetch_frame (enter L_SVC_Context s))
    as (Fm & Fp & Fmsp & Fs & Fpm & Ft). fold s0 in Fm, Fp, Fmsp, Fs, Fpm, Ft.
  assert (Hr : forall r, (4 <= r)%nat -> regs s0 r = regs s r).
  { intros r Hr. unfold s0. rewrite fetch_regs.
    destruct r as [|[|[|[|r]]]]; try lia. reflexivity. }
  change (mem (BX_LR s0)) with (mem s0). change (psp (BX_LR s0)) with (psp s0).
  change (msp (BX_LR s0)) with (msp s0).
  change (sregs (BX_LR s0)) with (sregs s0).
  change (primask (BX_LR s0)) with (primask s0).
  change (regs (BX_LR s0)) with (regs s0).
  change (trace (BX_LR s0)) with (trace s0 ++ [EvExit (regs s0 LR)]).
  rewrite Ft, (Hr LR) by (cbv; lia).
  change (trace (enter L_SVC_Context s)) with (trace s ++ [EvEnter L_SVC_Context]).
  rewrite <- !app_assoc.
  repeat split; assumption.
Qed.

Lemma tail_switching_any st :
  deleted_frame_fits st -> current st <> next st ->
  let c := current st in
  let p := regs st R12 in
  let e := regs st LR in
  let s' := SVC_Context st in
  exists sA a0 a1 a2 a3,
    let s1 := extern (wrap thread_switch_helper)
                     (helper_entry (enter L_SVC_ContextSwitch sA)) in
    s' = SVC_ContextSwitch sA /\
    mem sA = (if c =? 0
              then if extended_frame e
                   then store32 (mem st) FPCCR
                                (Z.ldiff (load32 (mem st) FPCCR) 1)
                   else mem st
              else save_memory (mem st) (regs st) (sregs st) c p e) /\
    mem s' = store32 (mem s1) run_addr (next s1) /\
    current s' = next s1 /\ next s' = next s1 /\
    psp s' = wrap (tcb_sp (mem s') (next s1)
                   + (if FPU_PRESENT
                         && extended_frame
                              (tcb_stack_frame (mem s') (next s1))
                      then 96 else 32)) /\
    regs s' LR = Z.lor (tcb_stack_frame (mem s') (next s1)) 0xFFFFFF00 /\
    trace s' = trace st
                 ++ switching_events c p e a0 a1 a2 a3 (mem s') (next s1).
Proof.
  intros Hb Hd. cbv zeta.
  destruct (tail_to_switch_any st Hb Hd)
    as (sA & Heq & Hm & _ & _ & _ & _ & _ & Ht).
  exists sA, (regs sA R0), (regs sA R1), (regs sA R2), (regs sA R3).
  cbv zeta.
  destruct (switch_onwards sA) as (Om & _ & Op & Ol & _ & _ & Ot).
  rewrite Heq. rewrite Om.
  set (s1 := extern (wrap thread_switch_helper)
                    (helper_entry (enter L_SVC_ContextSwitch sA))) in *.
  assert (Hcur : current (SVC_ContextSwitch sA) = next s1).
  { unfold current. rewrite Om, load32_store32_same.
    unfold next. apply wrap_load32. }
  assert (Hnext : next (SVC_ContextSwitch sA) = next s1).
  { unfold next at 1. rewrite Om. unfold next.
    apply load32_ext. intros x [i [Hi ->]]. apply store32_other.
    intros [j [Hj Hc]]. clear - Hi Hj Hc. wrap_arith. }
  repeat split; try assumption.
  - rewrite Op.
    match goal with |- context [if ?b then _ else _] => destruct b end;
      [rewrite <- Z.add_assoc|]; reflexivity.
  - rewrite Ot, Ht. unfold switching_events. now rewrite <- !app_assoc.
Qed.

Lemma tail_switching st :
  FPU_PRESENT = true -> current st <> next st ->
  let c := current st in
  let p := regs st R12 in
  let e := regs st LR in
  let s' := SVC_Context st in
  exists sA a0 a1 a2 a3,
    let s1 := extern (wrap thread_switch_helper)
                     (helper_entry (enter L_SVC_ContextSwitch sA)) in
    s' = SVC_ContextSwitch sA /\
    mem sA = (if c =? 0
              then if extended_frame e
                   then store32 (mem st) FPCCR
                                (Z.ldiff (load32 (mem st) FPCCR) 1)
                   else mem st
              else save_memory (mem st) (regs st) (sregs st) c p e) /\
    mem s' = store32 (mem s1) run_addr (next s1) /\
    current s' = next s1 /\ next s' = next s1 /\
    psp s' = wrap (tcb_sp (mem s') (next s1)
                   + (if extended_frame (tcb_stack_frame (mem s') (next s1))
                      then 96 else 32)) /\
    regs s' LR = Z.lor (tcb_stack_frame (mem s') (next s1)) 0xFFFFFF00 /\
    trace s' = trace st
                 ++ switching_events c p e a0 a1 a2 a3 (mem s') (next s1).
Proof.
  intros Hf Hd. cbv zeta.
  destruct (tail_switching_any st (or_introl Hf) Hd)
    as (sA & a0 & a1 & a2 & a3 & H).
  assert (Hand : forall b, FPU_PRESENT && b = b) by (now rewrite Hf).
  cbv zeta in H. rewrite Hand in H.
  exists sA, a0, a1, a2, a3. cbv zeta. exact H.
Qed.

(** *** The code in front of the tail *)

Lemma push_pop_pair m a v1 v2 m' :
  (forall x, covers a 8 x -> m' x = store_words m a [v1; v2] x) ->
  load_words m' a 2 = [wrap v1; wrap v2].
Proof.
  intros H.
  rewrite (load_words_ext (store_words m a [v1; v2]) m' 2 a)
    by (intros x Hx; apply H; exact Hx).
  apply (load_words_store_words [v1; v2]). cbn. lia.
Qed.

Lemma trampoline_spec cs policy s :
  is_word (msp s) -> region (msp s - 8) 8 ->
  is_word (regs s LR) -> is_word (regs s R4) ->
  keeps_stack (extern (wrap policy)) (call_entry cs (PUSH [R4; LR] s)) ->
  let s_ret := extern (wrap policy) (call_entry cs (PUSH [R4; LR] s)) in
  let st := trampoline cs policy s in
  regs st R12 = psp st /\ psp st = psp s_ret /\
  regs st LR = regs s LR /\ regs st R4 = regs s R4 /\
  msp st = msp s /\ mem st = mem s_ret /\ sregs st = sregs s_ret /\
  trace st = trace s ++ [EvStore (msp s - 8) 8;
                         EvCall (wrap policy) (regs s R0) (regs s R1)
                                (regs s R2) (regs s R3);
                         EvLoad (msp s - 8) 8].
Proof.
  intros Hmsp Hreg Hlr Hr4 Hk. cbv zeta.
  destruct Hk as [Km Kmem].
  unfold trampoline, seq_instr, BL.
  assert (Wa : wrap (msp s - 8) = msp s - 8) by (apply wrap_small; wrap_arith).
  change (msp (call_entry cs (PUSH [R4; LR] s))) with (wrap (msp s - 8)) in *.
  change (mem (call_entry cs (PUSH [R4; LR] s)))
    with (store_words (mem s) (wrap (msp s - 8)) [regs s R4; regs s LR]) in *.
  rewrite Wa in *.
  pose proof (push_pop_pair _ _ _ _ _ Kmem) as Hpop.
  cbn [load_words] in Hpop.
  rewrite (wrap_small (regs s R4)), (wrap_small (regs s LR)) in Hpop
    by assumption.
  injection Hpop as H4 HL.
  step. change (nbytes [R4; LR]) with 8. norm.
  rewrite Km. norm. rewrite Wa, H4, HL.
  replace (msp s - 8 + 8) with (msp s) by lia.
  rewrite (wrap_small (msp s)) by assumption.
  repeat split; reflexivity.
Qed.

Lemma number_spec s :
  let s0 := SVC_Handler_number s in
  regs s0 R0 = psp s /\ regs s0 R1 = svc_number s /\
  (forall r, (2 <= r)%nat -> regs s0 r = regs s r) /\
  mem s0 = mem s /\ psp s0 = psp s /\ msp s0 = msp s /\ sregs s0 = sregs s /\
  trace s0 = trace s ++ [EvLoad (wrap (psp s + 24)) 4;
                         EvLoad (wrap (load32 (mem s) (psp s + 24) - 2)) 1].
Proof.
  cbv zeta. unfold SVC_Handler_number, seq_instr, svc_number.
  step. norm. repeat split; try reflexivity.
  intros r Hr. unfold upd. destruct r as [|[|r]]; try lia. reflexivity.
Qed.

Lemma load_words_pushed m a vs b n :
  region a (4 * Z.of_nat (length vs)) -> region b (4 * Z.of_nat n) ->
  apart a (4 * Z.of_nat (length vs)) b (4 * Z.of_nat n) ->
  load_words (store_words m a vs) b n = load_words m b n.
Proof.
  intros Ha Hb Hab. apply load_words_ext. intros x Hx.
  apply store_words_other. intros Hc.
  exact (covers_apart _ _ _ _ _ Ha Hb Hab Hc Hx).
Qed.

Lemma svc0_spec s0 :
  let f := regs s0 R0 in
  let fn := load32 (mem s0) (f + 16) in
  let s_call := call_entry CS_service
                  (LDM R0 [R0; R1; R2; R3; R12] (PUSH [R0; LR] s0)) in
  let s_ret := extern fn s_call in
  let st := SVC_Handler_svc0 s0 in
  is_word (msp s0) -> region (msp s0 - 8) 8 ->
  is_word f -> region f 32 -> apart (msp s0 - 8) 8 f 32 ->
  is_word (regs s0 LR) ->
  keeps_stack (extern fn) s_call ->
  regs s_call R0 = load32 (mem s0) f /\
  regs s_call R1 = load32 (mem s0) (f + 4) /\
  regs s_call R2 = load32 (mem s0) (f + 8) /\
  regs s_call R3 = load32 (mem s0) (f + 12) /\
  mem st = store_words (mem s_ret) f [regs s_ret R0; regs s_ret R1] /\
  regs st R12 = f /\ regs st LR = regs s0 LR /\
  msp st = msp s0 /\ psp st = psp s_ret /\ sregs st = sregs s_ret /\
  (forall r, In r R4_R11 -> regs st r = regs s_ret r) /\
  trace st = trace s0 ++ [EvStore (msp s0 - 8) 8; EvLoad f 20;
                          EvCall fn (load32 (mem s0) f)
                                 (load32 (mem s0) (f + 4))
                                 (load32 (mem s0) (f + 8))
                                 (load32 (mem s0) (f + 12));
                          EvLoad (msp s0 - 8) 8; EvStore f 8].
Proof.
  cbv zeta. intros Hmsp Hreg Hf Hfr Hap Hlr Hk.
  assert (Wa : wrap (msp s0 - 8) = msp s0 - 8) by (apply wrap_small; wrap_arith).
  assert (Wf : wrap (regs s0 R0) = regs s0 R0) by now apply wrap_small.
  assert (Hld : load_words (store_words (mem s0) (msp s0 - 8)
                                        [regs s0 R0; regs s0 LR])
                           (regs s0 R0) 5
                = load_words (mem s0) (regs s0 R0) 5).
  { apply load_words_pushed; cbn [length]; wrap_arith. }
  cbn [load_words] in Hld.
  injection Hld as L0 L1 L2 L3 L12.
  replace (regs s0 R0 + 4 + 4) with (regs s0 R0 + 8) in * by lia.
  replace (regs s0 R0 + 8 + 4) with (regs s0 R0 + 12) in * by lia.
  replace (regs s0 R0 + 12 + 4) with (regs s0 R0 + 16) in * by lia.
  destruct Hk as [Km Kmem].
  change (msp (call_entry CS_service
                 (LDM R0 [R0; R1; R2; R3; R12] (PUSH [R0; LR] s0))))
    with (wrap (msp s0 - 8)) in *.
  change (mem (call_entry CS_service
                 (LDM R0 [R0; R1; R2; R3; R12] (PUSH [R0; LR] s0))))
    with (store_words (mem s0) (wrap (msp s0 - 8)) [regs s0 R0; regs s0 LR])
    in *.
  rewrite Wa in *.
  pose proof (push_pop_pair _ _ _ _ _ Kmem) as Hpop.
  cbn [load_words] in Hpop.
  rewrite (wrap_small (regs s0 R0)), (wrap_small (regs s0 LR)) in Hpop
    by assumption.
  injection Hpop as P0 PL.
  unfold SVC_Handler_svc0, seq_instr, BLX.
  step. change (nbytes [R0; LR]) with 8.
  change (nbytes [R0; R1; R2; R3; R12]) with 20.
  change (nbytes [R12; LR]) with 8. change (nbytes [R0; R1]) with 8.
  rewrite ?Wa, ?Wf.
  rewrite <- ?Z.add_assoc. cbn [Z.add Pos.add Pos.succ].
  rewrite L0, L1, L2, L3, L12. norm.
  rewrite Km. rewrite ?Wa. rewrite P0, PL. rewrite ?Wf.
  replace (msp s0 - 8 + 8) with (msp s0) by lia.
  rewrite (wrap_small (msp s0)) by assumption.
  repeat split; try reflexivity.
  intros r Hr; unfold R4_R11 in Hr; cbn in Hr;
    (repeat destruct Hr as [<- | Hr]); try reflexivity; contradiction.
Qed.

Lemma cmp_hi rn rm s :
  is_word (regs s rn) -> is_word (regs s rm) ->
  holds HI (CMP rn rm s) = (regs s rm <? regs s rn).
Proof.
  intros Hn Hm. unfold holds, CMP. cbn [apsr set_apsr fC fZ].
  rewrite !wrap_small by assumption.
  destruct (Z.ltb_spec (regs s rm) (regs s rn)) as [L|L].
  - apply andb_true_iff. split.
    + apply Z.leb_le. lia.
    + apply negb_true_iff, Z.eqb_neq. wrap_arith.
  - destruct (Z.eq_dec (regs s rm) (regs s rn)) as [E|E].
    + rewrite E, Z.sub_diag. cbn. now rewrite andb_false_r.
    + apply andb_false_iff. left. apply Z.leb_gt. lia.
Qed.

Lemma user_out_of_range s0 :
  let n := regs s0 R1 in
  let T := wrap osRtxUserSVC in
  let N := load32 (mem s0) T in
  let s' := SVC_User s0 in
  is_word (msp s0) -> region (msp s0 - 8) 8 ->
  region T 4 -> apart (msp s0 - 8) 8 T 4 ->
  is_word n -> is_word (regs s0 R4) -> is_word (regs s0 LR) ->
  N < n ->
  (forall x, ~ covers (msp s0 - 8) 8 x -> mem s' x = mem s0 x) /\
  psp s' = psp s0 /\ msp s' = msp s0 /\ sregs s' = sregs s0 /\
  (forall r, In r R4_R11 -> regs s' r = regs s0 r) /\
  trace s' = trace s0 ++ [EvEnter L_SVC_User; EvStore (msp s0 - 8) 8;
                          EvLoad T 4; EvEnter L_SVC_Done;
                          EvLoad (msp s0 - 8) 8; EvExit (regs s0 LR)].
Proof.
  cbv zeta. intros Hmsp Hreg HT Hap Hn H4 HL Hlt.
  assert (Wa : wrap (msp s0 - 8) = msp s0 - 8) by (apply wrap_small; wrap_arith).
  set (m1 := store_words (mem s0) (msp s0 - 8) [regs s0 R4; regs s0 LR]).
  assert (HN : load32 m1 (wrap osRtxUserSVC) = load32 (mem s0) (wrap osRtxUserSVC)).
  { apply load32_ext. intros x Hx. apply store_words_other. intros Hc.
    exact (covers_apart _ _ _ _ _ Hreg HT Hap Hc Hx). }
  assert (Hpop : load_words m1 (msp s0 - 8) 2 = [regs s0 R4; regs s0 LR]).
  { rewrite (push_pop_pair (mem s0) (msp s0 - 8) (regs s0 R4) (regs s0 LR) m1)
      by reflexivity.
    now rewrite !wrap_small by assumption. }
  cbn [load_words] in Hpop. injection Hpop as P4 PL.
  unfold SVC_User, seq_instr, Bcond.
  set (sc := LDR R3 R2 0 (LDR_lit R2 osRtxUserSVC
               (PUSH [R4; LR] (enter L_SVC_User s0)))).
  assert (R1c : regs sc R1 = regs s0 R1) by reflexivity.
  assert (R3c : regs sc R3 = load32 (mem s0) (wrap osRtxUserSVC)).
  { unfold sc. step. change (nbytes [R4; LR]) with 8. rewrite Wa. norm.
    rewrite <- !(load32_wrap _ osRtxUserSVC). exact HN. }
  rewrite cmp_hi by (rewrite ?R1c, ?R3c; auto using load32_range).
  rewrite R1c, R3c. apply Z.ltb_lt in Hlt. rewrite Hlt.
  unfold sc. unfold SVC_Done, seq_instr. step.
  change (nbytes [R4; LR]) with 8. change (nbytes [R4]) with 4.
  rewrite ?Wa. norm. change (4 + 4) with 8.
  unfold m1 in P4, PL. cbn [store_words] in P4, PL. rewrite P4, PL.
  replace (msp s0 - 8 + 8) with (msp s0) by lia.
  rewrite (wrap_small (msp s0)) by assumption.
  repeat split; try reflexivity.
  - intros x Hx.
    apply (store_words_other [regs s0 R4; regs s0 LR]). exact Hx.
  - intros r Hr; unfold R4_R11 in Hr; cbn in Hr;
      (repeat destruct Hr as [<- | Hr]); try reflexivity; contradiction.
Qed.

Lemma call_entry_mem cs s : mem (call_entry cs s) = mem s.
Proof. reflexivity. Qed.

Lemma call_entry_msp cs s : msp (call_entry cs s) = msp s.
Proof. reflexivity. Qed.

Lemma call_entry_psp cs s : psp (call_entry cs s) = psp s.
Proof. reflexivity. Qed.

Lemma call_entry_sregs cs s : sregs (call_entry cs s) = sregs s.
Proof. reflexivity. Qed.

Lemma call_entry_args cs s r :
  (r <= 3)%nat -> regs (call_entry cs s) r = regs s r.
Proof.
  intros Hr. unfold call_entry, set_reg, set_regs, upd. cbn [regs].
  destruct (Nat.eqb_spec r LR) as [->|]; [cbv in Hr; lia|reflexivity].
Qed.

Lemma user_fetch s0 :
  let m1 := store_words (mem s0) (wrap (msp s0 - 8)) [regs s0 R4; regs s0 LR] in
  let sd := LDM R0 [R0; R1; R2; R3]
              (LDR_lsl R4 R2 R1 2
                 (CMP R1 R3
                    (LDR R3 R2 0
                       (LDR_lit R2 osRtxUserSVC
                          (PUSH [R4; LR] (enter L_SVC_User s0)))))) in
  mem sd = m1 /\ msp sd = wrap (msp s0 - 8) /\ psp sd = psp s0 /\
  sregs sd = sregs s0 /\
  regs sd R4 = load32 m1 (wrap osRtxUserSVC + Z.shiftl (regs s0 R1) 2) /\
  regs sd R0 = load32 m1 (regs s0 R0) /\
  regs sd R1 = load32 m1 (wrap (regs s0 R0) + 4) /\
  regs sd R2 = load32 m1 (wrap (regs s0 R0) + 4 + 4) /\
  regs sd R3 = load32 m1 (wrap (regs s0 R0) + 4 + 4 + 4) /\
  trace sd = trace s0 ++ [EvEnter L_SVC_User; EvStore (wrap (msp s0 - 8)) 8;
                          EvLoad (wrap osRtxUserSVC) 4;
                          EvLoad (wrap (wrap osRtxUserSVC
                                        + Z.shiftl (regs s0 R1) 2)) 4;
                          EvLoad (wrap (regs s0 R0)) 16].
Proof.
  cbv zeta. step. change (nbytes [R4; LR]) with 8.
  change (nbytes [R0; R1; R2; R3]) with 16.
  rewrite <- !app_assoc. cbn [app].
  rewrite ?Z.add_0_r, ?wrap_wrap, ?load32_wrap.
  repeat split; reflexivity.
Qed.

Lemma done_after_call sd fn :
  let s_ret := extern fn (call_entry CS_user sd) in
  let s' := SVC_Done (STR R0 R4 0 (MRS_PSP R4 (call return_site extern CS_user fn sd))) in
  mem s' = store32 (mem s_ret) (wrap (psp s_ret)) (regs s_ret R0) /\
  psp s' = psp s_ret /\ msp s' = wrap (wrap (msp s_ret) + 8) /\
  sregs s' = sregs s_ret /\
  regs s' R4 = load32 (mem s') (wrap (msp s_ret)) /\
  (forall r, (5 <= r)%nat -> regs s' r = regs s_ret r) /\
  trace s' = trace sd ++ [EvCall fn (regs sd R0) (regs sd R1) (regs sd R2)
                                 (regs sd R3);
                          EvStore (wrap (psp s_ret)) 4; EvEnter L_SVC_Done;
                          EvLoad (wrap (msp s_ret)) 8;
                          EvExit (load32 (mem s') (wrap (msp s_ret) + 4))].
Proof.
  cbv zeta. unfold SVC_Done, seq_instr, call.
  set (s_ret := extern fn (call_entry CS_user sd)). clearbody s_ret.
  step. change (nbytes [R4]) with 4. change (4 + 4) with 8.
  rewrite <- !app_assoc. cbn [app].
  rewrite ?Z.add_0_r, ?wrap_wrap, ?load32_wrap.
  repeat split; try reflexivity.
  intros r Hr. unfold upd. destruct r as [|[|[|[|[|r]]]]]; try lia. reflexivity.
Qed.

Lemma user_no_branch s0 :
  is_word (regs s0 R1) -> region (msp s0 - 8) 8 ->
  region T_svc (4 * (regs s0 R1 + 1)) ->
  apart (msp s0 - 8) 8 T_svc (4 * (regs s0 R1 + 1)) ->
  regs s0 R1 <= load32 (mem s0) T_svc ->
  SVC_User s0
  = SVC_Done (SVC_User_call return_site extern
      (CMP R1 R3 (LDR R3 R2 0 (LDR_lit R2 osRtxUserSVC
         (PUSH [R4; LR] (enter L_SVC_User s0)))))).
Proof.
  intros Hn Hreg HT Hap Hle.
  assert (Wa : wrap (msp s0 - 8) = msp s0 - 8) by (apply wrap_small; wrap_arith).
  assert (Hout : forall x, ~ covers (msp s0 - 8) 8 x ->
            store_words (mem s0) (msp s0 - 8) [regs s0 R4; regs s0 LR] x
            = mem s0 x).
  { intros x Hx. apply (store_words_other [regs s0 R4; regs s0 LR]). exact Hx. }
  unfold SVC_User, seq_instr, Bcond.
  rewrite cmp_hi.
  - replace (_ <? _) with false; [reflexivity|].
    symmetry. apply Z.ltb_ge.
    step. change (nbytes [R4; LR]) with 8. rewrite Wa. norm.
    rewrite <- (load32_wrap _ osRtxUserSVC).
    etransitivity; [exact Hle|]. apply Z.eq_le_incl. symmetry.
    apply load32_ext. intros x Hx. apply Hout. intros Hc.
    assert (Hx' : covers (wrap osRtxUserSVC) (4 * (regs s0 R1 + 1)) x)
      by (eapply covers_mono; [|exact Hx]; unfold is_word in Hn; lia).
    exact (covers_apart _ _ _ _ _ Hreg HT Hap Hc Hx').
  - exact Hn.
  - step. apply load32_range.
Qed.

Lemma user_in_range s0 :
  let n := regs s0 R1 in
  let f := regs s0 R0 in
  let T := wrap osRtxUserSVC in
  let N := load32 (mem s0) T in
  let fn := load32 (mem s0) (T + 4 * n) in
  let sc := call_entry CS_user
              (LDM R0 [R0; R1; R2; R3]
                 (LDR_lsl R4 R2 R1 2
                    (CMP R1 R3
                       (LDR R3 R2 0
                          (LDR_lit R2 osRtxUserSVC
                             (PUSH [R4; LR] (enter L_SVC_User s0))))))) in
  let s' := SVC_User s0 in
  is_word (msp s0) -> region (msp s0 - 8) 8 ->
  is_word n -> region T (4 * (n + 1)) ->
  apart (msp s0 - 8) 8 T (4 * (n + 1)) ->
  is_word f -> region f 32 -> apart (msp s0 - 8) 8 f 32 ->
  psp s0 = f ->
  is_word (regs s0 R4) -> is_word (regs s0 LR) ->
  n <= N ->
  keeps_stack (extern fn) sc -> keeps_psp (extern fn) sc ->
  exists s_call,
    let s_ret := extern fn s_call in
    s_call = sc /\
    regs s_call R0 = load32 (mem s0) f /\
    regs s_call R1 = load32 (mem s0) (f + 4) /\
    regs s_call R2 = load32 (mem s0) (f + 8) /\
    regs s_call R3 = load32 (mem s0) (f + 12) /\
    (forall x, ~ covers (msp s0 - 8) 8 x -> mem s_call x = mem s0 x) /\
    psp s_call = psp s0 /\ sregs s_call = sregs s0 /\
    mem s' = store32 (mem s_ret) f (regs s_ret R0) /\
    psp s' = psp s0 /\ msp s' = msp s0 /\ sregs s' = sregs s_ret /\
    regs s' R4 = regs s0 R4 /\
    (forall r, (5 <= r)%nat -> regs s' r = regs s_ret r) /\
    trace s' = trace s0 ++ [EvEnter L_SVC_User; EvStore (msp s0 - 8) 8;
                            EvLoad T 4; EvLoad (T + 4 * n) 4; EvLoad f 16;
                            EvCall fn (load32 (mem s0) f)
                                   (load32 (mem s0) (f + 4))
                                   (load32 (mem s0) (f + 8))
                                   (load32 (mem s0) (f + 12));
                            EvStore f 4; EvEnter L_SVC_Done;
                            EvLoad (msp s0 - 8) 8; EvExit (regs s0 LR)].
Proof.
  cbv zeta. intros Hmsp Hreg Hn HT Hap Hf Hfr Hapf Hpsp H4 HL Hle Hk Hkp.
  assert (Wa : wrap (msp s0 - 8) = msp s0 - 8) by (apply wrap_small; wrap_arith).
  assert (Wf : wrap (regs s0 R0) = regs s0 R0) by now apply wrap_small.
  assert (Hsh : Z.shiftl (regs s0 R1) 2 = 4 * regs s0 R1).
  { rewrite Z.shiftl_mul_pow2 by lia. change (2 ^ 2) with 4. lia. }
  assert (Hout : forall x, ~ covers (msp s0 - 8) 8 x ->
            store_words (mem s0) (msp s0 - 8) [regs s0 R4; regs s0 LR] x
            = mem s0 x).
  { intros x Hx. apply (store_words_other [regs s0 R4; regs s0 LR]). exact Hx. }
  rewrite (user_no_branch s0 Hn Hreg HT Hap Hle).
  unfold SVC_User_call, seq_instr, BLX.
  destruct (user_fetch s0) as (Fm & Fmsp & Fp & Fs & F4 & F0 & F1 & F2 & F3 & Ft).
  cbv zeta in Fm, Fmsp, Fp, Fs, F4, F0, F1, F2, F3, Ft.
  remember (LDM R0 [R0; R1; R2; R3]
              (LDR_lsl R4 R2 R1 2
                 (CMP R1 R3
                    (LDR R3 R2 0
                       (LDR_lit R2 osRtxUserSVC
                          (PUSH [R4; LR] (enter L_SVC_User s0))))))) as sd
    eqn:Hsd in *.
  clear Hsd.
  rewrite Wa in *. rewrite Wf in *. rewrite Hsh in *.
  replace (regs s0 R0 + 4 + 4) with (regs s0 R0 + 8) in * by lia.
  replace (regs s0 R0 + 8 + 4) with (regs s0 R0 + 12) in * by lia.
  assert (Hfn : regs sd R4 = load32 (mem s0) (wrap osRtxUserSVC + 4 * regs s0 R1)).
  { rewrite F4. apply load32_ext. intros x Hx. apply Hout. intros Hc.
    assert (Hx' : covers (wrap osRtxUserSVC) (4 * (regs s0 R1 + 1)) x)
      by (eapply covers_sub; [| |exact Hx]; unfold is_word in Hn; lia).
    exact (covers_apart _ _ _ _ _ Hreg HT Hap Hc Hx'). }
  assert (Hld : forall o, 0 <= o <= 12 ->
            load32 (store_words (mem s0) (msp s0 - 8) [regs s0 R4; regs s0 LR])
                   (regs s0 R0 + o)
            = load32 (mem s0) (regs s0 R0 + o)).
  { intros o Ho. apply load32_ext. intros x Hx. apply Hout. intros Hc.
    assert (Hx' : covers (regs s0 R0) 32 x)
      by (eapply covers_sub; [| |exact Hx]; lia).
    exact (covers_apart _ _ _ _ _ Hreg Hfr Hapf Hc Hx'). }
  rewrite <- (Z.add_0_r (regs s0 R0)) in F0.
  rewrite Hld in F0, F1, F2, F3 by lia. rewrite Z.add_0_r in F0.
  rewrite Hfn, wrap_load32.
  set (fn := load32 (mem s0) (wrap osRtxUserSVC + 4 * regs s0 R1)) in *.
  exists (call_entry CS_user sd). split; [reflexivity|].
  destruct (done_after_call sd fn) as (Dm & Dp & Dmsp & Ds & D4 & Dr & Dt).
  cbv zeta in Dm, Dp, Dmsp, Ds, D4, Dr, Dt.
  destruct Hk as [Km Kmem].
  pose proof Hkp as Kp. unfold keeps_psp in Kp.
  pose proof (call_entry_mem CS_user sd) as Em.
  pose proof (call_entry_msp CS_user sd) as Emsp.
  pose proof (call_entry_psp CS_user sd) as Ep.
  pose proof (call_entry_sregs CS_user sd) as Es.
  pose proof (call_entry_args CS_user sd) as Er.
  rewrite Em, Emsp, Fmsp in *. rewrite Ep, Fp, Hpsp in Kp.
  set (s_ret := extern fn (call_entry CS_user sd)) in *. clearbody s_ret.
  rewrite Kp, Km in *. rewrite Wf in *.
  rewrite (wrap_small (msp s0 - 8)) in * by (rewrite <- Wa; apply wrap_range).
  replace (msp s0 - 8 + 8) with (msp s0) in Dmsp by lia.
  rewrite (wrap_small (msp s0)) in Dmsp by assumption.
  (* what the pop finds *)
  assert (Hpop : load_words (store32 (mem s_ret) (regs s0 R0) (regs s_ret R0))
                            (msp s0 - 8) 2
                 = [regs s0 R4; regs s0 LR]).
  { rewrite <- (wrap_small (regs s0 R4)), <- (wrap_small (regs s0 LR)) by assumption.
    apply (push_pop_pair (mem s0)). intros x Hx.
    rewrite store32_other.
    - rewrite Kmem by exact Hx. now rewrite Fm.
    - intros Hc.
      assert (Hx' : covers (regs s0 R0) 32 x)
        by (eapply covers_mono; [|exact Hc]; lia).
      exact (covers_apart _ _ _ _ _ Hreg Hfr Hapf Hx Hx'). }
  cbn [load_words] in Hpop. injection Hpop as P4 PL.
  rewrite Dm in D4, Dt. rewrite P4 in D4. rewrite PL in Dt.
  rewrite !Er by (cbv; lia).
  rewrite F0, F1, F2, F3 in *.
  rewrite Ft in Dt. rewrite <- app_assoc in Dt. cbn [app] in Dt.
  rewrite (wrap_small (wrap osRtxUserSVC + 4 * regs s0 R1)) in Dt
    by (clear - HT Hn; wrap_arith).
  split; [reflexivity|]. split; [reflexivity|].
  split; [reflexivity|]. split; [reflexivity|].
  split; [intros x Hx; rewrite ?call_entry_mem, ?Fm; apply Hout; exact Hx|].
  split; [rewrite ?call_entry_psp; exact Fp|].
  split; [rewrite ?call_entry_sregs; exact Fs|].
  split; [exact Dm|].
  split; [rewrite Hpsp; exact Dp|].
  split; [exact Dmsp|].
  split; [exact Ds|].
  split; [exact D4|].
  split; [exact Dr|].
  exact Dt.
Qed.

(** The rest of the state after a trampoline: all of it is what the
    policy returned, but for R4, LR, R12 and MSP. *)
Lemma trampoline_rest cs policy s :
  let s_ret := extern (wrap policy) (call_entry cs (PUSH [R4; LR] s)) in
  let st := trampoline cs policy s in
  primask st = primask s_ret /\
  forall r, r <> R4 -> r <> LR -> r <> R12 -> regs st r = regs s_ret r.
Proof.
  cbv zeta. unfold trampoline, seq_instr, BL, call. split; [reflexivity|].
  intros r H4 HL H12. step. unfold upd.
  destruct (Nat.eqb_spec r R12); [contradiction|].
  destruct (Nat.eqb_spec r LR); [contradiction|].
  destruct (Nat.eqb_spec r R4); [contradiction|].
  reflexivity.
Qed.

(** *** Entry paths: SVC dispatch and the trampolines *)

Lemma svc_number_reg s :
  wrap (regs (SVC_Handler_number (enter L_SVC_Handler s)) R1) = svc_number s.
Proof.
  destruct (number_spec (enter L_SVC_Handler s)) as (_ & H1 & _).
  rewrite H1. unfold svc_number. apply wrap_load8.
Qed.

Lemma svc_dispatch0 s :
  svc_number s = 0 ->
  SVC_Handler s
  = SVC_Context (SVC_Handler_svc0
                   (SVC_Handler_number (enter L_SVC_Handler s))).
Proof.
  intros H. unfold SVC_Handler, seq_instr, CBNZ.
  now rewrite svc_number_reg, H.
Qed.

Lemma svc_dispatch_user s :
  svc_number s <> 0 ->
  SVC_Handler s = SVC_User (SVC_Handler_number (enter L_SVC_Handler s)).
Proof.
  intros H. unfold SVC_Handler, seq_instr, CBNZ.
  rewrite svc_number_reg. apply Z.eqb_neq in H. now rewrite H.
Qed.

(** C2. SVC 0: the handler takes R0-R3 and R12 from the frame stacked at
    PSP, calls the function whose address is the stacked R12 with those
    four arguments, writes the R0 and R1 the function returns into the
    first two words of the frame, and then enters the switch tail
    (with R12 = the frame address and LR = EXC_RETURN).  The function may
    do anything, provided that, entered in the state [s_call] at
    [BLX R12], it returns with MSP and the two words the handler pushed
    as they were. *)
Theorem svc0_marshaling (s : state) :
  let f := psp s in
  let fn := load32 (mem s) (f + 16) in
  let s_call := at_service_call s in
  let s_ret := extern fn s_call in
  svc_number s = 0 ->
  exception_entry s ->
  keeps_stack (extern fn) s_call ->
  exists st,
    regs s_call R0 = load32 (mem s) f /\
    regs s_call R1 = load32 (mem s) (f + 4) /\
    regs s_call R2 = load32 (mem s) (f + 8) /\
    regs s_call R3 = load32 (mem s) (f + 12) /\
    SVC_Handler s = SVC_Context st /\
    trace st = trace s ++ [EvEnter L_SVC_Handler;
                           EvLoad (f + 24) 4;
                           EvLoad (wrap (load32 (mem s) (f + 24) - 2)) 1;
                           EvStore (msp s - 8) 8; EvLoad f 20;
                           EvCall fn (load32 (mem s) f)
                                  (load32 (mem s) (f + 4))
                                  (load32 (mem s) (f + 8))
                                  (load32 (mem s) (f + 12));
                           EvLoad (msp s - 8) 8; EvStore f 8] /\
    load32 (mem st) f = wrap (regs s_ret R0) /\
    load32 (mem st) (f + 4) = wrap (regs s_ret R1) /\
    (forall x, ~ covers f 8 x -> mem st x = mem s_ret x) /\
    regs st R12 = f /\ regs st LR = regs s LR /\ msp st = msp s.
Proof.
  cbv zeta. intros Hn (Hmsp & Hreg & Hpsp & Hfr & Hap & Hlr & _) Hk.
  rewrite (svc_dispatch0 _ Hn).
  set (s0 := SVC_Handler_number (enter L_SVC_Handler s)).
  destruct (number_spec (enter L_SVC_Handler s))
    as (N0 & _ & Nr & Nm & Np & Nmsp & _ & Nt).
  fold s0 in N0, Nr, Nm, Np, Nmsp, Nt.
  change (psp (enter L_SVC_Handler s)) with (psp s) in *.
  change (mem (enter L_SVC_Handler s)) with (mem s) in *.
  change (msp (enter L_SVC_Handler s)) with (msp s) in *.
  change (regs (enter L_SVC_Handler s)) with (regs s) in *.
  change (trace (enter L_SVC_Handler s))
    with (trace s ++ [EvEnter L_SVC_Handler]) in *.
  assert (NL : regs s0 LR = regs s LR) by (apply Nr; cbv; lia).
  assert (H := svc0_spec s0). cbv zeta in H.
  rewrite N0, Nm, Nmsp, NL in H.
  specialize (H Hmsp Hreg Hpsp Hfr Hap Hlr Hk).
  destruct H as (A0 & A1 & A2 & A3 & Hm & H12 & HL & Hms & _ & _ & _ & Ht).
  change (at_service_call s)
    with (call_entry CS_service
            (LDM R0 [R0; R1; R2; R3; R12] (PUSH [R0; LR] s0))).
  eexists. cbv zeta.
  split; [exact A0|]. split; [exact A1|]. split; [exact A2|].
  split; [exact A3|]. split; [reflexivity|].
  split.
  { rewrite Ht, Nt. rewrite <- !app_assoc. cbn [app].
    rewrite (wrap_small (psp s + 24)); [reflexivity|].
    clear - Hpsp Hfr. wrap_arith. }
  rewrite Hm, H12, HL, Hms. cbn [store_words].
  repeat split; try reflexivity.
  - etransitivity.
    { apply load32_ext. intros x Hx. apply store32_other.
      intros [j [Hj Hc]]. destruct Hx as [i [Hi ->]]. clear - Hi Hj Hc. wrap_arith. }
    apply load32_store32_same.
  - apply load32_store32_same.
  - intros x Hx. rewrite !store32_other; [reflexivity| |].
    + intros Hc. apply Hx. eapply covers_mono; [|exact Hc]. lia.
    + intros Hc. apply Hx. eapply covers_sub; [| |exact Hc]; lia.
Qed.

(** C9. PendSV and SysTick: each handler first calls its policy routine
    ([osRtxPendSV_Handler], [osRtxTick_Handler]) and then enters the
    switch tail with R12 = PSP and with LR = the EXC_RETURN it was
    entered with, which the push and pop of {R4, LR} carried across the
    call.  The tail is entered in the state the policy returned, but for
    R4, LR, R12 and MSP: memory (with the policy's election of [next]),
    PSP, the other registers and PRIMASK are the policy's.  The policy
    may do anything, provided that, entered in the state [sc] at [BL], it
    returns with MSP and the two words the handler pushed as they
    were. *)
Theorem trampoline_entry (s : state) :
  exception_entry s ->
  (let sc := at_policy_call L_PendSV_Handler CS_pendsv s in
   let s_ret := extern (wrap osRtxPendSV_Handler) sc in
   keeps_stack (extern (wrap osRtxPendSV_Handler)) sc ->
   exists st,
      PendSV_Handler s = SVC_Context st /\
      trace st = trace s ++ [EvEnter L_PendSV_Handler;
                             EvStore (msp s - 8) 8;
                             EvCall (wrap osRtxPendSV_Handler) (regs s R0)
                                    (regs s R1) (regs s R2) (regs s R3);
                             EvLoad (msp s - 8) 8] /\
      regs st R12 = psp st /\ regs st LR = regs s LR /\
      regs st R4 = regs s R4 /\ msp st = msp s /\
      psp st = psp s_ret /\ mem st = mem s_ret /\
      sregs st = sregs s_ret /\ primask st = primask s_ret /\
      (forall r, r <> R4 -> r <> LR -> r <> R12 ->
                 regs st r = regs s_ret r) /\
      (forall r, r <> LR -> regs sc r = regs s r) /\
      msp sc = msp s - 8 /\ psp sc = psp s /\
      (forall x, ~ covers (msp s - 8) 8 x -> mem sc x = mem s x)) /\
  (let sc := at_policy_call L_SysTick_Handler CS_tick s in
   let s_ret := extern (wrap osRtxTick_Handler) sc in
   keeps_stack (extern (wrap osRtxTick_Handler)) sc ->
   exists st,
      SysTick_Handler s = SVC_Context st /\
      trace st = trace s ++ [EvEnter L_SysTick_Handler;
                             EvStore (msp s - 8) 8;
                             EvCall (wrap osRtxTick_Handler) (regs s R0)
                                    (regs s R1) (regs s R2) (regs s R3);
                             EvLoad (msp s - 8) 8] /\
      regs st R12 = psp st /\ regs st LR = regs s LR /\
      regs st R4 = regs s R4 /\ msp st = msp s /\
      psp st = psp s_ret /\ mem st = mem s_ret /\
      sregs st = sregs s_ret /\ primask st = primask s_ret /\
      (forall r, r <> R4 -> r <> LR -> r <> R12 ->
                 regs st r = regs s_ret r) /\
      (forall r, r <> LR -> regs sc r = regs s r) /\
      msp sc = msp s - 8 /\ psp sc = psp s /\
      (forall x, ~ covers (msp s - 8) 8 x -> mem sc x = mem s x)).
Proof.
  intros (Hmsp & Hreg & _ & _ & _ & Hlr & H4).
  assert (Wa : wrap (msp s - 8) = msp s - 8) by (apply wrap_small; wrap_arith).
  assert (Hsc : forall l cs,
            (forall r, r <> LR -> regs (at_policy_call l cs s) r = regs s r) /\
            msp (at_policy_call l cs s) = msp s - 8 /\
            psp (at_policy_call l cs s) = psp s /\
            (forall x, ~ covers (msp s - 8) 8 x ->
                       mem (at_policy_call l cs s) x = mem s x)).
  { intros l cs. unfold at_policy_call, seq_instr. split; [|split; [|split]].
    - intros r Hr. step. unfold upd.
      destruct (Nat.eqb_spec r LR); [contradiction|reflexivity].
    - step. change (nbytes [R4; LR]) with 8. exact Wa.
    - reflexivity.
    - intros x Hx. step. change (nbytes [R4; LR]) with 8. rewrite Wa.
      apply (store_words_other [regs s R4; regs s LR]). exact Hx. }
  split.
  - cbv zeta. intros Hp.
    exists (trampoline CS_pendsv osRtxPendSV_Handler (enter L_PendSV_Handler s)).
    destruct (trampoline_spec CS_pendsv osRtxPendSV_Handler
                (enter L_PendSV_Handler s) Hmsp Hreg Hlr H4 Hp)
      as (T12 & Tp & TL & T4 & Tm & Tmem & Ts & Tt).
    destruct (trampoline_rest CS_pendsv osRtxPendSV_Handler
                (enter L_PendSV_Handler s)) as (Tpm & Tr).
    destruct (Hsc L_PendSV_Handler CS_pendsv) as (S1 & S2 & S3 & S4).
    split; [reflexivity|]. split.
    { rewrite Tt. unfold enter, emit. cbn [trace set_trace].
      now rewrite <- !app_assoc. }
    split; [exact T12|]. split; [exact TL|]. split; [exact T4|].
    split; [exact Tm|]. split; [exact Tp|]. split; [exact Tmem|].
    split; [exact Ts|]. split; [exact Tpm|]. split; [exact Tr|].
    split; [exact S1|]. split; [exact S2|]. split; [exact S3|exact S4].
  - cbv zeta. intros Hp.
    exists (trampoline CS_tick osRtxTick_Handler (enter L_SysTick_Handler s)).
    destruct (trampoline_spec CS_tick osRtxTick_Handler
                (enter L_SysTick_Handler s) Hmsp Hreg Hlr H4 Hp)
      as (T12 & Tp & TL & T4 & Tm & Tmem & Ts & Tt).
    destruct (trampoline_rest CS_tick osRtxTick_Handler
                (enter L_SysTick_Handler s)) as (Tpm & Tr).
    destruct (Hsc L_SysTick_Handler CS_tick) as (S1 & S2 & S3 & S4).
    split; [reflexivity|]. split.
    { rewrite Tt. unfold enter, emit. cbn [trace set_trace].
      now rewrite <- !app_assoc. }
    split; [exact T12|]. split; [exact TL|]. split; [exact T4|].
    split; [exact Tm|]. split; [exact Tp|]. split; [exact Tmem|].
    split; [exact Ts|]. split; [exact Tpm|]. split; [exact Tr|].
    split; [exact S1|]. split; [exact S2|]. split; [exact S3|exact S4].
Qed.

(** C5. A user SVC whose number [n > 0] exceeds the count in
    [osRtxUserSVC[0]] is rejected: the handler pushes and pops {R4, LR}
    on its own stack and returns with EXC_RETURN; it calls nothing, does
    not write to the stacked frame, leaves R4-R11, S0-S31 and PSP as they
    were, and never reaches [SVC_Context]. *)
Theorem user_svc_rejected (s : state) :
  let n := svc_number s in
  let T := wrap osRtxUserSVC in
  let N := load32 (mem s) T in
  let s' := SVC_Handler s in
  exception_entry s ->
  region T 4 -> apart (msp s - 8) 8 T 4 ->
  0 < n -> N < n ->
  exists evs,
    trace s' = trace s ++ evs /\
    evs = [EvEnter L_SVC_Handler; EvLoad (psp s + 24) 4;
           EvLoad (wrap (load32 (mem s) (psp s + 24) - 2)) 1;
           EvEnter L_SVC_User; EvStore (msp s - 8) 8; EvLoad T 4;
           EvEnter L_SVC_Done; EvLoad (msp s - 8) 8;
           EvExit (regs s LR)] /\
    (forall t a0 a1 a2 a3, ~ In (EvCall t a0 a1 a2 a3) evs) /\
    ~ In (EvEnter L_SVC_Context) evs /\
    (forall a k x, In (EvStore a k) evs -> covers a k x ->
                   ~ covers (psp s) 32 x) /\
    (forall x, covers (psp s) 32 x -> mem s' x = mem s x) /\
    psp s' = psp s /\ msp s' = msp s /\ sregs s' = sregs s /\
    (forall r, In r R4_R11 -> regs s' r = regs s r).
Proof.
  cbv zeta. intros (Hmsp & Hreg & Hpsp & Hfr & Hap & Hlr & H4) HT HaT Hpos Hlt.
  rewrite svc_dispatch_user by lia.
  set (s0 := SVC_Handler_number (enter L_SVC_Handler s)).
  destruct (number_spec (enter L_SVC_Handler s))
    as (N0 & N1 & Nr & Nm & Np & Nmsp & Ns & Nt).
  fold s0 in N0, N1, Nr, Nm, Np, Nmsp, Ns, Nt.
  change (psp (enter L_SVC_Handler s)) with (psp s) in *.
  change (mem (enter L_SVC_Handler s)) with (mem s) in *.
  change (msp (enter L_SVC_Handler s)) with (msp s) in *.
  change (sregs (enter L_SVC_Handler s)) with (sregs s) in *.
  change (regs (enter L_SVC_Handler s)) with (regs s) in *.
  change (svc_number (enter L_SVC_Handler s)) with (svc_number s) in *.
  change (trace (enter L_SVC_Handler s))
    with (trace s ++ [EvEnter L_SVC_Handler]) in *.
  assert (NL : regs s0 LR = regs s LR) by (apply Nr; cbv; lia).
  assert (N4 : regs s0 R4 = regs s R4) by (apply Nr; cbv; lia).
  assert (Hnw : is_word (svc_number s)).
  { unfold svc_number. pose proof (load8_range (mem s)
      (load32 (mem s) (psp s + 24) - 2)). unfold is_word. lia. }
  assert (H := user_out_of_range s0). cbv zeta in H.
  rewrite N1, Nm, Nmsp, NL, N4, Np, Ns in H.
  specialize (H Hmsp Hreg HT HaT Hnw H4 Hlr Hlt).
  destruct H as (Hm & Hp & Hms & Hs & Hr & Ht).
  eexists. split.
  { rewrite Ht, Nt. rewrite <- !app_assoc. cbn [app].
    rewrite (wrap_small (psp s + 24)); [reflexivity|].
    clear - Hpsp Hfr. wrap_arith. }
  split; [reflexivity|].
  split; [intros t a0 a1 a2 a3 Hin; cbn in Hin; intuition discriminate|].
  split; [intros Hin; cbn in Hin; intuition discriminate|].
  split.
  { intros a k x Hin Hc. cbn in Hin.
    repeat (destruct Hin as [Hin|Hin]; try discriminate); try contradiction.
    injection Hin as <- <-.
    exact (covers_apart _ _ _ _ _ Hreg Hfr Hap Hc). }
  split.
  { intros x Hx. apply Hm. intros Hc.
    exact (covers_apart _ _ _ _ _ Hreg Hfr Hap Hc Hx). }
  repeat split; try assumption.
  intros r Hr'. rewrite Hr by assumption. apply Nr.
  unfold R4_R11 in Hr'. cbn in Hr'.
  repeat (destruct Hr' as [<-|Hr']; [cbv; lia|]). contradiction.
Qed.

(** C6. A user SVC whose number [n] is in [1, N] is dispatched: the
    handler calls the function at table index [n] with R0-R3 taken from
    the stacked frame, stores only the returned R0, into the first word of
    the frame, and returns with EXC_RETURN without reaching
    [SVC_Context].  The function may do anything, provided that, entered
    in the state [s_call] at [BLX R4], it returns with MSP, the two words
    the handler pushed and PSP as they were. *)
Theorem user_svc_dispatched (s : state) :
  let n := svc_number s in
  let T := wrap osRtxUserSVC in
  let N := load32 (mem s) T in
  let f := psp s in
  let fn := load32 (mem s) (T + 4 * n) in
  let s_call := at_user_call s in
  let s_ret := extern fn s_call in
  let s' := SVC_Handler s in
  exception_entry s ->
  region T (4 * (n + 1)) -> apart (msp s - 8) 8 T (4 * (n + 1)) ->
  1 <= n <= N ->
  keeps_stack (extern fn) s_call -> keeps_psp (extern fn) s_call ->
  exists evs,
    regs s_call R0 = load32 (mem s) f /\
    regs s_call R1 = load32 (mem s) (f + 4) /\
    regs s_call R2 = load32 (mem s) (f + 8) /\
    regs s_call R3 = load32 (mem s) (f + 12) /\
    trace s' = trace s ++ evs /\
    evs = [EvEnter L_SVC_Handler; EvLoad (f + 24) 4;
           EvLoad (wrap (load32 (mem s) (f + 24) - 2)) 1;
           EvEnter L_SVC_User; EvStore (msp s - 8) 8; EvLoad T 4;
           EvLoad (T + 4 * n) 4; EvLoad f 16;
           EvCall fn (load32 (mem s) f) (load32 (mem s) (f + 4))
                  (load32 (mem s) (f + 8)) (load32 (mem s) (f + 12));
           EvStore f 4; EvEnter L_SVC_Done; EvLoad (msp s - 8) 8;
           EvExit (regs s LR)] /\
    ~ In (EvEnter L_SVC_Context) evs /\
    load32 (mem s') f = wrap (regs s_ret R0) /\
    (forall x, ~ covers f 4 x -> mem s' x = mem s_ret x) /\
    psp s' = psp s /\ msp s' = msp s /\ regs s' R4 = regs s R4.
Proof.
  cbv zeta. intros (Hmsp & Hreg & Hpsp & Hfr & Hap & Hlr & H4) HT HaT Hn Hk Hkp.
  rewrite svc_dispatch_user by lia.
  set (s0 := SVC_Handler_number (enter L_SVC_Handler s)).
  destruct (number_spec (enter L_SVC_Handler s))
    as (N0 & N1 & Nr & Nm & Np & Nmsp & Ns & Nt).
  fold s0 in N0, N1, Nr, Nm, Np, Nmsp, Ns, Nt.
  change (psp (enter L_SVC_Handler s)) with (psp s) in *.
  change (mem (enter L_SVC_Handler s)) with (mem s) in *.
  change (msp (enter L_SVC_Handler s)) with (msp s) in *.
  change (sregs (enter L_SVC_Handler s)) with (sregs s) in *.
  change (regs (enter L_SVC_Handler s)) with (regs s) in *.
  change (svc_number (enter L_SVC_Handler s)) with (svc_number s) in *.
  change (trace (enter L_SVC_Handler s))
    with (trace s ++ [EvEnter L_SVC_Handler]) in *.
  assert (NL : regs s0 LR = regs s LR) by (apply Nr; cbv; lia).
  assert (N4 : regs s0 R4 = regs s R4) by (apply Nr; cbv; lia).
  assert (Hnw : is_word (svc_number s)).
  { unfold svc_number. pose proof (load8_range (mem s)
      (load32 (mem s) (psp s + 24) - 2)). unfold is_word. lia. }
  unfold at_user_call, seq_instr in Hk, Hkp. fold s0 in Hk, Hkp.
  assert (H := user_in_range s0). cbv zeta in H.
  rewrite N0, N1, Nm, Nmsp, NL, N4, Np in H.
  specialize (H Hmsp Hreg Hnw HT HaT Hpsp Hfr Hap eq_refl H4 Hlr
                (proj2 Hn) Hk Hkp).
  destruct H as (s_call & -> & A0 & A1 & A2 & A3 & _ & _ & _ & Hm & Hp & Hms
                 & _ & HR4 & _ & Ht).
  unfold at_user_call, seq_instr. fold s0.
  eexists. cbv zeta.
  split; [exact A0|]. split; [exact A1|]. split; [exact A2|].
  split; [exact A3|].
  split.
  { rewrite Ht, Nt. rewrite <- !app_assoc. cbn [app].
    rewrite (wrap_small (psp s + 24)); [reflexivity|].
    clear - Hpsp Hfr. wrap_arith. }
  split; [reflexivity|].
  split; [intros Hin; cbn in Hin; intuition discriminate|].
  rewrite Hm, Hp, Hms, HR4.
  repeat split; try reflexivity.
  - apply load32_store32_same.
  - intros x Hx. now apply store32_other.
Qed.

(** *** The switch tail *)

(** C4. With [current = next] the tail returns at once through BX LR:
    the only thing it does is read the pair.  Memory is untouched (so are
    [current], [next], every TCB field and FPCCR), and PSP, R4-R11, LR and
    S0-S31 are as on entry. *)
Theorem noop_fast_path (s : state) :
  let s' := SVC_Context s in
  current s = next s ->
  trace s' = trace s ++ [EvEnter L_SVC_Context; EvLoad run_addr 8;
                         EvExit (regs s LR)] /\
  mem s' = mem s /\ current s' = current s /\ next s' = next s /\
  (forall t, tcb_sp (mem s') t = tcb_sp (mem s) t /\
             tcb_stack_frame (mem s') t = tcb_stack_frame (mem s) t) /\
  load32 (mem s') FPCCR = load32 (mem s) FPCCR /\
  psp s' = psp s /\
  (forall r, In r R4_R11 -> regs s' r = regs s r) /\
  regs s' LR = regs s LR /\
  sregs s' = sregs s.
Proof.
  cbv zeta. intros H.
  destruct (tail_fast s H) as (Ht & Hm & Hp & _ & Hs & _ & Hr).
  unfold current, next. rewrite Hm.
  repeat split; try assumption; try reflexivity.
  - intros r Hin. apply Hr. unfold R4_R11 in Hin. cbn in Hin.
    repeat (destruct Hin as [<-|Hin]; [cbv; lia|]). contradiction.
  - apply Hr. cbv. lia.
Qed.

(** C10. With both slots null the equality test already ends the tail:
    the one memory access is the 8-byte read of the pair itself; nothing
    is read or written through the (null) thread handles. *)
Theorem null_pair_safe (s : state) :
  let s' := SVC_Context s in
  current s = 0 -> next s = 0 ->
  exists evs,
    trace s' = trace s ++ evs /\
    evs = [EvEnter L_SVC_Context; EvLoad run_addr 8; EvExit (regs s LR)] /\
    (forall a k, In (EvLoad a k) evs -> a = run_addr /\ k = 8) /\
    (forall a k, ~ In (EvStore a k) evs) /\
    mem s' = mem s /\ psp s' = psp s.
Proof.
  cbv zeta. intros Hc Hn.
  assert (H : current s = next s) by congruence.
  destruct (tail_fast s H) as (Ht & Hm & Hp & _).
  eexists. split; [exact Ht|]. split; [reflexivity|].
  split.
  { intros a k Hin. cbn in Hin.
    destruct Hin as [Hin|[Hin|[Hin|[]]]]; try discriminate.
    injection Hin as <- <-. split; reflexivity. }
  split.
  { intros a k Hin. cbn in Hin. intuition discriminate. }
  split; assumption.
Qed.

Lemma helper_entry_mem s : mem (helper_entry s) = mem s.
Proof. destruct FEATURE_UVISOR; reflexivity. Qed.

Lemma ldiff_1 x : Z.ldiff x 1 = 2 * (x / 2).
Proof.
  apply Z.bits_inj'. intros n Hn. rewrite Z.ldiff_spec.
  destruct (Z.eq_dec n 0) as [->|Hn0].
  - rewrite Z.testbit_even_0. change (Z.testbit 1 0) with true.
    now rewrite andb_false_r.
  - replace n with (Z.succ (n - 1)) by lia.
    rewrite Z.testbit_even_succ by lia.
    rewrite (Z.div2_odd x) at 1.
    rewrite Z.testbit_succ_r by lia. rewrite Z.div2_div.
    assert (H1 : Z.testbit 1 (Z.succ (n - 1)) = false).
    { change (Z.testbit (2 * 0 + 1) (Z.succ (n - 1)) = false).
      rewrite Z.testbit_odd_succ by lia. apply Z.testbit_0_l. }
    rewrite H1. now rewrite andb_true_r.
Qed.

Lemma lspact_cleared m :
  lspact (store32 m FPCCR (Z.ldiff (load32 m FPCCR) 1)) = false.
Proof.
  unfold lspact. rewrite load32_store32_same.
  pose proof (load32_range m FPCCR) as Hr.
  rewrite ldiff_1. rewrite wrap_small by (unfold is_word in *; euclid).
  apply Z.testbit_even_0.
Qed.

(** C3 (amended).  In the build with __FPU_PRESENT, with [current = null]
    and [current <> next] the tail saves nothing: before it calls
    [thread_switch_helper], in state [s_call], it has written at most
    FPCCR, and when bit 0x10 of EXC_RETURN is clear it has cleared LSPACT
    there.  LSPACT is still clear after the tail if the word of [current]
    does not overlap FPCCR and the helper, entered in [s_call], returns
    with FPCCR as it was.  After the tail the pair is settled and the
    thread published as [current] is resumed: PSP is its saved [sp] plus
    the size of the register image the restore pops, 32 bytes for a basic
    frame and 96 for an extended one. *)
Theorem deleted_thread_switch (st : state) :
  let e := regs st LR in
  let s' := SVC_Context st in
  FPU_PRESENT = true ->
  current st = 0 -> current st <> next st ->
  exists sA a0 a1 a2 a3 evs,
    let s_call := at_helper_call sA in
    let s1 := extern (wrap thread_switch_helper) s_call in
    s' = SVC_ContextSwitch sA /\
    (forall x, ~ covers FPCCR 4 x -> mem sA x = mem st x) /\
    (extended_frame e = true -> lspact (mem sA) = false) /\
    mem s_call = mem sA /\
    mem s' = store32 (mem s1) run_addr (next s1) /\
    trace s' = trace st ++ evs /\
    evs = [EvEnter L_SVC_Context; EvLoad run_addr 8]
          ++ (if extended_frame e
              then [EvLoad FPCCR 4; EvStore FPCCR 4] else [])
          ++ switch_events thread_switch_helper a0 a1 a2 a3
          ++ restore_events (mem s') (current s') /\
    ~ In (EvEnter L_SVC_ContextSave) evs /\
    (forall a k, In (EvStore a k) evs ->
                 k = 4 /\ (a = FPCCR \/ a = run_addr)) /\
    (extended_frame e = true ->
     region run_addr 4 -> apart run_addr 4 FPCCR 4 ->
     keeps_fpccr (extern (wrap thread_switch_helper)) s_call ->
     lspact (mem s') = false) /\
    current s' = next s' /\
    psp s' = wrap (tcb_sp (mem s') (current s')
                   + (if extended_frame
                           (tcb_stack_frame (mem s') (current s'))
                      then 96 else 32)).
Proof.
  cbv zeta. intros Hf Hc Hd.
  destruct (tail_switching st Hf Hd)
    as (sA & a0 & a1 & a2 & a3 & Heq & HmA & Hm & Hcur & Hnext & Hp & _ & Ht).
  cbv zeta in *.
  set (s1 := extern (wrap thread_switch_helper)
                    (helper_entry (enter L_SVC_ContextSwitch sA))) in *.
  rewrite Hc in HmA, Ht. cbn [Z.eqb] in HmA, Ht.
  exists sA, a0, a1, a2, a3. eexists.
  change (at_helper_call sA)
    with (helper_entry (enter L_SVC_ContextSwitch sA)).
  fold s1.
  split; [exact Heq|].
  split.
  { intros x Hx. rewrite HmA. destruct (extended_frame (regs st LR)).
    - now apply store32_other.
    - reflexivity. }
  split.
  { intros He. rewrite HmA, He. apply lspact_cleared. }
  split; [exact (helper_entry_mem (enter L_SVC_ContextSwitch sA))|].
  split; [exact Hm|].
  split; [exact Ht|].
  split.
  { unfold switching_events. cbn [Z.eqb]. rewrite Hcur. reflexivity. }
  split.
  { intros Hin. unfold switching_events, switch_events, restore_events in Hin.
    cbn [Z.eqb] in Hin.
    repeat (apply in_app_or in Hin; destruct Hin as [Hin|Hin]);
      repeat match type of Hin with
             | In _ (if ?b then _ else _) => destruct b
             end;
      cbn in Hin; intuition discriminate. }
  split.
  { intros a k Hin.
    unfold switching_events, switch_events, restore_events in Hin.
    cbn [Z.eqb] in Hin.
    repeat (apply in_app_or in Hin; destruct Hin as [Hin|Hin]);
      repeat match type of Hin with
             | In _ (if ?b then _ else _) => destruct b
             end;
      cbn in Hin;
      repeat (destruct Hin as [Hin|Hin]; try discriminate);
      try contradiction;
      injection Hin as <- <-; auto. }
  split.
  { intros He Hreg Hap Hk. unfold keeps_fpccr in Hk. fold s1 in Hk.
    unfold lspact. rewrite Hm.
    etransitivity; [|exact (eq_trans (f_equal (fun m => Z.testbit (load32 m FPCCR) 0) HmA)
                              (eq_trans (f_equal (fun b : bool => lspact (if b then _ else _)) He)
                                        (lspact_cleared (mem st))))].
    f_equal. etransitivity.
    { apply load32_ext. intros x Hx. apply store32_other. intros Hx'.
      assert (HF : region FPCCR 4) by (unfold region, FPCCR; lia).
      exact (covers_apart _ _ _ _ _ Hreg HF Hap Hx' Hx). }
    rewrite Hk. now rewrite helper_entry_mem. }
  split; [congruence|].
  rewrite Hcur. exact Hp.
Qed.

(** *** Every access of every handler *)

Lemma tail_events_ok st :
  deleted_frame_fits st ->
  exists post,
    trace (SVC_Context st) = trace st ++ post /\
    Forall (tail_event st (SVC_Context st)) post.
Proof.
  intros Hb.
  destruct (Z.eq_dec (current st) (next st)) as [E|D].
  - destruct (tail_fast st E) as (Ht & _).
    eexists. split; [exact Ht|].
    repeat constructor.
  - destruct (tail_switching_any st Hb D)
      as (sA & a0 & a1 & a2 & a3 & Heq & _ & _ & Hcur & _ & _ & _ & Ht).
    cbv zeta in *.
    set (s' := SVC_Context st) in *.
    eexists. split; [exact Ht|].
    unfold switching_events, save_events, switch_events, restore_events.
    rewrite <- Hcur.
    assert (Hs : forall a k,
               (a = run_addr /\ k = 4) \/
               (current st = 0 /\ extended_frame (regs st LR) = true
                /\ a = FPCCR /\ k = 4) \/
               (current st <> 0 /\
                ((a = wrap (regs st R12 - 32) /\ k = 32) \/
                 (extended_frame (regs st LR) = true
                  /\ a = wrap (regs st R12 - 32 - 64) /\ k = 64) \/
                 (a = wrap (current st + TCB_SP_OFS) /\ k = 4) \/
                 (a = wrap (current st + TCB_SF_OFS) /\ k = 1))) ->
               tail_event st s' (EvStore a k)).
    { intros a k H. unfold tail_event. cbv zeta. split; assumption. }
    assert (Hl : forall a k,
               (current st = 0 /\ a = FPCCR /\ k = 4) \/
               (a = wrap (current s' + TCB_SF_OFS) /\ k = 1) \/
               (a = wrap (current s' + TCB_SP_OFS) /\ k = 4) \/
               (FPU_PRESENT
                && extended_frame (tcb_stack_frame (mem s') (current s'))
                = true /\
                ((a = tcb_sp (mem s') (current s') /\ k = 64) \/
                 (a = wrap (tcb_sp (mem s') (current s') + 64) /\ k = 32))) \/
               (FPU_PRESENT
                && extended_frame (tcb_stack_frame (mem s') (current s'))
                = false
                /\ a = wrap (tcb_sp (mem s') (current s')) /\ k = 32) ->
               tail_event st s' (EvLoad a k)).
    { intros a k H. unfold tail_event. cbv zeta. right. split; assumption. }
    assert (Hp : tail_event st s' (EvLoad run_addr 8))
      by (unfold tail_event; cbv zeta; now left).
    destruct (Z.eqb_spec (current st) 0) as [E0|E0];
      destruct (FPU_PRESENT && extended_frame (regs st LR)) eqn:Ee2;
      destruct (extended_frame (regs st LR)) eqn:Ee;
      rewrite ?Bool.andb_false_r in Ee2; try discriminate Ee2;
      destruct (FPU_PRESENT
                && extended_frame (tcb_stack_frame (mem s') (current s')))
        eqn:Es;
      cbn [app];
      repeat (apply Forall_cons; [|]); try apply Forall_nil;
      try exact Hp; try exact I;
      try (apply Hs; tauto); try (apply Hl; tauto);
      try (unfold tail_event; cbv zeta; tauto).
Qed.

Lemma number_facts s :
  let s0 := SVC_Handler_number (enter L_SVC_Handler s) in
  regs s0 R0 = psp s /\ regs s0 R1 = svc_number s /\
  regs s0 R4 = regs s R4 /\ regs s0 LR = regs s LR /\
  mem s0 = mem s /\ psp s0 = psp s /\ msp s0 = msp s /\
  trace s0 = trace s ++ [EvEnter L_SVC_Handler; EvLoad (wrap (psp s + 24)) 4;
                         EvLoad (wrap (load32 (mem s) (psp s + 24) - 2)) 1].
Proof.
  cbv zeta.
  destruct (number_spec (enter L_SVC_Handler s))
    as (N0 & N1 & Nr & Nm & Np & Nmsp & _ & Nt).
  split; [exact N0|]. split; [exact N1|].
  split; [apply Nr; cbv; lia|]. split; [apply Nr; cbv; lia|].
  split; [exact Nm|]. split; [exact Np|]. split; [exact Nmsp|].
  rewrite Nt. unfold enter, emit. cbn [trace set_trace mem psp].
  now rewrite <- app_assoc.
Qed.

Lemma svc_number_byte s : 0 <= svc_number s < 256.
Proof. unfold svc_number. apply load8_range. Qed.

Lemma handler_events h s :
  exception_entry s ->
  prelude_contract h s ->
  region T_svc 1024 -> apart (msp s - 8) 8 T_svc 1024 ->
  exists pre,
    Forall (prelude_event T_svc s) pre /\
    match tail_entry h s with
    | Some st => run h s = SVC_Context st /\ trace st = trace s ++ pre
    | None => trace (run h s) = trace s ++ pre
    end.
Proof.
  intros (Hmsp & Hreg & Hpsp & Hfr & Hap & Hlr & H4) Hc HT HaT.
  assert (W24 : wrap (psp s + 24) = psp s + 24)
    by (apply wrap_small; clear - Hpsp Hfr; wrap_arith).
  destruct h.
  - (* SVC *)
    unfold tail_entry. cbv zeta. rewrite svc_number_reg.
    unfold prelude_contract in Hc. cbv zeta in Hc.
    unfold at_service_call, at_user_call, seq_instr in Hc.
    destruct (number_facts s) as (N0 & N1 & N4 & NL & Nm & Np & Nmsp & Nt).
    cbv zeta in *.
    set (s0 := SVC_Handler_number (enter L_SVC_Handler s)) in *.
    pose proof (svc_number_byte s) as Hb.
    assert (Hnw : is_word (svc_number s)) by (unfold is_word; lia).
    revert Hc.
    destruct (Z.eqb_spec (svc_number s) 0) as [E|E]; intros Hc.
    + (* SVC 0 *)
      assert (H := svc0_spec s0). cbv zeta in H.
      rewrite N0, Nm, Nmsp, NL in H.
      specialize (H Hmsp Hreg Hpsp Hfr Hap Hlr Hc).
      destruct H as (_ & _ & _ & _ & _ & _ & _ & _ & _ & _ & _ & Ht).
      eexists. split; [|split; [exact (svc_dispatch0 s E)|]].
      2:{ rewrite Ht, Nt, W24. rewrite <- app_assoc. cbn [app]. reflexivity. }
      repeat (apply Forall_cons; [|]); try apply Forall_nil;
        unfold prelude_event; try exact I; tauto.
    + change (run H_SVC s) with (SVC_Handler s).
      rewrite (svc_dispatch_user s E). fold s0.
      destruct (Z.ltb_spec (load32 (mem s) T_svc) (svc_number s)) as [L|L].
      * (* rejected *)
        assert (H := user_out_of_range s0). cbv zeta in H.
        rewrite N1, Nm, Nmsp, NL, N4 in H.
        assert (HT4 : region T_svc 4) by (clear - HT; unfold region in *; lia).
        assert (HaT4 : apart (msp s - 8) 8 T_svc 4)
          by (clear - HaT HT Hreg; unfold apart, region in *; lia).
        specialize (H Hmsp Hreg HT4 HaT4 Hnw H4 Hlr L).
        destruct H as (_ & _ & _ & _ & _ & Ht).
        eexists. split.
        2:{ rewrite Ht, Nt, W24. rewrite <- app_assoc. cbn [app]. reflexivity. }
        repeat (apply Forall_cons; [|]); try apply Forall_nil;
          unfold prelude_event; try exact I; tauto.
      * (* dispatched *)
        assert (H := user_in_range s0). cbv zeta in H.
        rewrite N0, N1, Nm, Nmsp, NL, N4, Np in H.
        assert (HTn : region T_svc (4 * (svc_number s + 1)))
          by (clear - HT Hb; unfold region in *; lia).
        assert (HaTn : apart (msp s - 8) 8 T_svc (4 * (svc_number s + 1)))
          by (clear - HaT HT Hreg Hb; unfold apart, region in *; lia).
        specialize (H Hmsp Hreg Hnw HTn HaTn Hpsp Hfr Hap eq_refl H4 Hlr
                      L (proj1 (Hc L)) (proj2 (Hc L))).
        destruct H as (s_call & _ & _ & _ & _ & _ & _ & _ & _ & _ & _ & _ & _
                       & _ & _ & Ht).
        eexists. split.
        2:{ rewrite Ht, Nt, W24. rewrite <- app_assoc. cbn [app]. reflexivity. }
        repeat (apply Forall_cons; [|]); try apply Forall_nil;
          unfold prelude_event; try exact I; tauto.
  - (* PendSV *)
    destruct (trampoline_spec CS_pendsv osRtxPendSV_Handler
                (enter L_PendSV_Handler s) Hmsp Hreg Hlr H4 Hc)
      as (_ & _ & _ & _ & _ & _ & _ & Tt).
    eexists. split; [|split; [reflexivity|]].
    2:{ unfold tail_entry. rewrite Tt. unfold enter, emit.
        cbn [trace set_trace regs msp]. rewrite <- app_assoc. reflexivity. }
    repeat (apply Forall_cons; [|]); try apply Forall_nil;
      unfold prelude_event; try exact I; tauto.
  - (* SysTick *)
    destruct (trampoline_spec CS_tick osRtxTick_Handler
                (enter L_SysTick_Handler s) Hmsp Hreg Hlr H4 Hc)
      as (_ & _ & _ & _ & _ & _ & _ & Tt).
    eexists. split; [|split; [reflexivity|]].
    2:{ unfold tail_entry. rewrite Tt. unfold enter, emit.
        cbn [trace set_trace regs msp]. rewrite <- app_assoc. reflexivity. }
    repeat (apply Forall_cons; [|]); try apply Forall_nil;
      unfold prelude_event; try exact I; tauto.
Qed.

Lemma handler_trace h s :
  (forall st, tail_entry h s = Some st -> deleted_frame_fits st) ->
  exception_entry s ->
  prelude_contract h s ->
  region T_svc 1024 -> apart (msp s - 8) 8 T_svc 1024 ->
  exists pre post,
    trace (run h s) = trace s ++ pre ++ post /\
    Forall (prelude_event T_svc s) pre /\
    match tail_entry h s with
    | Some st => run h s = SVC_Context st /\
                 Forall (tail_event st (run h s)) post
    | None => post = []
    end.
Proof.
  intros Hf He Hc HT HaT.
  destruct (handler_events h s He Hc HT HaT) as (pre & Hpre & Hm).
  destruct (tail_entry h s) as [st|].
  - destruct Hm as [Hrun Htr].
    destruct (tail_events_ok st (Hf st eq_refl)) as (post & Hpost & Hall).
    exists pre, post. rewrite Hrun. split.
    + rewrite Hpost, Htr. now rewrite app_assoc.
    + split; [exact Hpre|]. split; [reflexivity|exact Hall].
  - exists pre, []. rewrite app_nil_r. split; [exact Hm|].
    split; [exact Hpre|reflexivity].
Qed.

Lemma clear_of_spec b k l a n x :
  region b k -> clear_of b k l -> In (a, n) l ->
  covers a n x -> covers b k x -> False.
Proof.
  intros Hb Hc Hin Ha Hx. unfold clear_of in Hc.
  rewrite Forall_forall in Hc. destruct (Hc _ Hin) as [Hr Hap].
  cbn [fst snd] in Hr, Hap.
  apply (covers_apart a n b k x); try assumption.
  unfold apart in *. lia.
Qed.

(** Where the stores of the code in front of the tail fall. *)
Lemma prelude_store_range s a k x :
  region (psp s) 32 ->
  prelude_event T_svc s (EvStore a k) -> covers a k x ->
  covers (msp s - 8) 8 x \/ covers (psp s) 32 x.
Proof.
  intros Hfr [[-> ->]|[-> Hk]] Hc.
  - now left.
  - right. eapply covers_mono; [|exact Hc]. lia.
Qed.

Lemma prelude_load_range s a k x :
  region (psp s) 32 -> region T_svc 1024 ->
  prelude_event T_svc s (EvLoad a k) -> covers a k x ->
  covers (msp s - 8) 8 x \/ covers (psp s) 32 x \/
  covers (wrap (load32 (mem s) (psp s + 24) - 2)) 1 x \/
  covers T_svc 1024 x.
Proof.
  intros Hfr HT H Hc. pose proof (svc_number_byte s) as Hb.
  destruct H as [[-> ->]|[[-> ->]|[[-> ->]|[[-> Hk]|[[-> ->]|[-> ->]]]]]].
  - now left.
  - right; left. eapply covers_sub; [| |exact Hc]; lia.
  - right; right; now left.
  - right; left. eapply covers_mono; [|exact Hc]. lia.
  - right; right; right. eapply covers_mono; [|exact Hc]. lia.
  - right; right; right. eapply covers_sub; [| |exact Hc]; lia.
Qed.

(** Where the stores of the save path fall. *)
Lemma save_store_range st a k x :
  let c := current st in
  let p := regs st R12 in
  let e := regs st LR in
  Forall (fun r => region (fst r) (snd r)) (save_ranges st) ->
  (a = wrap (p - 32) /\ k = 32) \/
  (extended_frame e = true /\ a = wrap (p - 32 - 64) /\ k = 64) \/
  (a = wrap (c + TCB_SP_OFS) /\ k = 4) \/
  (a = wrap (c + TCB_SF_OFS) /\ k = 1) ->
  covers a k x ->
  exists r, In r (save_ranges st) /\ covers (fst r) (snd r) x.
Proof.
  cbv zeta. unfold save_ranges. intros Hr H Hc.
  inversion Hr as [|? ? R1 Hr1]; subst. inversion Hr1 as [|? ? R2 Hr2]; subst.
  inversion Hr2 as [|? ? R3 _]; subst. cbn [fst snd] in R1, R2, R3.
  unfold TCB_SP_OFS, TCB_SF_OFS in *.
  destruct H as [[-> ->]|[[He [-> ->]]|[[-> ->]|[-> ->]]]].
  - eexists. split; [left; reflexivity|]. cbn [fst snd].
    destruct (extended_frame (regs st LR)).
    + rewrite wrap_small in Hc by (clear - R1; wrap_arith).
      eapply covers_sub; [| |exact Hc]; lia.
    + rewrite wrap_small in Hc by (clear - R1; wrap_arith). exact Hc.
  - eexists. split; [left; reflexivity|]. cbn [fst snd].
    rewrite He in *.
    rewrite wrap_small in Hc by (clear - R1; wrap_arith).
    eapply covers_sub; [| |exact Hc]; lia.
  - eexists. split; [right; right; left; reflexivity|]. cbn [fst snd].
    rewrite wrap_small in Hc by (clear - R3; wrap_arith). exact Hc.
  - eexists. split; [right; left; reflexivity|]. cbn [fst snd].
    rewrite wrap_small in Hc by (clear - R2; wrap_arith). exact Hc.
Qed.

Lemma clear_of_regions b k l :
  clear_of b k l -> Forall (fun r => region (fst r) (snd r)) l.
Proof.
  unfold clear_of. intros H. eapply Forall_impl; [|exact H].
  intros r [Hr _]. exact Hr.
Qed.

(** Outside the save ranges the save leaves memory alone. *)
Lemma save_memory_outside m rf sf c p e x :
  let size := if extended_frame e then 96 else 32 in
  region (p - size) size -> region (c + TCB_SF_OFS) 1 ->
  region (c + TCB_SP_OFS) 4 ->
  ~ covers (p - size) size x -> ~ covers (c + TCB_SF_OFS) 1 x ->
  ~ covers (c + TCB_SP_OFS) 4 x ->
  save_memory m rf sf c p e x = m x.
Proof.
  cbv zeta. intros R1 R2 R3 N1 N2 N3.
  unfold save_memory.
  rewrite (wrap_small (c + TCB_SF_OFS)) by (clear - R2; wrap_arith).
  rewrite (wrap_small (c + TCB_SP_OFS)) by (clear - R3; wrap_arith).
  rewrite store8_outside by exact N2.
  rewrite store32_other by exact N3.
  assert (H32 : store_words m (wrap (p - 32)) (map rf R4_R11) x = m x).
  { apply (store_words_outside _ 32); [reflexivity|].
    destruct (extended_frame e);
      rewrite wrap_small by (clear - R1; wrap_arith);
      intros Hc; apply N1; [eapply covers_sub; [| |exact Hc]; lia|exact Hc]. }
  destruct (extended_frame e) eqn:Ee; destruct FPU_PRESENT; cbn [andb];
    try exact H32.
  rewrite (store_words_outside _ 64); [exact H32|reflexivity|].
  rewrite wrap_small by (clear - R1; wrap_arith).
  intros Hc. apply N1. eapply covers_sub; [| |exact Hc]; lia.
Qed.



(* ------------------------------------------------------------------ *)
(** *** Beyond the claims: the tail in both builds *)

Lemma save_enters_switch s0 :
  SVC_ContextSave s0
  = SVC_ContextSwitch (SVC_ContextSave_body (enter L_SVC_ContextSave s0)).
Proof. reflexivity. Qed.

(** Without an FPU nothing is assembled between [BNE SVC_ContextSwitch]
    and [SVC_ContextSave]. *)
Lemma deleted_extended_nofpu s0 :
  FPU_PRESENT = false ->
  wrap (regs s0 R1) = 0 -> extended_frame (regs s0 LR) = true ->
  SVC_Context_deleted s0 = SVC_ContextSave (TST LR 16 s0).
Proof.
  intros Hf H He. unfold SVC_Context_deleted, CBNZ, seq_instr, Bcond.
  rewrite H. cbn [Z.eqb].
  change (holds NE (TST LR 16 s0)) with (negb (extended_frame (regs s0 LR))).
  now rewrite He, Hf.
Qed.

Lemma call_targets_app l1 l2 :
  call_targets (l1 ++ l2) = call_targets l1 ++ call_targets l2.
Proof.
  induction l1 as [|[] l1 IH]; cbn; rewrite ?IH; reflexivity.
Qed.

Lemma in_callee_saved r : In r R4_R11 -> (4 <= r)%nat /\ r <> R12.
Proof.
  unfold R4_R11. cbn. intros H.
  repeat (destruct H as [<-|H]; [split; [cbv; lia|discriminate]|]).
  contradiction.
Qed.

(** The part of a save run in front of [SVC_ContextSwitch], entered from
    any state [s0] that follows the fetch of the pair. *)
Lemma save_frame s0 :
  let sA := SVC_ContextSave_body (enter L_SVC_ContextSave s0) in
  sregs sA = sregs s0 /\ psp sA = psp s0 /\ msp sA = msp s0 /\
  primask sA = primask s0 /\
  (forall r, In r R4_R11 -> regs sA r = regs s0 r) /\
  exists pre, trace sA = trace s0 ++ pre /\ call_targets pre = [].
Proof.
  cbv zeta.
  destruct (save_body_spec (enter L_SVC_ContextSave s0))
    as (_ & Sr & _ & Sp & Smsp & Ss & Spm & St).
  repeat split; try assumption.
  - intros r Hr. apply Sr. now apply in_callee_saved.
  - eexists. split.
    + rewrite St.
      change (trace (enter L_SVC_ContextSave s0))
        with (trace s0 ++ [EvEnter L_SVC_ContextSave]).
      rewrite <- !app_assoc. reflexivity.
    + destruct (FPU_PRESENT && extended_frame _); reflexivity.
Qed.

Lemma before_switch_cases st :
  let s0 := SVC_Context_fetch (enter L_SVC_Context st) in
  before_switch st
  = if current st =? 0
    then if extended_frame (regs st LR)
         then if FPU_PRESENT then clear_LSPACT (TST LR 16 s0)
              else SVC_ContextSave_body (enter L_SVC_ContextSave (TST LR 16 s0))
         else TST LR 16 s0
    else SVC_ContextSave_body (enter L_SVC_ContextSave s0).
Proof.
  cbv zeta. unfold before_switch. cbv zeta.
  set (s0 := SVC_Context_fetch (enter L_SVC_Context st)).
  assert (H1 : regs s0 R1 = current st) by (unfold s0; now rewrite fetch_regs).
  assert (HL : regs s0 LR = regs st LR) by (unfold s0; now rewrite fetch_regs).
  assert (Hc : wrap (current st) = current st) by apply wrap_load32.
  rewrite H1, Hc.
  change (holds NE (TST LR 16 s0)) with (negb (extended_frame (regs s0 LR))).
  rewrite HL.
  destruct (current st =? 0); [|reflexivity].
  destruct (extended_frame (regs st LR)); reflexivity.
Qed.

(** Every switching run of the tail, in either build, reaches
    [SVC_ContextSwitch] in the state [before_switch]; up to there it calls
    nothing and leaves the stack pointers, PRIMASK, R4-R11 and the FPU
    registers alone. *)
Lemma tail_reaches_switch st :
  current st <> next st ->
  exists sA,
    sA = before_switch st /\
    SVC_Context st = SVC_ContextSwitch sA /\
    sregs sA = sregs st /\ psp sA = psp st /\ msp sA = msp st /\
    primask sA = primask st /\
    (forall r, In r R4_R11 -> regs sA r = regs st r) /\
    exists pre, trace sA = trace st ++ pre /\ call_targets pre = [].
Proof.
  intros Hd. rewrite (tail_differ _ Hd).
  set (s0 := SVC_Context_fetch (enter L_SVC_Context st)).
  assert (H1 : regs s0 R1 = current st) by (unfold s0; now rewrite fetch_regs).
  assert (HL : regs s0 LR = regs st LR) by (unfold s0; now rewrite fetch_regs).
  assert (Hr : forall r, In r R4_R11 -> regs s0 r = regs st r).
  { intros r Hr. apply in_callee_saved in Hr. destruct Hr as [Hr _].
    unfold s0. rewrite fetch_regs.
    destruct r as [|[|[|[|r]]]]; try lia. reflexivity. }
  destruct (fetch_frame (enter L_SVC_Context st))
    as (_ & Fp & Fmsp & Fs & Fpm & Ft). fold s0 in Fp, Fmsp, Fs, Fpm, Ft.
  change (trace (enter L_SVC_Context st))
    with (trace st ++ [EvEnter L_SVC_Context]) in Ft.
  rewrite <- app_assoc in Ft. cbn [app] in Ft.
  assert (Hc : wrap (current st) = current st) by apply wrap_load32.
  pose proof (before_switch_cases st) as Hbs. cbv zeta in Hbs. fold s0 in Hbs.
  assert (Hsave : forall s0', regs s0' = regs s0 -> sregs s0' = sregs s0 ->
            psp s0' = psp s0 -> msp s0' = msp s0 ->
            primask s0' = primask s0 -> trace s0' = trace s0 ->
            SVC_ContextSave_body (enter L_SVC_ContextSave s0')
            = before_switch st ->
            exists sA,
              sA = before_switch st /\
              SVC_ContextSave s0' = SVC_ContextSwitch sA /\
              sregs sA = sregs st /\ psp sA = psp st /\ msp sA = msp st /\
              primask sA = primask st /\
              (forall r, In r R4_R11 -> regs sA r = regs st r) /\
              exists pre, trace sA = trace st ++ pre /\ call_targets pre = []).
  { intros s0' Er Es Ep Em Epm Et Eb.
    exists (SVC_ContextSave_body (enter L_SVC_ContextSave s0')).
    split; [exact Eb|].
    split; [apply save_enters_switch|].
    destruct (save_frame s0') as (Ss & Sp & Sm & Spm & Sr & pre & St & Sc).
    rewrite Ss, Sp, Sm, Spm, Es, Ep, Em, Epm.
    repeat split; try assumption.
    - intros r Hin. rewrite (Sr r Hin), Er. now apply Hr.
    - exists ([EvEnter L_SVC_Context; EvLoad run_addr 8] ++ pre). split.
      + rewrite St, Et, Ft, <- !app_assoc. reflexivity.
      + rewrite call_targets_app, Sc. reflexivity. }
  destruct (Z.eqb_spec (current st) 0) as [E0|E0].
  - destruct (extended_frame (regs st LR)) eqn:Ee.
    + destruct (Bool.bool_dec FPU_PRESENT true) as [Hf|Hf].
      * rewrite deleted_extended by (rewrite ?H1, ?HL; congruence).
        exists (clear_LSPACT (TST LR 16 s0)).
        split; [rewrite Hbs, Hf; reflexivity|]. split; [reflexivity|].
        destruct (clear_LSPACT_spec (TST LR 16 s0))
          as (_ & Cr & Cp & Cmsp & Cs & Cpm & Ct).
        rewrite Cp, Cmsp, Cs, Cpm.
        repeat split; try assumption.
        -- intros r Hin. rewrite Cr by (now apply in_callee_saved).
           now apply Hr.
        -- eexists. split.
           ++ rewrite Ct. change (trace (TST LR 16 s0)) with (trace s0).
              rewrite Ft, <- !app_assoc. reflexivity.
           ++ reflexivity.
      * apply Bool.not_true_is_false in Hf.
        rewrite deleted_extended_nofpu by (rewrite ?H1, ?HL; congruence).
        apply Hsave; try reflexivity. rewrite Hbs, Hf. reflexivity.
    + rewrite deleted_basic by (rewrite ?H1, ?HL; congruence).
      exists (TST LR 16 s0). split; [exact (eq_sym Hbs)|].
      split; [reflexivity|].
      repeat split; try assumption.
      eexists. split.
      * change (trace (TST LR 16 s0)) with (trace s0). exact Ft.
      * reflexivity.
  - rewrite deleted_live by (rewrite H1; congruence).
    apply Hsave; try reflexivity. exact (eq_sym Hbs).
Qed.

(** What [SVC_ContextSwitch] publishes. *)
Lemma switch_publishes sA :
  let s1 := extern (wrap thread_switch_helper)
                   (helper_entry (enter L_SVC_ContextSwitch sA)) in
  current (SVC_ContextSwitch sA) = next s1 /\
  next (SVC_ContextSwitch sA) = next s1.
Proof.
  cbv zeta. destruct (switch_onwards sA) as (Om & _).
  split.
  - unfold current. rewrite Om, load32_store32_same.
    unfold next. apply wrap_load32.
  - unfold next at 1. rewrite Om. unfold next.
    apply load32_ext. intros x [i [Hi ->]]. apply store32_other.
    intros [j [Hj Hc]]. clear - Hi Hj Hc. wrap_arith.
Qed.

(** PRIMASK across [SVC_ContextSwitch]: with uVisor the helper is entered
    with interrupts masked and they are unmasked at the end; without, the
    core does not write PRIMASK. *)
Lemma switch_primask sA :
  let s_call := helper_entry (enter L_SVC_ContextSwitch sA) in
  let s1 := extern (wrap thread_switch_helper) s_call in
  primask s_call = FEATURE_UVISOR || primask sA /\
  primask (SVC_ContextSwitch sA)
  = (if FEATURE_UVISOR then false else primask s1).
Proof.
  cbv zeta. split.
  - destruct FEATURE_UVISOR; reflexivity.
  - unfold SVC_ContextSwitch, SVC_ContextSwitch_body, SVC_ContextRestore,
      SVC_ContextRestore_body, SVC_Exit, seq_instr.
    destruct FPU_PRESENT; unfold ifdef.
    + rewrite IT_EQ_TST.
      destruct FEATURE_UVISOR;
        match goal with |- context [if ?b then _ else _] => destruct b end;
        reflexivity.
    + destruct FEATURE_UVISOR; reflexivity.
Qed.

(** X1. On exit from the tail the pair is settled, [current = next],
    whatever path was taken; entering the tail again with memory as it was
    left is therefore the fast path and changes nothing. *)
Theorem tail_settles_pair (st : state) :
  let s' := SVC_Context st in
  current s' = next s' /\
  forall st2, mem st2 = mem s' ->
    mem (SVC_Context st2) = mem s' /\
    psp (SVC_Context st2) = psp st2 /\
    trace (SVC_Context st2)
    = trace st2 ++ [EvEnter L_SVC_Context; EvLoad run_addr 8;
                    EvExit (regs st2 LR)].
Proof.
  cbv zeta.
  assert (Hset : current (SVC_Context st) = next (SVC_Context st)).
  { destruct (Z.eq_dec (current st) (next st)) as [He|Hd].
    - destruct (tail_fast st He) as (_ & Hm & _).
      unfold current, next. rewrite Hm. exact He.
    - destruct (tail_reaches_switch st Hd) as (sA & _ & Heq & _).
      rewrite Heq. destruct (switch_publishes sA) as (Hc & Hn).
      now rewrite Hc, Hn. }
  split; [exact Hset|].
  intros st2 Hm2.
  assert (He : current st2 = next st2).
  { unfold current, next. rewrite Hm2. exact Hset. }
  destruct (tail_fast st2 He) as (Ht & Hm & Hp & _).
  split; [now rewrite Hm|]. split; assumption.
Qed.

(** X2. PRIMASK and the tail.  On the fast path PRIMASK is not written.
    On a switching path the helper is entered with PRIMASK set when the
    image is built with FEATURE_UVISOR (and as it was otherwise), and the
    tail ends, after PSP has been loaded, with PRIMASK clear with
    FEATURE_UVISOR (and as the helper left it otherwise). *)
Theorem tail_primask (st : state) :
  let s' := SVC_Context st in
  (current st = next st -> primask s' = primask st) /\
  (current st <> next st ->
   let sA := before_switch st in
   let s_call := at_helper_call sA in
   let s1 := extern (wrap thread_switch_helper) s_call in
   s' = SVC_ContextSwitch sA /\
   mem s' = store32 (mem s1) run_addr (next s1) /\
   primask s_call = FEATURE_UVISOR || primask st /\
   primask s' = (if FEATURE_UVISOR then false else primask s1)).
Proof.
  cbv zeta. split.
  - intros He. now destruct (tail_fast st He) as (_ & _ & _ & _ & _ & Hp & _).
  - intros Hd.
    destruct (tail_reaches_switch st Hd)
      as (sA & <- & Heq & _ & _ & _ & Hpm & _).
    destruct (switch_primask sA) as (Hc & Hp).
    destruct (switch_onwards sA) as (Om & _).
    rewrite Heq. rewrite <- Hpm.
    split; [reflexivity|]. split; [exact Om|]. split; assumption.
Qed.

(* ------------------------------------------------------------------ *)
(** *** Out and back *)

Lemma lor_low_byte b : 0 <= b < 256 -> Z.lor b 0xFFFFFF00 = 0xFFFFFF00 + b.
Proof.
  intros Hb.
  assert (H : forallb (fun n => Z.lor (Z.of_nat n) 0xFFFFFF00
                                =? 0xFFFFFF00 + Z.of_nat n)
                      (seq 0 256) = true) by (vm_compute; reflexivity).
  rewrite forallb_forall in H.
  specialize (H (Z.to_nat b)).
  rewrite Z2Nat.id in H by lia.
  apply Z.eqb_eq, H, in_seq. lia.
Qed.

(** STRB keeps the low byte of EXC_RETURN and ORR puts the top 24 bits
    back. *)
Lemma exc_return_rebuilt e :
  exc_return e -> Z.lor (e mod 256) 0xFFFFFF00 = e.
Proof.
  unfold exc_return. intros He.
  rewrite lor_low_byte by (apply Z.mod_pos_bound; lia).
  euclid.
Qed.

(** What a restore reads from a memory that still holds what a save
    wrote. *)
Lemma saved_image_reads m rf sf c p e m2 :
  let ext := FPU_PRESENT && extended_frame e in
  let size := if ext then 96 else 32 in
  is_word p -> region (p - size) size -> region c 60 ->
  apart (p - size) size (c + TCB_SF_OFS) 1 ->
  apart (p - size) size (c + TCB_SP_OFS) 4 ->
  (forall x, covers (p - size) size x \/ covers (c + TCB_SF_OFS) 1 x
             \/ covers (c + TCB_SP_OFS) 4 x ->
             m2 x = save_memory m rf sf c p e x) ->
  tcb_stack_frame m2 c = e mod 256 /\
  tcb_sp m2 c = p - size /\
  load_words m2 (p - 32) 8 = map wrap (map rf R4_R11) /\
  (ext = true -> load_words m2 (p - 96) 16 = map wrap (map sf S16_S31)).
Proof.
  cbv zeta. intros Hp Hreg Ht Hsf Hsp Hagree.
  unfold TCB_SF_OFS, TCB_SP_OFS in *.
  unfold save_memory in Hagree. unfold TCB_SF_OFS, TCB_SP_OFS in Hagree.
  set (ext := FPU_PRESENT && extended_frame e) in *.
  set (size := if ext then 96 else 32) in *.
  assert (Hsize : size = 96 /\ ext = true \/ size = 32 /\ ext = false)
    by (unfold size; destruct ext; auto).
  assert (Wsp : wrap (c + 56) = c + 56) by (apply wrap_small; wrap_arith).
  assert (Wsf : wrap (c + 34) = c + 34) by (apply wrap_small; wrap_arith).
  assert (Wa1 : wrap (p - 32) = p - 32) by (apply wrap_small; wrap_arith).
  rewrite Wsp, Wsf, Wa1 in Hagree.
  assert (Esf : load8 m2 (c + 34) = e mod 256).
  { erewrite load8_ext.
    - apply load8_store8_same.
    - rewrite Hagree; [reflexivity|].
      right; left. exists 0. split; [lia|]. f_equal. lia. }
  assert (Esp : load32 m2 (c + 56) = p - size).
  { erewrite load32_ext by (intros x Hx; apply Hagree; auto).
    etransitivity.
    { apply load32_ext. intros x Hx. apply store8_outside.
      intros Hc. destruct Hx as [i [Hi ->]]. destruct Hc as [j [Hj Hc]].
      wrap_arith. }
    rewrite load32_store32_same.
    destruct Hsize as [[Hs He]|[Hs He]]; rewrite He.
    + rewrite wrap_wrap. replace (p - 32 - 64) with (p - size) by lia.
      apply wrap_small. wrap_arith.
    + replace (p - 32) with (p - size) by lia.
      apply wrap_small. wrap_arith. }
  assert (Hlow : forall x, covers (p - size) size x ->
            m2 x
            = (if ext
               then store_words (store_words m (p - 32) (map rf R4_R11))
                                (p - 96) (map sf S16_S31)
               else store_words m (p - 32) (map rf R4_R11)) x).
  { intros x Hx. rewrite Hagree by auto.
    rewrite store8_outside, store32_other.
    - destruct Hsize as [[Hs He]|[Hs He]]; rewrite He; [|reflexivity].
      replace (wrap (p - 32 - 64)) with (p - 96); [reflexivity|].
      symmetry. replace (p - 32 - 64) with (p - 96) by lia.
      apply wrap_small. wrap_arith.
    - eapply covers_apart; [| |exact Hsp|exact Hx]; [assumption|wrap_arith].
    - eapply covers_apart; [| |exact Hsf|exact Hx]; [assumption|wrap_arith]. }
  split; [exact Esf|]. split; [exact Esp|]. split.
  - rewrite <- (load_words_store_words (map rf R4_R11) m (p - 32))
      by (cbn; lia).
    change (length (map rf R4_R11)) with 8%nat.
    apply load_words_ext. intros x Hx. rewrite Hlow.
    + destruct Hsize as [[Hs He]|[Hs He]]; rewrite He; [|reflexivity].
      apply (store_words_outside _ 64); [reflexivity|].
      change (4 * Z.of_nat 8) with 32 in Hx.
      eapply covers_apart; [| | |exact Hx]; wrap_arith.
    + change (4 * Z.of_nat 8) with 32 in Hx.
      eapply covers_sub; [| |exact Hx];
        destruct Hsize as [[Hs He]|[Hs He]]; lia.
  - intros Hext.
    assert (Hs : size = 96) by (unfold size; now rewrite Hext).
    rewrite <- (load_words_store_words (map sf S16_S31)
                  (store_words m (p - 32) (map rf R4_R11)) (p - 96))
      by (cbn; lia).
    change (length (map sf S16_S31)) with 16%nat.
    apply load_words_ext. intros x Hx. rewrite Hlow.
    + now rewrite Hext.
    + change (4 * Z.of_nat 16) with 64 in Hx.
      eapply covers_sub; [| |exact Hx]; lia.
Qed.

(** X3. Out and back.  A run of the tail switches thread A out (A is
    [current], not null and not [next]); a later run of the tail
    publishes A again.  If the memory that later run leaves still holds
    A's register image and its two TCB fields as the first run wrote them,
    the thread is resumed as it was interrupted: R4-R11 are back, S16-S31
    are back when its frame was extended, PSP is the value R12 had, and LR
    is EXC_RETURN again. *)
Theorem thread_resumed_as_saved (st1 st2 : state) :
  let A := current st1 in
  let p := regs st1 R12 in
  let e := regs st1 LR in
  let size := if extended_frame e then 96 else 32 in
  let saved := save_memory (mem st1) (regs st1) (sregs st1) A p e in
  let s' := SVC_Context st2 in
  FPU_PRESENT = true ->
  A <> 0 -> A <> next st1 ->
  current st2 <> next st2 -> current s' = A ->
  Forall (fun r => is_word (regs st1 r)) R4_R11 ->
  Forall (fun i => is_word (sregs st1 i)) S16_S31 ->
  is_word p -> region (p - size) size -> region A 60 ->
  apart (p - size) size (A + TCB_SF_OFS) 1 ->
  apart (p - size) size (A + TCB_SP_OFS) 4 ->
  (forall x, covers (p - size) size x \/ covers (A + TCB_SF_OFS) 1 x
             \/ covers (A + TCB_SP_OFS) 4 x -> mem s' x = saved x) ->
  (exists sA, SVC_Context st1 = SVC_ContextSwitch sA /\ mem sA = saved) /\
  (forall r, In r R4_R11 -> regs s' r = regs st1 r) /\
  (extended_frame e = true ->
   forall i, In i S16_S31 -> sregs s' i = sregs st1 i) /\
  psp s' = p /\
  regs s' LR = Z.lor (e mod 256) 0xFFFFFF00 /\
  (exc_return e -> regs s' LR = e).
Proof.
  cbv zeta.
  intros Hf HA Hd1 Hd2 Hcur Hregs Hsregs Hp Hreg Ht Hsf Hsp Hagree.
  assert (Hand : forall b, FPU_PRESENT && b = b) by (now rewrite Hf).
  split.
  { destruct (tail_to_switch st1 Hf Hd1) as (sA & Heq & Hm & _).
    exists sA. split; [exact Heq|].
    apply Z.eqb_neq in HA. now rewrite HA in Hm. }
  destruct (tail_reaches_switch st2 Hd2) as (sA & _ & Heq & _).
  rewrite Heq in Hcur, Hagree |- *.
  destruct (switch_publishes sA) as (Hc & _). rewrite Hcur in Hc.
  destruct (switch_onwards sA) as (Om & _ & Op & Ol & Or & Os & _).
  rewrite <- Om in Op, Ol, Or, Os. rewrite <- Hc in Op, Ol, Or, Os.
  destruct (saved_image_reads (mem st1) (regs st1) (sregs st1)
              (current st1) (regs st1 R12) (regs st1 LR)
              (mem (SVC_ContextSwitch sA)))
    as (Esf & Esp & Er & Es); rewrite ?Hand; try assumption.
  rewrite Hand in Es.
  rewrite Esf, Esp, extended_frame_byte, Hand in Op, Or, Os.
  rewrite Esf in Ol.
  rewrite (map_wrap_words _ _ Hregs) in Er.
  rewrite (map_wrap_words _ _ Hsregs) in Es.
  set (e := regs st1 LR) in *. set (p := regs st1 R12) in *.
  assert (Hbase : (if extended_frame e
                   then p - (if extended_frame e then 96 else 32) + 64
                   else p - (if extended_frame e then 96 else 32)) = p - 32)
    by (destruct (extended_frame e); lia).
  rewrite Hbase in Op, Or.
  split.
  { intros r Hr. eapply map_eq_In; [|exact Hr]. now rewrite Or. }
  split.
  { intros He i Hi. rewrite He in Os, Es.
    eapply map_eq_In; [|exact Hi].
    rewrite Os. rewrite map_upd_list;
      [|apply NoDup_S16_S31|now rewrite load_words_length].
    now apply Es. }
  split.
  { rewrite Op. replace (p - 32 + 32) with p by lia. now apply wrap_small. }
  split; [exact Ol|].
  intros He. rewrite Ol. now apply exc_return_rebuilt.
Qed.

(* ------------------------------------------------------------------ *)
(** *** The handler stack *)

Lemma helper_entry_msp s : msp (helper_entry s) = msp s.
Proof. destruct FEATURE_UVISOR; reflexivity. Qed.

Lemma tail_msp st :
  (current st <> next st ->
   keeps_msp (extern (wrap thread_switch_helper))
             (at_helper_call (before_switch st))) ->
  msp (SVC_Context st) = msp st.
Proof.
  intros Hk.
  destruct (Z.eq_dec (current st) (next st)) as [He|Hd].
  - now destruct (tail_fast st He) as (_ & _ & _ & Hm & _).
  - destruct (tail_reaches_switch st Hd) as (sA & EA & Heq & _ & _ & Hm & _).
    specialize (Hk Hd). rewrite <- EA in Hk.
    rewrite Heq. destruct (switch_onwards sA) as (_ & Om & _).
    rewrite Om. unfold keeps_msp in Hk.
    change (at_helper_call sA)
      with (helper_entry (enter L_SVC_ContextSwitch sA)) in Hk.
    rewrite Hk, helper_entry_msp. exact Hm.
Qed.

(** The main stack pointer and the state in which a handler reaches the
    tail. *)
Lemma prelude_msp h s st :
  exception_entry s -> prelude_contract h s ->
  tail_entry h s = Some st ->
  run h s = SVC_Context st /\ msp st = msp s.
Proof.
  intros (Hmsp & Hreg & Hpsp & Hfr & Hap & Hlr & H4) Hc Hst.
  destruct h.
  - unfold tail_entry in Hst. cbv zeta in Hst. rewrite svc_number_reg in Hst.
    unfold prelude_contract in Hc. cbv zeta in Hc.
    unfold at_service_call, seq_instr in Hc.
    destruct (number_facts s) as (N0 & N1 & N4 & NL & Nm & Np & Nmsp & Nt).
    cbv zeta in *.
    set (s0 := SVC_Handler_number (enter L_SVC_Handler s)) in *.
    revert Hc Hst.
    destruct (Z.eqb_spec (svc_number s) 0) as [E|E]; intros Hc Hst;
      [|discriminate].
    injection Hst as <-.
    assert (H := svc0_spec s0). cbv zeta in H.
    rewrite N0, Nm, Nmsp, NL in H.
    specialize (H Hmsp Hreg Hpsp Hfr Hap Hlr Hc).
    destruct H as (_ & _ & _ & _ & _ & _ & _ & Hm & _).
    split; [exact (svc_dispatch0 s E)|exact Hm].
  - unfold tail_entry in Hst. injection Hst as <-.
    destruct (trampoline_spec CS_pendsv osRtxPendSV_Handler
                (enter L_PendSV_Handler s) Hmsp Hreg Hlr H4 Hc)
      as (_ & _ & _ & _ & Hm & _).
    split; [reflexivity|exact Hm].
  - unfold tail_entry in Hst. injection Hst as <-.
    destruct (trampoline_spec CS_tick osRtxTick_Handler
                (enter L_SysTick_Handler s) Hmsp Hreg Hlr H4 Hc)
      as (_ & _ & _ & _ & Hm & _).
    split; [reflexivity|exact Hm].
Qed.

(** X4. Every handler, on every path, returns with the main stack pointer
    it was entered with, provided the routine called in front of the tail
    keeps the handler stack and the helper, when the tail calls it, comes
    back with the stack pointer it was called with. *)
Theorem handler_keeps_msp (h : handler) (s : state) :
  exception_entry s ->
  prelude_contract h s ->
  (forall st, tail_entry h s = Some st -> current st <> next st ->
     keeps_msp (extern (wrap thread_switch_helper))
               (at_helper_call (before_switch st))) ->
  region T_svc 1024 -> apart (msp s - 8) 8 T_svc 1024 ->
  msp (run h s) = msp s.
Proof.
  intros He Hc Hk HT HaT.
  destruct (tail_entry h s) as [st|] eqn:Hst.
  - destruct (prelude_msp h s st He Hc Hst) as [Hrun Hm].
    rewrite Hrun, tail_msp by (now apply Hk). exact Hm.
  - destruct He as (Hmsp & Hreg & Hpsp & Hfr & Hap & Hlr & H4).
    destruct h; [|discriminate Hst|discriminate Hst].
    unfold tail_entry in Hst. cbv zeta in Hst. rewrite svc_number_reg in Hst.
    unfold prelude_contract in Hc. cbv zeta in Hc.
    unfold at_user_call, seq_instr in Hc.
    destruct (number_facts s) as (N0 & N1 & N4 & NL & Nm & Np & Nmsp & Nt).
    cbv zeta in *.
    set (s0 := SVC_Handler_number (enter L_SVC_Handler s)) in *.
    pose proof (svc_number_byte s) as Hb.
    assert (Hnw : is_word (svc_number s)) by (unfold is_word; lia).
    revert Hc Hst.
    destruct (Z.eqb_spec (svc_number s) 0) as [E|E]; intros Hc Hst;
      [discriminate|].
    change (run H_SVC s) with (SVC_Handler s).
    rewrite (svc_dispatch_user s E). fold s0.
    destruct (Z.ltb_spec (load32 (mem s) T_svc) (svc_number s)) as [L|L].
    + assert (H := user_out_of_range s0). cbv zeta in H.
      rewrite N1, Nm, Nmsp, NL, N4 in H.
      assert (HT4 : region T_svc 4) by (clear - HT; unfold region in *; lia).
      assert (HaT4 : apart (msp s - 8) 8 T_svc 4)
        by (clear - HaT HT Hreg; unfold apart, region in *; lia).
      specialize (H Hmsp Hreg HT4 HaT4 Hnw H4 Hlr L).
      now destruct H as (_ & _ & Hm & _).
    + assert (H := user_in_range s0). cbv zeta in H.
      rewrite N0, N1, Nm, Nmsp, NL, N4, Np in H.
      assert (HTn : region T_svc (4 * (svc_number s + 1)))
        by (clear - HT Hb; unfold region in *; lia).
      assert (HaTn : apart (msp s - 8) 8 T_svc (4 * (svc_number s + 1)))
        by (clear - HaT HT Hreg Hb; unfold apart, region in *; lia).
      specialize (H Hmsp Hreg Hnw HTn HaTn Hpsp Hfr Hap eq_refl H4 Hlr
                    L (proj1 (Hc L)) (proj2 (Hc L))).
      destruct H as (s_call & _ & _ & _ & _ & _ & _ & _ & _ & _ & _ & Hm & _).
      exact Hm.
Qed.

(* ------------------------------------------------------------------ *)
(** *** Handlers that do not switch *)

Lemma trampoline_callee_saved cs policy s r :
  In r R4_R11 -> r <> R4 ->
  regs (trampoline cs policy s) r
  = regs (extern (wrap policy) (call_entry cs (PUSH [R4; LR] s))) r.
Proof.
  intros Hin H4. unfold trampoline, seq_instr, BL, call.
  unfold R4_R11 in Hin. cbn in Hin.
  destruct Hin as [<-|Hin]; [congruence|].
  repeat (destruct Hin as [<-|Hin]; [reflexivity|]). contradiction.
Qed.

Lemma svc0_call_regs s0 r :
  In r R4_R11 ->
  regs (call_entry CS_service
          (LDM R0 [R0; R1; R2; R3; R12] (PUSH [R0; LR] s0))) r = regs s0 r.
Proof.
  unfold R4_R11. cbn [In]. intros Hin.
  repeat (destruct Hin as [<-|Hin]; [reflexivity|]). contradiction.
Qed.

(** The state in which a handler reaches the tail, when the routine it
    called obeys the procedure call standard. *)
Lemma tail_entry_frame h s st :
  exception_entry s ->
  prelude_contract h s ->
  prelude_keeps keeps_psp h s ->
  prelude_keeps keeps_callee_saved h s ->
  tail_entry h s = Some st ->
  psp st = psp s /\ regs st R12 = psp s /\ regs st LR = regs s LR /\
  (forall r, In r R4_R11 -> regs st r = regs s r).
Proof.
  intros (Hmsp & Hreg & Hpsp & Hfr & Hap & Hlr & H4) Hk Hkp Hkr Hst.
  destruct h.
  - unfold tail_entry in Hst. cbv zeta in Hst. rewrite svc_number_reg in Hst.
    unfold prelude_contract in Hk. unfold prelude_keeps in Hkp, Hkr.
    cbv zeta in Hk, Hkp, Hkr.
    unfold at_service_call, seq_instr in Hk, Hkp, Hkr.
    destruct (number_spec (enter L_SVC_Handler s))
      as (N0 & _ & Nr & Nm & Np & Nmsp & _).
    cbv zeta in *.
    set (s0 := SVC_Handler_number (enter L_SVC_Handler s)) in *.
    change (psp (enter L_SVC_Handler s)) with (psp s) in *.
    change (mem (enter L_SVC_Handler s)) with (mem s) in *.
    change (msp (enter L_SVC_Handler s)) with (msp s) in *.
    change (regs (enter L_SVC_Handler s)) with (regs s) in *.
    assert (NL : regs s0 LR = regs s LR) by (apply Nr; cbv; lia).
    revert Hk Hkp Hkr Hst.
    destruct (Z.eqb_spec (svc_number s) 0) as [E|E]; intros Hk Hkp Hkr Hst;
      [|discriminate].
    injection Hst as <-.
    assert (H := svc0_spec s0). cbv zeta in H.
    rewrite N0, Nm, Nmsp, NL in H.
    specialize (H Hmsp Hreg Hpsp Hfr Hap Hlr Hk).
    destruct H as (_ & _ & _ & _ & _ & H12 & HL & _ & Hp & _ & Hr & _).
    unfold keeps_psp in Hkp. unfold keeps_callee_saved in Hkr.
    split.
    { rewrite Hp, Hkp, call_entry_psp. exact Np. }
    split; [exact H12|]. split; [exact HL|].
    intros r Hin. rewrite (Hr r Hin), (Hkr r Hin), svc0_call_regs by exact Hin.
    apply Nr. apply in_callee_saved in Hin. lia.
  - unfold tail_entry in Hst. injection Hst as <-.
    destruct (trampoline_spec CS_pendsv osRtxPendSV_Handler
                (enter L_PendSV_Handler s) Hmsp Hreg Hlr H4 Hk)
      as (T12 & Tp & TL & T4 & _).
    cbv zeta in *.
    unfold prelude_keeps, at_policy_call, seq_instr in Hkp, Hkr.
    unfold keeps_psp in Hkp. unfold keeps_callee_saved in Hkr.
    assert (Hp : psp (trampoline CS_pendsv osRtxPendSV_Handler
                        (enter L_PendSV_Handler s)) = psp s).
    { rewrite Tp, Hkp, call_entry_psp. reflexivity. }
    split; [exact Hp|].
    split; [now rewrite T12|]. split; [exact TL|].
    intros r Hin. destruct (Nat.eq_dec r R4) as [->|Hn]; [exact T4|].
    rewrite trampoline_callee_saved, (Hkr r Hin) by assumption.
    unfold R4_R11 in Hin. cbn [In] in Hin.
    repeat (destruct Hin as [<-|Hin]; [reflexivity|]). contradiction.
  - unfold tail_entry in Hst. injection Hst as <-.
    destruct (trampoline_spec CS_tick osRtxTick_Handler
                (enter L_SysTick_Handler s) Hmsp Hreg Hlr H4 Hk)
      as (T12 & Tp & TL & T4 & _).
    cbv zeta in *.
    unfold prelude_keeps, at_policy_call, seq_instr in Hkp, Hkr.
    unfold keeps_psp in Hkp. unfold keeps_callee_saved in Hkr.
    assert (Hp : psp (trampoline CS_tick osRtxTick_Handler
                        (enter L_SysTick_Handler s)) = psp s).
    { rewrite Tp, Hkp, call_entry_psp. reflexivity. }
    split; [exact Hp|].
    split; [now rewrite T12|]. split; [exact TL|].
    intros r Hin. destruct (Nat.eq_dec r R4) as [->|Hn]; [exact T4|].
    rewrite trampoline_callee_saved, (Hkr r Hin) by assumption.
    unfold R4_R11 in Hin. cbn [In] in Hin.
    repeat (destruct Hin as [<-|Hin]; [reflexivity|]). contradiction.
Qed.

(** X5. A handler that reaches the tail and finds [current = next] goes
    back to the thread it interrupted: it leaves through BX LR with the
    EXC_RETURN it was entered with, PSP and MSP are as on entry, and
    R4-R11 are as on entry, when the routine called in front of the tail
    keeps the handler stack, PSP and R4-R11 as the procedure call standard
    asks.  The tail itself has only read the pair. *)
Theorem no_switch_returns_to_thread (h : handler) (s st : state) :
  let s' := run h s in
  exception_entry s ->
  prelude_contract h s ->
  prelude_keeps keeps_psp h s ->
  prelude_keeps keeps_callee_saved h s ->
  tail_entry h s = Some st -> current st = next st ->
  psp s' = psp s /\ msp s' = msp s /\
  (forall r, In r R4_R11 -> regs s' r = regs s r) /\
  regs s' LR = regs s LR /\
  mem s' = mem st /\
  trace s' = trace st ++ [EvEnter L_SVC_Context; EvLoad run_addr 8;
                          EvExit (regs s LR)].
Proof.
  cbv zeta. intros He Hk Hkp Hkr Hst Heq.
  destruct (tail_entry_frame h s st He Hk Hkp Hkr Hst)
    as (Hp & _ & HL & Hr).
  destruct (prelude_msp h s st He Hk Hst) as [Hrun Hmsp].
  rewrite Hrun.
  destruct (tail_fast st Heq) as (Tt & Tm & Tp & Tmsp & _ & _ & Tr).
  split; [now rewrite Tp|]. split; [now rewrite Tmsp|].
  split.
  { intros r Hin. rewrite Tr by (now apply in_callee_saved). now apply Hr. }
  split.
  { rewrite Tr by (cbv; lia). exact HL. }
  split; [exact Tm|]. rewrite Tt, HL. reflexivity.
Qed.

(** X6. SVC 0 without a switch, end to end: the service is called with
    the four arguments stacked by the caller, and when the handler leaves
    through EXC_RETURN, PSP points at the same frame, whose first two
    words now hold the R0 and R1 the service returned; the other six
    words of the frame are as the service left them. *)
Theorem svc0_results_visible (s : state) :
  let f := psp s in
  let fn := load32 (mem s) (f + 16) in
  let st := SVC_Handler_svc0 (SVC_Handler_number (enter L_SVC_Handler s)) in
  let s' := SVC_Handler s in
  let s_call := at_service_call s in
  let s_ret := extern fn s_call in
  svc_number s = 0 ->
  exception_entry s ->
  keeps_stack (extern fn) s_call -> keeps_psp (extern fn) s_call ->
  current st = next st ->
  exists evs,
    regs s_call R0 = load32 (mem s) f /\
    regs s_call R1 = load32 (mem s) (f + 4) /\
    regs s_call R2 = load32 (mem s) (f + 8) /\
    regs s_call R3 = load32 (mem s) (f + 12) /\
    psp s' = f /\
    load32 (mem s') f = wrap (regs s_ret R0) /\
    load32 (mem s') (f + 4) = wrap (regs s_ret R1) /\
    (forall x, ~ covers f 8 x -> mem s' x = mem s_ret x) /\
    trace s' = trace s ++ evs ++ [EvExit (regs s LR)] /\
    call_targets evs = [fn].
Proof.
  cbv zeta. intros Hn (Hmsp & Hreg & Hpsp & Hfr & Hap & Hlr & _) Hk Hkp Heq.
  rewrite (svc_dispatch0 _ Hn).
  set (s0 := SVC_Handler_number (enter L_SVC_Handler s)) in *.
  destruct (number_spec (enter L_SVC_Handler s))
    as (N0 & _ & Nr & Nm & Np & Nmsp & _ & Nt).
  fold s0 in N0, Nr, Nm, Np, Nmsp, Nt.
  change (psp (enter L_SVC_Handler s)) with (psp s) in *.
  change (mem (enter L_SVC_Handler s)) with (mem s) in *.
  change (msp (enter L_SVC_Handler s)) with (msp s) in *.
  change (regs (enter L_SVC_Handler s)) with (regs s) in *.
  change (trace (enter L_SVC_Handler s))
    with (trace s ++ [EvEnter L_SVC_Handler]) in *.
  assert (NL : regs s0 LR = regs s LR) by (apply Nr; cbv; lia).
  assert (H := svc0_spec s0). cbv zeta in H.
  rewrite N0, Nm, Nmsp, NL in H.
  unfold at_service_call, seq_instr in Hk, Hkp |- *. fold s0 in Hk, Hkp |- *.
  specialize (H Hmsp Hreg Hpsp Hfr Hap Hlr Hk).
  destruct H as (A0 & A1 & A2 & A3 & Hm & _ & HL & _ & Hp & _ & _ & Ht).
  destruct (tail_fast _ Heq) as (Tt & Tm & Tp & _).
  unfold keeps_psp in Hkp.
  exists [EvEnter L_SVC_Handler; EvLoad (wrap (psp s + 24)) 4;
          EvLoad (wrap (load32 (mem s) (psp s + 24) - 2)) 1;
          EvStore (msp s - 8) 8; EvLoad (psp s) 20;
          EvCall (load32 (mem s) (psp s + 16)) (load32 (mem s) (psp s))
                 (load32 (mem s) (psp s + 4)) (load32 (mem s) (psp s + 8))
                 (load32 (mem s) (psp s + 12));
          EvLoad (msp s - 8) 8; EvStore (psp s) 8;
          EvEnter L_SVC_Context; EvLoad run_addr 8].
  cbv zeta.
  split; [exact A0|]. split; [exact A1|]. split; [exact A2|].
  split; [exact A3|].
  split.
  { rewrite Tp, Hp, Hkp, call_entry_psp. exact Np. }
  rewrite Tm, Hm. cbn [store_words].
  split.
  { etransitivity.
    { apply load32_ext. intros x Hx. apply store32_other.
      intros [j [Hj Hc]]. destruct Hx as [i [Hi ->]].
      clear - Hi Hj Hc. wrap_arith. }
    apply load32_store32_same. }
  split; [apply load32_store32_same|].
  split.
  { intros x Hx. rewrite !store32_other; [reflexivity| |].
    - intros Hc. apply Hx. eapply covers_mono; [|exact Hc]. lia.
    - intros Hc. apply Hx. eapply covers_sub; [| |exact Hc]; lia. }
  split.
  { rewrite Tt, Ht, Nt, HL. rewrite <- !app_assoc. reflexivity. }
  reflexivity.
Qed.

(* ------------------------------------------------------------------ *)
(** *** Calls, FPU registers and the build without an FPU *)

Lemma call_targets_restore m n : call_targets (restore_events m n) = [].
Proof.
  unfold restore_events.
  destruct (FPU_PRESENT && extended_frame _); reflexivity.
Qed.

(** X7. The tail calls [thread_switch_helper] exactly once when the pair
    differs and calls nothing when it does not, in either build. *)
Theorem helper_called_per_switch (st : state) :
  exists evs,
    trace (SVC_Context st) = trace st ++ evs /\
    call_targets evs
    = if current st =? next st then [] else [wrap thread_switch_helper].
Proof.
  destruct (Z.eqb_spec (current st) (next st)) as [He|Hd].
  - destruct (tail_fast st He) as (Ht & _).
    eexists. split; [exact Ht|reflexivity].
  - destruct (tail_reaches_switch st Hd)
      as (sA & _ & Heq & _ & _ & _ & _ & _ & pre & Hpre & Hc).
    destruct (switch_onwards sA) as (_ & _ & _ & _ & _ & _ & Ot).
    rewrite Heq, Ot, Hpre.
    eexists. split; [rewrite <- app_assoc; reflexivity|].
    rewrite !call_targets_app, Hc, call_targets_restore. reflexivity.
Qed.

Lemma helper_entry_sregs s : sregs (helper_entry s) = sregs s.
Proof. destruct FEATURE_UVISOR; reflexivity. Qed.

(** X8. FPU registers and the tail.  If the helper, when the tail calls
    it, leaves the FPU registers alone, the tail never changes S0-S15, and it changes
    nothing at all in the register file of the FPU unless the image is
    built with __FPU_PRESENT, the pair differs and the thread it resumes
    has an extended frame (bit 0x10 of its stack_frame clear). *)
Theorem fp_registers_by_frame (st : state) :
  let s' := SVC_Context st in
  (current st <> next st ->
   keeps_sregs (extern (wrap thread_switch_helper))
               (at_helper_call (before_switch st))) ->
  (forall i, ~ In i S16_S31 -> sregs s' i = sregs st i) /\
  (FPU_PRESENT = false \/ current st = next st \/
   extended_frame (tcb_stack_frame (mem s') (current s')) = false ->
   sregs s' = sregs st).
Proof.
  cbv zeta. intros Hk.
  destruct (Z.eq_dec (current st) (next st)) as [He|Hd].
  { destruct (tail_fast st He) as (_ & _ & _ & _ & Hs & _).
    rewrite Hs. split; reflexivity. }
  destruct (tail_reaches_switch st Hd) as (sA & EA & Heq & Hs & _).
  specialize (Hk Hd). rewrite <- EA in Hk. unfold keeps_sregs in Hk.
  change (at_helper_call sA)
    with (helper_entry (enter L_SVC_ContextSwitch sA)) in Hk.
  destruct (switch_publishes sA) as (Hc & _).
  destruct (switch_onwards sA) as (Om & _ & _ & _ & _ & Os & _).
  rewrite Heq.
  rewrite Hk, helper_entry_sregs in Os.
  change (sregs (enter L_SVC_ContextSwitch sA)) with (sregs sA) in Os.
  rewrite Hs in Os. rewrite <- Om, <- Hc in Os.
  split.
  - intros i Hi. rewrite Os.
    match goal with |- context [if ?b then _ else _] => destruct b end;
      [|reflexivity].
    now apply upd_list_other.
  - intros [Hf|[He|Hb]].
    + rewrite Os, Hf. reflexivity.
    + contradiction.
    + rewrite Os, Hb, Bool.andb_false_r. reflexivity.
Qed.

(** X9. The build without __FPU_PRESENT, a deleted thread ([current] null,
    [next] not) and an EXC_RETURN with bit 0x10 clear: nothing is
    assembled between [BNE SVC_ContextSwitch] and [SVC_ContextSave], so
    the tail runs the save with the null handle.  It pushes R4-R11 below
    R12 and writes the word at address 56 and the byte at address 34.
    With bit 0x10 set it stores nothing before the switch. *)
Theorem no_fpu_deleted_thread (st : state) :
  let p := regs st R12 in
  let e := regs st LR in
  FPU_PRESENT = false ->
  current st = 0 -> current st <> next st ->
  exists sA,
    sA = before_switch st /\
    SVC_Context st = SVC_ContextSwitch sA /\
    mem sA = (if extended_frame e
              then store8 (store32 (store_words (mem st) (wrap (p - 32))
                                                (map (regs st) R4_R11))
                                   TCB_SP_OFS (wrap (p - 32)))
                          TCB_SF_OFS e
              else mem st) /\
    trace sA = trace st ++ [EvEnter L_SVC_Context; EvLoad run_addr 8]
                 ++ (if extended_frame e
                     then [EvEnter L_SVC_ContextSave;
                           EvStore (wrap (p - 32)) 32;
                           EvStore TCB_SP_OFS 4; EvStore TCB_SF_OFS 1]
                     else []).
Proof.
  cbv zeta. intros Hf H0 Hd. rewrite (tail_differ _ Hd).
  pose proof (before_switch_cases st) as Hbs. cbv zeta in Hbs.
  rewrite H0 in Hbs. cbn [Z.eqb] in Hbs.
  set (s0 := SVC_Context_fetch (enter L_SVC_Context st)) in *.
  assert (H1 : regs s0 R1 = 0) by (unfold s0; now rewrite fetch_regs).
  assert (HL : regs s0 LR = regs st LR) by (unfold s0; now rewrite fetch_regs).
  assert (H12 : regs s0 R12 = regs st R12) by (unfold s0; now rewrite fetch_regs).
  assert (Hr : map (regs s0) R4_R11 = map (regs st) R4_R11)
    by exact (map_fetch_callee_saved (enter L_SVC_Context st)).
  destruct (fetch_frame (enter L_SVC_Context st)) as (Fm & _ & _ & _ & _ & Ft).
  fold s0 in Fm, Ft.
  change (trace (enter L_SVC_Context st))
    with (trace st ++ [EvEnter L_SVC_Context]) in Ft.
  change (mem (enter L_SVC_Context st)) with (mem st) in Fm.
  destruct (extended_frame (regs st LR)) eqn:Ee.
  - rewrite deleted_extended_nofpu
      by (rewrite ?H1, ?HL; first [assumption|reflexivity]).
    exists (SVC_ContextSave_body (enter L_SVC_ContextSave (TST LR 16 s0))).
    split; [rewrite Hbs, Hf; reflexivity|].
    split; [apply save_enters_switch|].
    destruct (save_body_spec (enter L_SVC_ContextSave (TST LR 16 s0)))
      as (Sm & _ & _ & _ & _ & _ & _ & St).
    change (regs (enter L_SVC_ContextSave (TST LR 16 s0))) with (regs s0) in *.
    change (mem (enter L_SVC_ContextSave (TST LR 16 s0))) with (mem s0) in *.
    change (trace (enter L_SVC_ContextSave (TST LR 16 s0)))
      with (trace s0 ++ [EvEnter L_SVC_ContextSave]) in *.
    assert (Hand : forall b, FPU_PRESENT && b = false) by (now rewrite Hf).
    rewrite Hand in Sm, St.
    rewrite H1, HL, H12, Fm, Hr in Sm. rewrite H1, H12, Ft in St.
    change (wrap (0 + TCB_SP_OFS)) with TCB_SP_OFS in *.
    change (wrap (0 + TCB_SF_OFS)) with TCB_SF_OFS in *.
    split; [exact Sm|].
    rewrite St, <- !app_assoc. reflexivity.
  - rewrite deleted_basic
      by (rewrite ?H1, ?HL; first [assumption|reflexivity]).
    exists (TST LR 16 s0). split; [exact (eq_sym Hbs)|].
    split; [reflexivity|].
    split; [exact Fm|].
    change (trace (TST LR 16 s0)) with (trace s0).
    rewrite Ft, <- !app_assoc. reflexivity.
Qed.

End Correctness.

(* ------------------------------------------------------------------ *)
(** ** The theorems on the concrete machine *)

(** Closed facts about numbers, ranges and lists of ranges are settled by
    evaluation. *)
Ltac closed_now :=
  vm_compute;
  lazymatch goal with
  | |- _ /\ _ => split; closed_now
  | |- _ \/ _ => first [left; solve [closed_now] | right; solve [closed_now]]
  | |- _ = _ => reflexivity
  | |- _ => discriminate
  end.

Ltac closed :=
  cbv zeta;
  lazymatch goal with
  | |- Forall _ _ =>
      first [apply Forall_nil | apply Forall_cons; [closed | closed]]
  | |- clear_of _ _ _ => unfold clear_of; closed
  | |- _ /\ _ => split; closed
  | |- _ \/ _ => first [left; solve [closed] | right; solve [closed]]
  | |- _ => closed_now
  end.

Lemma mem_mkState r m p sr a pm me t :
  mem (mkState r m p sr a pm me t) = me.
Proof. reflexivity. Qed.

(** Thread A, interrupted with an extended frame, is saved and restored. *)
Lemma save_restore_roundtrip_witness :
  let s := Scenario.saving_A 0xFFFFFFED in
  let s3 := SVC_ContextRestore_body true false
              (Scenario.restoring_A 0xFFFFFFED) in
  regs s3 R4 = regs s R4 /\ regs s3 R11 = regs s R11 /\
  sregs s3 S16 = sregs s S16 /\
  regs s3 LR = 0xFFFFFFED /\ psp s3 = Scenario.frame.
Proof.
  pose proof (save_restore_roundtrip true false 0 Scenario.extern
                (Scenario.saving_A 0xFFFFFFED)
                (Scenario.restoring_A 0xFFFFFFED)) as H.
  cbv zeta in H.
  destruct H as (Hr & Hs & Hl & _ & _ & Hp).
  - closed.
  - closed.
  - closed.
  - closed.
  - closed.
  - closed.
  - closed.
  - reflexivity.
  - intros x _. unfold Scenario.restoring_A. rewrite mem_mkState.
    reflexivity.
  - split; [apply Hr; cbn; tauto|].
    split; [apply Hr; cbn; tauto|].
    split; [apply Hs; [reflexivity|closed|cbn; tauto]|].
    split; [rewrite Hl; closed|exact Hp].
Defined.

(** The routines of [Scenario.electing] write memory; what they leave
    alone is this. *)
Lemma electing_msp again f s : msp (Scenario.electing again f s) = msp s.
Proof.
  unfold Scenario.electing, Scenario.elect.
  repeat match goal with
         | |- context [if ?b then _ else _] => destruct b
         end; reflexivity.
Qed.

Lemma electing_psp again f s : psp (Scenario.electing again f s) = psp s.
Proof.
  unfold Scenario.electing, Scenario.elect.
  repeat match goal with
         | |- context [if ?b then _ else _] => destruct b
         end; reflexivity.
Qed.

Lemma electing_mem again f s x :
  ~ covers (Scenario.osRtxInfo + I_T_RUN_OFS + 4) 4 x ->
  ~ covers Scenario.data_word 4 x ->
  mem (Scenario.electing again f s) x = mem s x.
Proof.
  intros H1 H2. unfold Scenario.electing, Scenario.elect.
  repeat match goal with
         | |- context [if ?b then _ else _] => destruct b
         end;
    cbn [mem set_reg set_regs set_mem];
    try reflexivity; now apply store32_other.
Qed.

Lemma electing_keeps_stack again f s :
  region (msp s) 8 ->
  apart (msp s) 8 (Scenario.osRtxInfo + I_T_RUN_OFS + 4) 4 ->
  apart (msp s) 8 Scenario.data_word 4 ->
  keeps_stack (Scenario.electing again f) s.
Proof.
  intros Hr H1 H2. split; [apply electing_msp|].
  intros x Hx. apply electing_mem; intros Hc.
  - refine (covers_apart _ _ _ _ _ Hr _ H1 Hx Hc). vm_compute.
    split; discriminate.
  - refine (covers_apart _ _ _ _ _ Hr _ H2 Hx Hc). vm_compute.
    split; discriminate.
Qed.

Lemma electing_keeps_fpccr again f s :
  keeps_fpccr (Scenario.electing again f) s.
Proof.
  unfold keeps_fpccr. apply load32_ext. intros x Hx.
  apply electing_mem; intros Hc.
  - refine (covers_apart FPCCR 4 _ _ x _ _ _ Hx Hc); vm_compute;
      try (split; discriminate). right. discriminate.
  - refine (covers_apart FPCCR 4 _ _ x _ _ _ Hx Hc); vm_compute;
      try (split; discriminate). right. discriminate.
Qed.

Lemma electing_helper_next again s :
  next Scenario.osRtxInfo
       (Scenario.electing again (wrap Scenario.thread_switch_helper) s)
  = wrap again.
Proof.
  unfold next.
  change (Scenario.electing again (wrap Scenario.thread_switch_helper) s)
    with (Scenario.elect again s).
  unfold Scenario.elect. cbn [mem set_mem].
  change (run_addr Scenario.osRtxInfo + 4)
    with (Scenario.osRtxInfo + I_T_RUN_OFS + 4).
  apply load32_store32_same.
Qed.

(** SVC 0 with (1, 2, 3, 4) and a service that elects thread B: the
    results (7, 9) are in the frame and the election is in memory when the
    tail is entered. *)
Lemma svc0_marshaling_witness :
  let s := Scenario.with_C
             (Scenario.entry Scenario.tcb_A Scenario.tcb_A 0 0xFFFFFFFD) in
  exists st,
    SVC_Handler true false Scenario.osRtxInfo Scenario.osRtxUserSVC
      Scenario.thread_switch_helper Scenario.return_site
      (Scenario.electing Scenario.tcb_C) s
    = SVC_Context true false Scenario.osRtxInfo
        Scenario.thread_switch_helper Scenario.return_site
        (Scenario.electing Scenario.tcb_C) st
    /\ load32 (mem st) Scenario.frame = 7
    /\ load32 (mem st) (Scenario.frame + 4) = 9
    /\ regs st R12 = Scenario.frame.
Proof.
  pose proof (svc0_marshaling true false Scenario.osRtxInfo
                Scenario.osRtxUserSVC Scenario.thread_switch_helper
                Scenario.return_site (Scenario.electing Scenario.tcb_C)
                (Scenario.with_C
                   (Scenario.entry Scenario.tcb_A Scenario.tcb_A 0
                                   0xFFFFFFFD)))
    as H.
  cbv zeta in H.
  destruct H as (st & _ & _ & _ & _ & Hs & _ & H0 & H1 & _ & H12 & _).
  - closed.
  - unfold exception_entry. closed.
  - apply electing_keeps_stack; closed.
  - exists st.
    split; [exact Hs|].
    split; [etransitivity; [exact H0|closed]|].
    split; [etransitivity; [exact H1|closed]|exact H12].
Defined.

(** PendSV with a policy that elects thread B: the tail is entered with
    the election in memory, R12 = PSP and LR = EXC_RETURN. *)
Lemma trampoline_entry_witness :
  let s := Scenario.with_C
             (Scenario.entry Scenario.tcb_A Scenario.tcb_A 0 0xFFFFFFFD) in
  exists st,
    PendSV_Handler true false Scenario.osRtxInfo
      Scenario.thread_switch_helper Scenario.osRtxPendSV_Handler
      Scenario.return_site (Scenario.electing Scenario.tcb_C) s
    = SVC_Context true false Scenario.osRtxInfo
        Scenario.thread_switch_helper Scenario.return_site
        (Scenario.electing Scenario.tcb_C) st
    /\ regs st R12 = psp st /\ regs st LR = 0xFFFFFFFD
    /\ next Scenario.osRtxInfo st = Scenario.tcb_B.
Proof.
  pose proof (trampoline_entry true false Scenario.osRtxInfo
                Scenario.thread_switch_helper Scenario.osRtxPendSV_Handler
                Scenario.osRtxTick_Handler
                Scenario.return_site (Scenario.electing Scenario.tcb_C)
                (Scenario.with_C
                   (Scenario.entry Scenario.tcb_A Scenario.tcb_A 0
                                   0xFFFFFFFD)))
    as H.
  cbv zeta in H.
  destruct H as (H & _).
  - unfold exception_entry. closed.
  - destruct H as (st & Hs & _ & H12 & Hl & _ & _ & _ & Hm & _).
    + apply electing_keeps_stack; closed.
    + exists st.
      split; [exact Hs|]. split; [exact H12|].
      split; [rewrite Hl; reflexivity|].
      unfold next. rewrite Hm. closed.
Defined.

(** SVC 5 against a table of three entries is ignored. *)
Lemma user_svc_rejected_witness :
  let s := Scenario.entry Scenario.tcb_A Scenario.tcb_A 5 0xFFFFFFFD in
  let s' := SVC_Handler true false Scenario.osRtxInfo Scenario.osRtxUserSVC
              Scenario.thread_switch_helper Scenario.return_site
              Scenario.extern s in
  (forall x, covers (psp s) 32 x -> mem s' x = mem s x) /\
  psp s' = psp s /\ msp s' = msp s.
Proof.
  pose proof (user_svc_rejected true false Scenario.osRtxInfo
                Scenario.osRtxUserSVC Scenario.thread_switch_helper
                Scenario.return_site Scenario.extern
                (Scenario.entry Scenario.tcb_A Scenario.tcb_A 5 0xFFFFFFFD))
    as H.
  cbv zeta in H.
  destruct H as (evs & _ & _ & _ & _ & _ & Hm & Hp & Hs & _).
  - unfold exception_entry. closed.
  - closed.
  - closed.
  - closed.
  - closed.
  - split; [exact Hm|]. split; [exact Hp|exact Hs].
Defined.

(** SVC 1 calls entry 1 of the table, a function that stores a word of
    its own; its result lands in the frame. *)
Lemma user_svc_dispatched_witness :
  let s := Scenario.entry Scenario.tcb_A Scenario.tcb_A 1 0xFFFFFFFD in
  let s' := SVC_Handler true false Scenario.osRtxInfo Scenario.osRtxUserSVC
              Scenario.thread_switch_helper Scenario.return_site
              (Scenario.electing Scenario.tcb_C) s in
  exists evs,
    trace s' = trace s ++ evs /\ ~ In (EvEnter L_SVC_Context) evs /\
    load32 (mem s') Scenario.frame = 42 /\
    psp s' = psp s /\ msp s' = msp s.
Proof.
  pose proof (user_svc_dispatched true false Scenario.osRtxInfo
                Scenario.osRtxUserSVC Scenario.thread_switch_helper
                Scenario.return_site (Scenario.electing Scenario.tcb_C)
                (Scenario.entry Scenario.tcb_A Scenario.tcb_A 1 0xFFFFFFFD))
    as H.
  cbv zeta in H.
  destruct H as (evs & _ & _ & _ & _ & Ht & _ & Hn & Hr & _ & Hp & Hs & _).
  - unfold exception_entry. closed.
  - closed.
  - closed.
  - closed.
  - apply electing_keeps_stack; closed.
  - apply electing_psp.
  - exists evs.
    split; [exact Ht|]. split; [exact Hn|].
    split; [etransitivity; [exact Hr|closed]|]. split; [exact Hp|exact Hs].
Defined.

(** The tail entered with current = next = A. *)
Lemma noop_fast_path_witness :
  let s := Scenario.at_tail Scenario.tcb_A Scenario.tcb_A 0xFFFFFFFD in
  let s' := SVC_Context true false Scenario.osRtxInfo
              Scenario.thread_switch_helper Scenario.return_site
              Scenario.extern s in
  mem s' = mem s /\ psp s' = psp s /\ sregs s' = sregs s.
Proof.
  pose proof (noop_fast_path true false Scenario.osRtxInfo
                Scenario.thread_switch_helper
                Scenario.return_site Scenario.extern
                (Scenario.at_tail Scenario.tcb_A Scenario.tcb_A 0xFFFFFFFD))
    as H.
  cbv zeta in H.
  destruct H as (_ & Hm & _ & _ & _ & _ & Hp & _ & _ & Hs).
  - closed.
  - split; [exact Hm|]. split; [exact Hp|exact Hs].
Defined.

(** The tail entered with both slots null. *)
Lemma null_pair_safe_witness :
  let s := Scenario.at_tail 0 0 0xFFFFFFFD in
  let s' := SVC_Context true false Scenario.osRtxInfo
              Scenario.thread_switch_helper Scenario.return_site
              Scenario.extern s in
  exists evs,
    trace s' = trace s ++ evs /\ (forall a k, ~ In (EvStore a k) evs) /\
    mem s' = mem s.
Proof.
  pose proof (null_pair_safe true false Scenario.osRtxInfo
                Scenario.thread_switch_helper
                Scenario.return_site Scenario.extern
                (Scenario.at_tail 0 0 0xFFFFFFFD))
    as H.
  cbv zeta in H.
  destruct H as (evs & Ht & _ & _ & Hst & Hm & _).
  - closed.
  - closed.
  - exists evs. split; [exact Ht|]. split; [exact Hst|exact Hm].
Defined.

(** C3 as stated fails on its last clause.  The running thread was
    deleted with an extended frame and thread B, suspended with a basic
    frame and [sp] = 0x20008000, is elected: the tail ends with B
    published and PSP = 0x20008020, the top of the 32-byte image it has
    popped, not [sp]. *)
Lemma deleted_thread_psp_counterexample :
  let st := Scenario.at_tail 0 Scenario.tcb_B 0xFFFFFFED in
  let s' := SVC_Context true false Scenario.osRtxInfo
              Scenario.thread_switch_helper Scenario.return_site
              Scenario.extern st in
  current Scenario.osRtxInfo st = 0 /\
  current Scenario.osRtxInfo st <> next Scenario.osRtxInfo st /\
  next Scenario.osRtxInfo s' = Scenario.tcb_B /\
  tcb_sp (mem s') (next Scenario.osRtxInfo s') = 0x20008000 /\
  psp s' = 0x20008020 /\
  psp s' <> tcb_sp (mem s') (next Scenario.osRtxInfo s').
Proof.
  closed.
Qed.

(** The same deleted-thread entry with a helper that elects thread C:
    LSPACT is clear after the tail and C, whose frame is extended, is
    resumed with PSP 96 bytes above its saved [sp]. *)
Lemma deleted_thread_switch_witness :
  let st := Scenario.with_C
              (Scenario.at_tail 0 Scenario.tcb_B 0xFFFFFFED) in
  let s' := SVC_Context true false Scenario.osRtxInfo
              Scenario.thread_switch_helper Scenario.return_site
              (Scenario.electing Scenario.tcb_C) st in
  lspact (mem s') = false /\
  current Scenario.osRtxInfo s' = next Scenario.osRtxInfo s' /\
  psp s' = 0x20009060.
Proof.
  pose proof (deleted_thread_switch true false Scenario.osRtxInfo
                Scenario.thread_switch_helper
                Scenario.return_site (Scenario.electing Scenario.tcb_C)
                (Scenario.with_C
                   (Scenario.at_tail 0 Scenario.tcb_B 0xFFFFFFED)))
    as H.
  cbv zeta in H.
  destruct H as (sA & a0 & a1 & a2 & a3 & evs & _ & _ & _ & _ & _ & _ & _
                 & _ & _ & Hl & Hc & Hp).
  - reflexivity.
  - closed.
  - closed.
  - split; [|split; [exact Hc|rewrite Hp; closed]].
    apply Hl; [closed|closed|closed|apply electing_keeps_fpccr].
Defined.




(* ------------------------------------------------------------------ *)
(** ** The further theorems on the concrete machine *)

Lemma electing_sregs again f s : sregs (Scenario.electing again f s) = sregs s.
Proof.
  unfold Scenario.electing, Scenario.elect.
  repeat match goal with
         | |- context [if ?b then _ else _] => destruct b
         end; reflexivity.
Qed.

Lemma electing_callee_saved again f s :
  keeps_callee_saved (Scenario.electing again f) s.
Proof.
  intros r Hr. unfold R4_R11 in Hr. cbn [In] in Hr.
  unfold Scenario.electing, Scenario.elect.
  repeat match goal with
         | |- context [if ?b then _ else _] => destruct b
         end;
    repeat (destruct Hr as [<-|Hr]; [reflexivity|]); contradiction.
Qed.

(** Two memories agree on a range when they agree on each of its bytes. *)
Lemma covers_check (m1 m2 : memory) a n :
  (let f := m1 in
   let g := m2 in
   forallb (fun i => f (wrap (a + Z.of_nat i)) =? g (wrap (a + Z.of_nat i)))
           (seq 0 (Z.to_nat n))) = true ->
  forall x, covers a n x -> m1 x = m2 x.
Proof.
  cbv zeta. intros H x [i [Hi ->]]. rewrite forallb_forall in H.
  specialize (H (Z.to_nat i)). rewrite Z2Nat.id in H by lia.
  apply Z.eqb_eq, H, in_seq. lia.
Qed.

(** PendSV from thread A, policy electing B, helper electing C: the
    handler returns with MSP at the top of the handler stack. *)
Lemma handler_keeps_msp_witness :
  let s := Scenario.with_C
             (Scenario.entry Scenario.tcb_A Scenario.tcb_A 0 0xFFFFFFFD) in
  msp (run true false Scenario.osRtxInfo Scenario.osRtxUserSVC
         Scenario.thread_switch_helper Scenario.osRtxPendSV_Handler
         Scenario.osRtxTick_Handler Scenario.return_site
         (Scenario.electing Scenario.tcb_C) H_PendSV s)
  = Scenario.handler_stack.
Proof.
  cbv zeta.
  etransitivity;
    [apply (handler_keeps_msp true false Scenario.osRtxInfo
              Scenario.osRtxUserSVC Scenario.thread_switch_helper
              Scenario.osRtxPendSV_Handler Scenario.osRtxTick_Handler
              Scenario.return_site (Scenario.electing Scenario.tcb_C)
              H_PendSV)|reflexivity].
  - unfold exception_entry. closed.
  - unfold prelude_contract. apply electing_keeps_stack; closed.
  - intros st _ _. apply electing_msp.
  - closed.
  - closed.
Defined.

(** PendSV from thread B while A is elected, with a policy that elects B
    again: the tail finds the pair equal and B goes on with the
    registers, stack pointers and EXC_RETURN it was interrupted with. *)
Lemma no_switch_returns_to_thread_witness :
  let s := Scenario.entry Scenario.tcb_B Scenario.tcb_A 0 0xFFFFFFFD in
  let s' := run true false Scenario.osRtxInfo Scenario.osRtxUserSVC
              Scenario.thread_switch_helper Scenario.osRtxPendSV_Handler
              Scenario.osRtxTick_Handler Scenario.return_site
              (Scenario.electing Scenario.tcb_C) H_PendSV s in
  next Scenario.osRtxInfo s <> current Scenario.osRtxInfo s /\
  psp s' = Scenario.frame /\ msp s' = Scenario.handler_stack /\
  regs s' R4 = 104 /\ regs s' R11 = 111 /\ regs s' LR = 0xFFFFFFFD.
Proof.
  cbv zeta. split; [closed|].
  edestruct (no_switch_returns_to_thread true false Scenario.osRtxInfo
               Scenario.osRtxUserSVC Scenario.thread_switch_helper
               Scenario.osRtxPendSV_Handler Scenario.osRtxTick_Handler
               Scenario.return_site (Scenario.electing Scenario.tcb_C)
               H_PendSV
               (Scenario.entry Scenario.tcb_B Scenario.tcb_A 0 0xFFFFFFFD))
    as (Hp & Hm & Hr & Hl & _).
  - unfold exception_entry. closed.
  - unfold prelude_contract. apply electing_keeps_stack; closed.
  - unfold prelude_keeps. apply electing_psp.
  - unfold prelude_keeps. apply electing_callee_saved.
  - cbv beta iota delta [tail_entry]. reflexivity.
  - closed.
  - split; [exact Hp|]. split; [exact Hm|].
    split; [apply Hr; cbn; tauto|]. split; [apply Hr; cbn; tauto|exact Hl].
Defined.

(** SVC 0 from thread B while A is elected, with a service that elects B
    again and returns (7, 9): the caller finds 7 and 9 in the first two
    words of its frame and the service was the one routine called. *)
Lemma svc0_results_visible_witness :
  let s := Scenario.entry Scenario.tcb_B Scenario.tcb_A 0 0xFFFFFFFD in
  let s' := SVC_Handler true false Scenario.osRtxInfo Scenario.osRtxUserSVC
              Scenario.thread_switch_helper Scenario.return_site
              (Scenario.electing Scenario.tcb_C) s in
  exists evs,
    psp s' = Scenario.frame /\
    load32 (mem s') Scenario.frame = 7 /\
    load32 (mem s') (Scenario.frame + 4) = 9 /\
    trace s' = trace s ++ evs ++ [EvExit 0xFFFFFFFD] /\
    call_targets evs = [Scenario.service].
Proof.
  pose proof (svc0_results_visible true false Scenario.osRtxInfo
                Scenario.osRtxUserSVC Scenario.thread_switch_helper
                Scenario.return_site (Scenario.electing Scenario.tcb_C)
                (Scenario.entry Scenario.tcb_B Scenario.tcb_A 0 0xFFFFFFFD))
    as H.
  cbv zeta in H.
  destruct H as (evs & _ & _ & _ & _ & Hp & H0 & H1 & _ & Ht & Hc).
  - closed.
  - unfold exception_entry. closed.
  - apply electing_keeps_stack; closed.
  - apply electing_psp.
  - closed.
  - exists evs.
    split; [exact Hp|].
    split; [etransitivity; [exact H0|closed]|].
    split; [etransitivity; [exact H1|closed]|].
    split; [exact Ht|]. etransitivity; [exact Hc|closed].
Defined.

(** The tail switching from A to B, whose frame is basic: no FPU register
    is written. *)
Lemma fp_registers_by_frame_witness :
  let st := Scenario.at_tail Scenario.tcb_A Scenario.tcb_B 0xFFFFFFED in
  let s' := SVC_Context true false Scenario.osRtxInfo
              Scenario.thread_switch_helper Scenario.return_site
              (Scenario.electing Scenario.tcb_B) st in
  sregs s' = sregs st.
Proof.
  cbv zeta.
  apply (fp_registers_by_frame true false Scenario.osRtxInfo
           Scenario.thread_switch_helper Scenario.return_site
           (Scenario.electing Scenario.tcb_B)
           (Scenario.at_tail Scenario.tcb_A Scenario.tcb_B 0xFFFFFFED)).
  - intros _. apply electing_sregs.
  - right. right. closed.
Defined.

(** Without an FPU, a deleted thread and EXC_RETURN 0xFFFFFFED: the save
    runs with the null handle and writes the word at 56 and the byte at
    34. *)
Lemma no_fpu_deleted_thread_witness :
  let st := Scenario.at_tail 0 Scenario.tcb_B 0xFFFFFFED in
  exists sA,
    SVC_Context false false Scenario.osRtxInfo
      Scenario.thread_switch_helper Scenario.return_site
      (Scenario.electing Scenario.tcb_B) st
    = SVC_ContextSwitch false false Scenario.osRtxInfo
        Scenario.thread_switch_helper Scenario.return_site
        (Scenario.electing Scenario.tcb_B) sA /\
    load32 (mem sA) 56 = Scenario.frame - 32 /\
    load8 (mem sA) 34 = 0xED.
Proof.
  pose proof (no_fpu_deleted_thread false false Scenario.osRtxInfo
                Scenario.thread_switch_helper Scenario.return_site
                (Scenario.electing Scenario.tcb_B)
                (Scenario.at_tail 0 Scenario.tcb_B 0xFFFFFFED))
    as H.
  cbv zeta in H.
  destruct H as (sA & _ & Hs & Hm & _).
  - reflexivity.
  - closed.
  - closed.
  - exists sA. split; [exact Hs|].
    rewrite Hm. closed.
Defined.

(** Thread A, interrupted with an extended frame, is switched out for B;
    a later run of the tail, entered with B current and A elected, resumes
    A with the registers saved by the first. *)
Lemma thread_resumed_as_saved_witness :
  let st1 := Scenario.at_tail Scenario.tcb_A Scenario.tcb_B 0xFFFFFFED in
  let s1 := SVC_Context true false Scenario.osRtxInfo
              Scenario.thread_switch_helper Scenario.return_site
              Scenario.extern st1 in
  let st2 := set_reg (Scenario.elect Scenario.tcb_A s1) R12 (psp s1) in
  let s' := SVC_Context true false Scenario.osRtxInfo
              Scenario.thread_switch_helper Scenario.return_site
              Scenario.extern st2 in
  regs s1 R4 <> regs st1 R4 /\
  regs s' R4 = 104 /\ regs s' R11 = 111 /\ sregs s' S16 = 1016 /\
  psp s' = Scenario.frame /\ regs s' LR = 0xFFFFFFED.
Proof.
  cbv zeta. split; [closed|].
  edestruct (thread_resumed_as_saved true false Scenario.osRtxInfo
               Scenario.thread_switch_helper Scenario.return_site
               Scenario.extern
               (Scenario.at_tail Scenario.tcb_A Scenario.tcb_B 0xFFFFFFED)
               (set_reg
                  (Scenario.elect Scenario.tcb_A
                     (SVC_Context true false Scenario.osRtxInfo
                        Scenario.thread_switch_helper Scenario.return_site
                        Scenario.extern
                        (Scenario.at_tail Scenario.tcb_A Scenario.tcb_B
                                          0xFFFFFFED)))
                  R12
                  (psp (SVC_Context true false Scenario.osRtxInfo
                          Scenario.thread_switch_helper Scenario.return_site
                          Scenario.extern
                          (Scenario.at_tail Scenario.tcb_A Scenario.tcb_B
                                            0xFFFFFFED)))))
    as (_ & Hr & Hs & Hp & _ & Hl).
  - reflexivity.
  - closed.
  - closed.
  - closed.
  - closed.
  - closed.
  - closed.
  - closed.
  - closed.
  - closed.
  - closed.
  - closed.
  - intros x [Hx|[Hx|Hx]]; revert x Hx; apply covers_check;
      vm_compute; reflexivity.
  - split; [etransitivity; [apply Hr; cbn; tauto|closed]|].
    split; [etransitivity; [apply Hr; cbn; tauto|closed]|].
    split; [etransitivity; [apply Hs; [closed|cbn; tauto]|closed]|].
    split; [etransitivity; [exact Hp|closed]|].
    etransitivity; [apply Hl; closed|closed].
Defined.
